(** * Smart campus manager: predictive maintenance engine and agent workflow

    A shallow embedding of the two scripts of [smart-campus-manager/scripts]:

    - [predictive-maintenance-engine.py]: the mock regressors, the
      [PredictiveMaintenanceEngine] and its scoring helpers;
    - [setup-langgraph-agent.py]: the mock [StateGraph] / [CompiledGraph]
      executor and the six handlers of [SmartCampusAgent].

    Conventions of the embedding.

    - A Python [float] is an IEEE binary64 number.  Finite floats are
      rationals, and every arithmetic operation is the exact operation
      followed by rounding to nearest, ties to even, on a 53 bit significand
      with gradual underflow ([Float64.fl]).  Infinities and NaN are outside
      the model: inputs are finite and results are taken to stay in range.
    - A Python [int] is a [Z]; [int(x)] truncates toward zero.  A number that
      may be an int or a float is a rational; one that rounds beyond the
      largest finite float can only be an int, and converting it to a float,
      or dividing two ints with such a quotient, raises [OverflowError].
    - Code that reads [np.random] or [datetime.now()], mutates [self] or may
      raise runs in a state and exception monad ([Runtime.M]).  The random
      generator is a tape of unit samples in [[0,1)] and a cursor; the clock is
      a tape of instants and a cursor.
    - Console output ([print]) is not modelled. *)

From Stdlib Require Import ZArith QArith Qround Qpower Lia Lqa.
From Stdlib Require Import PrimFloat FloatOps SpecFloat.
From stdpp Require Import gmap strings list fin_maps pretty.

(* ===================================================================== *)
(** * Part I: definitions *)
(* ===================================================================== *)

(** ** Binary64 arithmetic on rationals *)

Module Float64.
Local Open Scope Q_scope.

Definition pow2 (e : Z) : Q := Qpower 2 e.

(** Nearest integer, ties to the even one. *)
Definition rnd_even (q : Q) : Z :=
  let f := Qfloor q in
  match Qcompare (q - inject_Z f) (1 # 2) with
  | Lt => f
  | Gt => (f + 1)%Z
  | Eq => if Z.even f then f else (f + 1)%Z
  end.

(** [ilog2 q] is the binade of a positive [q]: [2^e <= q < 2^(e+1)]. *)
Definition ilog2 (q : Q) : Z :=
  let e0 := (Z.log2 (Qnum q) - Z.log2 (Zpos (Qden q)))%Z in
  if Qle_bool (pow2 e0) q then e0 else (e0 - 1)%Z.

(** Smallest exponent of a normal number; below it numbers are subnormal. *)
Definition emin : Z := (-1022)%Z.

Definition eff_exp (q : Q) : Z := Z.max (ilog2 q) emin.

Definition fl_pos (q : Q) : Q :=
  let e := eff_exp q in
  Qred (inject_Z (rnd_even (q * pow2 (52 - e))) * pow2 (e - 52)).

(** Round a rational to binary64. *)
Definition fl (q : Q) : Q :=
  match Qcompare q 0 with
  | Eq => 0
  | Gt => fl_pos q
  | Lt => Qred (- fl_pos (- q))
  end.

Definition fadd (x y : Q) : Q := fl (x + y).
Definition fsub (x y : Q) : Q := fl (x - y).
Definition fmul (x y : Q) : Q := fl (x * y).
Definition fdiv (x y : Q) : Q := fl (x / y).

(** [float(n)] and the true division [n / m] of two ints. *)
Definition of_int (n : Z) : Q := fl (inject_Z n).
Definition int_truediv (n m : Z) : Q := fl (inject_Z n / inject_Z m).

(** [int(x)]: truncation toward zero. *)
Definition to_int (x : Q) : Z := Z.quot (Qnum x) (Zpos (Qden x)).

(** [round(x)] on a float: nearest integer, ties to even. *)
Definition py_round (x : Q) : Z := rnd_even x.

(** The builtins [min(a, b)] and [max(a, b)]: the first argument wins a tie. *)
Definition py_min (a b : Q) : Q := if Qlt_le_dec b a then b else a.
Definition py_max (a b : Q) : Q := if Qlt_le_dec a b then b else a.

Definition gtb (x y : Q) : bool := negb (Qle_bool x y).
Definition ltb (x y : Q) : bool := negb (Qle_bool y x).

(** [overflows q]: rounded to 53 bits, [q] reaches [2 ^ 1024] in magnitude, so
    it has no finite binary64 value.  The largest finite float is
    [2 ^ 1024 - 2 ^ 971]; the tie [2 ^ 1024 - 2 ^ 970] rounds to even, upward. *)
Definition overflows (q : Q) : bool :=
  Qle_bool (pow2 1024) (fl q) || Qle_bool (fl q) (- pow2 1024).

(** [agrees f q]: the primitive binary64 number [f] of the kernel is finite
    and its value is the rational [q]. *)
Definition agrees (f : PrimFloat.float) (q : Q) : bool :=
  match Prim2SF f with
  | S754_zero _ => Qeq_bool 0 q
  | S754_finite s m e =>
      Qeq_bool ((if s then -1 else 1) * inject_Z (Zpos m) * pow2 e) q
  | _ => false
  end.

End Float64.

Declare Scope f64_scope.
Delimit Scope f64_scope with f64.
Infix "+~" := Float64.fadd (at level 50, left associativity) : f64_scope.
Infix "-~" := Float64.fsub (at level 50, left associativity) : f64_scope.
Infix "*~" := Float64.fmul (at level 40, left associativity) : f64_scope.
Infix "/~" := Float64.fdiv (at level 40, left associativity) : f64_scope.
Infix ">~" := Float64.gtb (at level 70, no associativity) : f64_scope.
Infix "<~" := Float64.ltb (at level 70, no associativity) : f64_scope.
(** A decimal literal of the source, e.g. [0.3], is written [lit (3 # 10)]. *)
Abbreviation lit := Float64.fl (only parsing).

(** ** Exceptions, state and loops *)

Module Runtime.

Inductive Exception : Type :=
  | ValueError (msg : string)
  | IndexError (msg : string)
  | OverflowError (msg : string).

Inductive Res (A : Type) : Type :=
  | Ok (a : A)
  | Raise (e : Exception).
Arguments Ok {A} a.
Arguments Raise {A} e.

(** A computation over a world [W]: it returns or raises, and the world it
    leaves behind is kept in both cases. *)
Definition M (W A : Type) : Type := W -> Res A * W.

Definition ret {W A} (a : A) : M W A := fun w => (Ok a, w).
Definition raise {W A} (e : Exception) : M W A := fun w => (Raise e, w).
Definition bind {W A B} (m : M W A) (k : A -> M W B) : M W B :=
  fun w => match m w with
           | (Ok a, w') => k a w'
           | (Raise e, w') => (Raise e, w')
           end.
#[global] Instance M_ret {W} : MRet (M W) := fun A => @ret W A.
#[global] Instance M_bind {W} : MBind (M W) := fun A B k m => @bind W A B m k.
Definition get {W} : M W W := fun w => (Ok w, w).
Definition put {W} (w : W) : M W unit := fun _ => (Ok tt, w).

(** [try: body except Exception as e: handler(e)] *)
Definition try_except {W A} (body : M W A) (handler : Exception -> M W A) : M W A :=
  fun w => match body w with
           | (Ok a, w') => (Ok a, w')
           | (Raise e, w') => handler e w'
           end.

(** [for x in xs: acc = body(acc, x)] *)
Fixpoint for_each {W A B} (xs : list A) (acc : B) (body : B -> A -> M W B) : M W B :=
  match xs with
  | [] => mret acc
  | x :: xs' => acc' ← body acc x; for_each xs' acc' body
  end.

(** [n] successive results of [m], as the array a sized numpy call returns. *)
Fixpoint replicateM {W A} (n : nat) (m : M W A) : M W (list A) :=
  match n with
  | O => mret []
  | S n' => a ← m; l ← replicateM n' m; mret (a :: l)
  end.

(** [xs[0]] *)
Definition index0 {W A} (xs : list A) : M W A :=
  match xs with
  | x :: _ => mret x
  | [] => raise (IndexError "index 0 is out of bounds")
  end.

(** A number used as a float operand, as in [n * 0.15]: a float is itself,
    an int is converted, and an int beyond the floats raises. *)
Definition as_float {W} (n : Q) : M W Q :=
  if Float64.overflows n
  then raise (OverflowError "int too large to convert to float")
  else mret (Float64.fl n).

(** [n / m] on two ints, [m] not zero: the quotient rounded once, and an
    exception when it is beyond the floats. *)
Definition int_true_divide {W} (n m : Z) : M W Q :=
  if Float64.overflows (inject_Z n / inject_Z m)
  then raise (OverflowError "integer division result too large for a float")
  else mret (Float64.int_truediv n m).

(** A computation returns when it yields a value from every world. *)
Definition returns {W A} (m : M W A) : Prop :=
  forall w, exists a w', m w = (Ok a, w').

End Runtime.


(** ** predictive-maintenance-engine.py *)

Module Engine.
Import Runtime.
Local Open Scope Z_scope.
Local Open Scope f64_scope.

(** A history entry, e.g. [{"date": "2024-01-15", "type": "filter_change"}]. *)
Definition Dict : Type := list (string * string).

Record EquipmentData : Type := {
  equipment_id : string;
  equipment_type : string;
  age_years : Q;
  usage_hours : Q;
  temperature : Q;
  vibration : Q;
  pressure : Q;
  current_draw : Q;
  last_maintenance_days : Z;
  maintenance_history : list Dict;
  failure_history : list Dict
}.

Record MaintenancePrediction : Type := {
  prediction_equipment_id : string;
  failure_probability : Q;
  days_to_failure : Z;
  confidence_score : Q;
  risk_level : string;
  recommended_actions : list string;
  estimated_cost : Q;
  factors : list string
}.

Record RandomForestRegressor : Type := {
  rf_n_estimators : Z;
  rf_random_state : Z;
  rf_is_fitted : bool
}.

Record IsolationForest : Type := {
  if_contamination : Q;
  if_random_state : Z;
  if_is_fitted : bool
}.

Record PredictiveMaintenanceEngine : Type := {
  failure_model : RandomForestRegressor;
  anomaly_detector : IsolationForest;
  is_trained : bool;
  feature_columns : list string
}.

(** The engine object [self] and the process-wide generator [np.random]:
    [np_samples] is the tape of unit samples, [np_cursor] the next one. *)
Record World : Type := {
  self : PredictiveMaintenanceEngine;
  np_samples : nat -> Q;
  np_cursor : nat
}.

Definition set_self (e : PredictiveMaintenanceEngine) (w : World) : World :=
  {| self := e; np_samples := np_samples w; np_cursor := np_cursor w |}.

(** *** numpy's generator *)

Definition random_sample : M World Q :=
  fun w => (Ok (np_samples w (np_cursor w)),
            {| self := self w; np_samples := np_samples w; np_cursor := S (np_cursor w) |}).

(** [np.random.uniform(low, high)]: [low + (high - low) * u]. *)
Definition np_random_uniform (low high : Q) : M World Q :=
  u ← random_sample; mret (low +~ (high -~ low) *~ u).

(** [np.random.randint(low, high)]: an int of [[low, high)], whatever the
    generator yields; the scaled sample is reduced modulo the width, which
    changes nothing for a sample of [[0,1)]. *)
Definition np_random_randint (low high : Z) : M World Z :=
  if high <=? low then raise (ValueError "low >= high")
  else u ← random_sample;
       mret (low + Qfloor (u * inject_Z (high - low)) mod (high - low)).

(** [np.random.choice(a)]: a uniformly drawn element of [a]. *)
Definition np_random_choice (a : list string) : M World string :=
  i ← np_random_randint 0 (Z.of_nat (length a));
  mret (nth (Z.to_nat i) a ""%string).

(** [np.random.choice([x, y], p=[px, 1 - px])]: [x] when the sample falls
    below the first cumulative probability. *)
Definition np_random_choice2 (x y : Z) (px : Q) : M World Z :=
  u ← random_sample; mret (if u <~ px then x else y).

(** *** The mock scikit-learn models *)

Definition RandomForestRegressor_init : RandomForestRegressor :=
  {| rf_n_estimators := 100; rf_random_state := 42; rf_is_fitted := false |}.

Definition RandomForestRegressor_fit (m : RandomForestRegressor)
    (X : list (list Q)) (y : list Q) : RandomForestRegressor :=
  {| rf_n_estimators := rf_n_estimators m; rf_random_state := rf_random_state m;
     rf_is_fitted := true |}.

Definition RandomForestRegressor_predict (m : RandomForestRegressor)
    (X : list (list Q)) : M World (list Q) :=
  if rf_is_fitted m
  then replicateM (length X) (np_random_uniform (lit (1 # 10)) (lit (9 # 10)))
  else raise (ValueError "Model not fitted").

Definition IsolationForest_init : IsolationForest :=
  {| if_contamination := lit (1 # 10); if_random_state := 42; if_is_fitted := false |}.

Definition IsolationForest_fit (m : IsolationForest) (X : list (list Q)) : IsolationForest :=
  {| if_contamination := if_contamination m; if_random_state := if_random_state m;
     if_is_fitted := true |}.

Definition IsolationForest_predict (m : IsolationForest)
    (X : list (list Q)) : M World (list Z) :=
  if if_is_fitted m
  then replicateM (length X) (np_random_choice2 (-1) 1 (if_contamination m))
  else raise (ValueError "Model not fitted").

(** *** PredictiveMaintenanceEngine *)

Definition PredictiveMaintenanceEngine_init : PredictiveMaintenanceEngine :=
  {| failure_model := RandomForestRegressor_init;
     anomaly_detector := IsolationForest_init;
     is_trained := false;
     feature_columns := ["age_years"; "usage_hours"; "temperature"; "vibration";
                         "pressure"; "current_draw"; "last_maintenance_days"]%string |}.

(** The 1 x 7 array [np.array(features).reshape(1, -1)]. *)
Definition prepare_features (equipment_data : EquipmentData) : list (list Q) :=
  [[ age_years equipment_data;
     usage_hours equipment_data;
     temperature equipment_data;
     vibration equipment_data;
     pressure equipment_data;
     current_draw equipment_data;
     Float64.of_int (last_maintenance_days equipment_data) ]].

(** The five local factors of [_calculate_failure_probability]; the last one
    divides two ints. *)
Definition age_factor (equipment : EquipmentData) : Q :=
  Float64.py_min (age_years equipment /~ 20) 1.
Definition usage_factor (equipment : EquipmentData) : Q :=
  Float64.py_min (usage_hours equipment /~ 50000) 1.
Definition temp_factor (equipment : EquipmentData) : Q :=
  Float64.py_max 0 ((temperature equipment -~ 25) /~ 50).
Definition vibration_factor (equipment : EquipmentData) : Q :=
  Float64.py_min (vibration equipment /~ 10) 1.
Definition maintenance_factor (equipment : EquipmentData) : M World Q :=
  ratio ← int_true_divide (last_maintenance_days equipment) 365;
  mret (Float64.py_min ratio 1).

Definition _calculate_failure_probability (equipment : EquipmentData) : M World Q :=
  let age_factor := age_factor equipment in
  let usage_factor := usage_factor equipment in
  let temp_factor := temp_factor equipment in
  let vibration_factor := vibration_factor equipment in
  maintenance_factor ← maintenance_factor equipment;
  let failure_prob :=
    age_factor *~ lit (3 # 10) +~ usage_factor *~ lit (25 # 100)
    +~ temp_factor *~ lit (2 # 10) +~ vibration_factor *~ lit (15 # 100)
    +~ maintenance_factor *~ lit (1 # 10) in
  mret (Float64.py_min (Float64.py_max failure_prob (lit (1 # 100))) (lit (99 # 100))).

Definition type_multipliers : gmap string Q :=
  <["hvac" := lit (12 # 10)]> (<["elevator" := lit (8 # 10)]> (<["generator" := lit (15 # 10)]>
  (<["pump" := lit 1]> (<["lighting" := lit 2]> ∅))))%string.

Definition _calculate_days_to_failure (failure_prob : Q) (equipment : EquipmentData) : Z :=
  let base_days := Float64.to_int ((1 -~ failure_prob) *~ 365) in
  let multiplier := default (lit 1) (type_multipliers !! equipment_type equipment) in
  Z.max 1 (Float64.to_int (Float64.of_int base_days *~ multiplier)).

Definition _determine_risk_level (failure_prob : Q) (days_to_failure : Z)
    (is_anomaly : bool) : string :=
  if is_anomaly || (failure_prob >~ lit (8 # 10)) || (days_to_failure <=? 7) then "critical"
  else if (failure_prob >~ lit (6 # 10)) || (days_to_failure <=? 30) then "high"
  else if (failure_prob >~ lit (4 # 10)) || (days_to_failure <=? 90) then "medium"
  else "low".

Definition _generate_recommendations (equipment : EquipmentData) (risk_level : string)
    (is_anomaly : bool) : list string :=
  let recommendations : list string := [] in
  let recommendations :=
    if String.eqb risk_level "critical" then
      recommendations ++ ["Schedule immediate inspection"; "Prepare replacement parts";
                          "Consider temporary shutdown if safe";
                          "Notify maintenance team urgently"]
    else if String.eqb risk_level "high" then
      recommendations ++ ["Schedule maintenance within 1 week"; "Order replacement parts";
                          "Increase monitoring frequency"; "Plan for potential downtime"]
    else if String.eqb risk_level "medium" then
      recommendations ++ ["Schedule preventive maintenance"; "Review maintenance procedures";
                          "Monitor performance trends"]
    else
      recommendations ++ ["Continue regular monitoring"; "Maintain current schedule"] in
  let recommendations :=
    if String.eqb (equipment_type equipment) "hvac" then
      let recommendations :=
        if temperature equipment >~ 30
        then recommendations ++ ["Check cooling system efficiency"]
        else recommendations in
      recommendations ++ ["Inspect and replace filters if needed"]
    else if String.eqb (equipment_type equipment) "elevator" then
      recommendations ++ ["Inspect cables and pulleys"; "Check safety systems";
                          "Lubricate moving parts"]
    else if String.eqb (equipment_type equipment) "generator" then
      recommendations ++ ["Test under load conditions"; "Check fuel system";
                          "Inspect electrical connections"]
    else recommendations in
  if is_anomaly then recommendations ++ ["Investigate unusual sensor readings"]
  else recommendations.

Definition base_costs : gmap string Z :=
  <["hvac" := 800]> (<["elevator" := 2500]> (<["generator" := 1500]>
  (<["pump" := 600]> (<["lighting" := 200]> ∅))))%string.

Definition risk_multipliers : gmap string Q :=
  <["critical" := lit (25 # 10)]> (<["high" := lit (18 # 10)]>
  (<["medium" := lit (12 # 10)]> (<["low" := lit 1]> ∅)))%string.

Definition _estimate_maintenance_cost (equipment : EquipmentData) (risk_level : string) : Q :=
  let base_cost := default 1000 (base_costs !! equipment_type equipment) in
  let multiplier := default (lit 1) (risk_multipliers !! risk_level) in
  let age_multiplier := 1 +~ (age_years equipment /~ 20) in
  Float64.of_int base_cost *~ multiplier *~ age_multiplier.

Definition _calculate_confidence (equipment : EquipmentData) (failure_prob : Q) : Q :=
  let base_confidence := lit (7 # 10) in
  let history_factor :=
    Float64.py_min
      (Float64.int_truediv (Z.of_nat (length (maintenance_history equipment))) 10)
      (lit (2 # 10)) in
  let sensor_consistency := lit (1 # 10) in
  let age_factor := Float64.py_min (age_years equipment /~ 10) (lit (1 # 10)) in
  let confidence := base_confidence +~ history_factor +~ sensor_consistency +~ age_factor in
  Float64.py_min confidence (lit (95 # 100)).

Definition _identify_factors (equipment : EquipmentData) (is_anomaly : bool) : list string :=
  let factors : list string := [] in
  let factors := if age_years equipment >~ 10
                 then factors ++ ["Equipment age"] else factors in
  let factors := if usage_hours equipment >~ 30000
                 then factors ++ ["High usage hours"] else factors in
  let factors := if temperature equipment >~ 30
                 then factors ++ ["Elevated temperature"] else factors in
  let factors := if vibration equipment >~ 5
                 then factors ++ ["Excessive vibration"] else factors in
  let factors := if 180 <? last_maintenance_days equipment
                 then factors ++ ["Overdue maintenance"] else factors in
  let factors := if is_anomaly
                 then factors ++ ["Anomalous sensor readings"] else factors in
  let factors := if (2 <? length (failure_history equipment))%nat
                 then factors ++ ["Previous failure history"] else factors in
  match factors with
  | [] => ["Normal operating conditions"]
  | _ => factors
  end.

Definition train_models (historical_data : list EquipmentData) : M World unit :=
  '(X_train, y_train) ←
    for_each historical_data ([], [])
      (fun '(X_train, y_train) equipment =>
         let features := concat (prepare_features equipment) in
         failure_prob ← _calculate_failure_probability equipment;
         mret (X_train ++ [features], y_train ++ [failure_prob]));
  w ← get;
  let s := self w in
  put (set_self {| failure_model := RandomForestRegressor_fit (failure_model s) X_train y_train;
                   anomaly_detector := IsolationForest_fit (anomaly_detector s) X_train;
                   is_trained := true;
                   feature_columns := feature_columns s |} w).

Definition mock_equipment (i : nat) : M World EquipmentData :=
  ty ← np_random_choice ["hvac"; "elevator"; "generator"; "pump"];
  age ← np_random_uniform 1 20;
  usage ← np_random_uniform 1000 50000;
  temp ← np_random_uniform 20 40;
  vib ← np_random_uniform 0 10;
  pres ← np_random_uniform 0 100;
  cur ← np_random_uniform 10 100;
  lmd ← np_random_randint 1 365;
  mret {| equipment_id := "mock-" +:+ pretty i;
          equipment_type := ty;
          age_years := age;
          usage_hours := usage;
          temperature := temp;
          vibration := vib;
          pressure := pres;
          current_draw := cur;
          last_maintenance_days := lmd;
          maintenance_history := [];
          failure_history := [] |}.

Definition _mock_training : M World unit :=
  mock_data ← for_each (seq 0 100) []
                 (fun mock_data i => equipment ← mock_equipment i;
                                     mret (mock_data ++ [equipment]));
  train_models mock_data.

Definition predict_maintenance (equipment_data : EquipmentData) : M World MaintenancePrediction :=
  w ← get;
  (if is_trained (self w) then mret tt else _mock_training);;
  let features := prepare_features equipment_data in
  w ← get;
  predicted ← RandomForestRegressor_predict (failure_model (self w)) features;
  failure_prob ← index0 predicted;
  w ← get;
  scores ← IsolationForest_predict (anomaly_detector (self w)) features;
  anomaly_score ← index0 scores;
  let is_anomaly := anomaly_score =? -1 in
  let days_to_failure := _calculate_days_to_failure failure_prob equipment_data in
  let risk_level := _determine_risk_level failure_prob days_to_failure is_anomaly in
  let recommendations := _generate_recommendations equipment_data risk_level is_anomaly in
  let estimated_cost := _estimate_maintenance_cost equipment_data risk_level in
  let confidence_score := _calculate_confidence equipment_data failure_prob in
  let factors := _identify_factors equipment_data is_anomaly in
  mret {| prediction_equipment_id := equipment_id equipment_data;
          failure_probability := failure_prob;
          days_to_failure := days_to_failure;
          confidence_score := confidence_score;
          risk_level := risk_level;
          recommended_actions := recommendations;
          estimated_cost := estimated_cost;
          factors := factors |}.

(** The record [predict_maintenance] builds once the failure model has
    answered [failure_prob] and the anomaly detector [is_anomaly]. *)
Definition prediction_of (equipment_data : EquipmentData) (failure_prob : Q)
    (is_anomaly : bool) : MaintenancePrediction :=
  let days_to_failure := _calculate_days_to_failure failure_prob equipment_data in
  let risk_level := _determine_risk_level failure_prob days_to_failure is_anomaly in
  {| prediction_equipment_id := equipment_id equipment_data;
     failure_probability := failure_prob;
     days_to_failure := days_to_failure;
     confidence_score := _calculate_confidence equipment_data failure_prob;
     risk_level := risk_level;
     recommended_actions := _generate_recommendations equipment_data risk_level is_anomaly;
     estimated_cost := _estimate_maintenance_cost equipment_data risk_level;
     factors := _identify_factors equipment_data is_anomaly |}.

(** What the two mock models compute from one unit sample [u]. *)
Definition model_failure_prob (u : Q) : Q :=
  lit (1 # 10) +~ (lit (9 # 10) -~ lit (1 # 10)) *~ u.
Definition model_is_anomaly (contamination u : Q) : bool := u <~ contamination.

(** The world after [n] more samples have been drawn, and the engine once
    [train_models] has run. *)
Definition advance (n : nat) (w : World) : World :=
  {| self := self w; np_samples := np_samples w; np_cursor := n + np_cursor w |}.
Definition trained (s : PredictiveMaintenanceEngine) : PredictiveMaintenanceEngine :=
  {| failure_model := RandomForestRegressor_fit (failure_model s) [] [];
     anomaly_detector := IsolationForest_fit (anomaly_detector s) [];
     is_trained := true;
     feature_columns := feature_columns s |}.

Definition models_fitted (w : World) : Prop :=
  rf_is_fitted (failure_model (self w)) = true /\
  if_is_fitted (anomaly_detector (self w)) = true.

(** An engine is usable when it is untrained (it will bootstrap itself) or
    when both of its models have been fitted. *)
Definition usable (w : World) : Prop :=
  is_trained (self w) = false \/ models_fitted w.

(** The cursor at which the failure model draws in the next prediction:
    the bootstrap consumes 100 x 8 samples first. *)
Definition draw_cursor (w : World) : nat :=
  if is_trained (self w) then np_cursor w else (800 + np_cursor w)%nat.

(** [batch_predict] calls [self.predict_maintenance] inside [try]; the method
    it dispatches to is the parameter [scorer]. *)
Definition batch_predict_with (scorer : EquipmentData -> M World MaintenancePrediction)
    (equipment_list : list EquipmentData) : M World (list MaintenancePrediction) :=
  for_each equipment_list []
    (fun predictions equipment =>
       try_except
         (prediction ← scorer equipment; mret (predictions ++ [prediction]))
         (fun e => mret predictions)).

Definition batch_predict : list EquipmentData -> M World (list MaintenancePrediction) :=
  batch_predict_with predict_maintenance.

Definition append_to (key : string) (prediction : MaintenancePrediction)
    (schedule : gmap string (list MaintenancePrediction))
    : gmap string (list MaintenancePrediction) :=
  <[key := default [] (schedule !! key) ++ [prediction]]> schedule.

Definition generate_maintenance_schedule (predictions : list MaintenancePrediction)
    : gmap string (list MaintenancePrediction) :=
  let schedule : gmap string (list MaintenancePrediction) :=
    <["immediate" := []]> (<["this_week" := []]> (<["this_month" := []]>
    (<["next_quarter" := []]> ∅)))%string in
  fold_left
    (fun schedule prediction =>
       if String.eqb (risk_level prediction) "critical" || (days_to_failure prediction <=? 3)
       then append_to "immediate" prediction schedule
       else if days_to_failure prediction <=? 7
       then append_to "this_week" prediction schedule
       else if days_to_failure prediction <=? 30
       then append_to "this_month" prediction schedule
       else append_to "next_quarter" prediction schedule)
    predictions schedule.

(** The two records of the script's [main()]. *)
Definition eq_001 : EquipmentData :=
  {| equipment_id := "eq-001"; equipment_type := "hvac";
     age_years := lit (85 # 10); usage_hours := 35000; temperature := lit (325 # 10);
     vibration := lit (32 # 10); pressure := lit 85; current_draw := lit (452 # 10);
     last_maintenance_days := 120;
     maintenance_history := [[("date", "2024-01-15"); ("type", "filter_change")]]%string;
     failure_history := [] |}.

Definition eq_002 : EquipmentData :=
  {| equipment_id := "eq-002"; equipment_type := "elevator";
     age_years := lit 12; usage_hours := 45000; temperature := lit 28;
     vibration := lit (68 # 10); pressure := 0; current_draw := lit (785 # 10);
     last_maintenance_days := 45;
     maintenance_history := [[("date", "2024-02-01"); ("type", "safety_inspection")]]%string;
     failure_history := [[("date", "2023-08-15"); ("type", "cable_wear")]]%string |}.

Definition main_equipment_data : list EquipmentData := [eq_001; eq_002].

End Engine.

(** ** setup-langgraph-agent.py: the mock graph library *)

Module Graph.
Import Runtime.

Section Executor.
Context {S W : Type}.

(** A node function: it receives the state and returns the next one. *)
Definition Handler : Type := S -> M W S.

Record StateGraph : Type := {
  nodes : gmap string Handler;
  edges : gmap string (list string);
  entry_point : option string
}.

Definition StateGraph_init : StateGraph :=
  {| nodes := ∅; edges := ∅; entry_point := None |}.

Definition add_node (name : string) (func : Handler) (g : StateGraph) : StateGraph :=
  {| nodes := <[name := func]> (nodes g); edges := edges g; entry_point := entry_point g |}.

Definition add_edge (from_node to_node : string) (g : StateGraph) : StateGraph :=
  {| nodes := nodes g;
     edges := <[from_node := default [] (edges g !! from_node) ++ [to_node]]> (edges g);
     entry_point := entry_point g |}.

Definition set_entry_point (node : string) (g : StateGraph) : StateGraph :=
  {| nodes := nodes g; edges := edges g; entry_point := Some node |}.

Record CompiledGraph : Type := {
  c_nodes : gmap string Handler;
  c_edges : gmap string (list string);
  c_entry_point : option string
}.

Definition compile (g : StateGraph) : CompiledGraph :=
  {| c_nodes := nodes g; c_edges := edges g; c_entry_point := entry_point g |}.

(** Truth value of [current_node] in [while current_node:]. *)
Definition truthy (current_node : option string) : option string :=
  match current_node with
  | Some EmptyString => None
  | other => other
  end.

(** The [while] loop of [ainvoke]; [fuel] bounds the number of iterations,
    and [None] means that the bound was reached. *)
Fixpoint ainvoke_loop (fuel : nat) (g : CompiledGraph) (current_node : option string)
    (state : S) (w : W) : option (Res S * W) :=
  match fuel with
  | O => None
  | Datatypes.S fuel' =>
    match truthy current_node with
    | None => Some (Ok state, w)
    | Some name =>
      match c_nodes g !! name with
      | Some handler =>
        match handler state w with
        | (Ok state', w') =>
          match c_edges g !! name with
          | Some (next :: _) => ainvoke_loop fuel' g (Some next) state' w'
          | Some [] => Some (Raise (IndexError "list index out of range"), w')
          | None => Some (Ok state', w')
          end
        | (Raise e, w') => Some (Raise e, w')
        end
      | None => Some (Ok state, w)
      end
    end
  end.

Definition ainvoke (fuel : nat) (g : CompiledGraph) (state : S) (w : W)
    : option (Res S * W) :=
  ainvoke_loop fuel g (c_entry_point g) state w.

(** The same loop, also recording the names of the nodes whose function it
    called, in call order. *)
Fixpoint ainvoke_loop_trace (fuel : nat) (g : CompiledGraph) (current_node : option string)
    (state : S) (w : W) (called : list string) : option (Res S * W * list string) :=
  match fuel with
  | O => None
  | Datatypes.S fuel' =>
    match truthy current_node with
    | None => Some (Ok state, w, called)
    | Some name =>
      match c_nodes g !! name with
      | Some handler =>
        match handler state w with
        | (Ok state', w') =>
          match c_edges g !! name with
          | Some (next :: _) =>
              ainvoke_loop_trace fuel' g (Some next) state' w' (called ++ [name])
          | Some [] =>
              Some (Raise (IndexError "list index out of range"), w', called ++ [name])
          | None => Some (Ok state', w', called ++ [name])
          end
        | (Raise e, w') => Some (Raise e, w', called ++ [name])
        end
      | None => Some (Ok state, w, called)
      end
    end
  end.

Definition ainvoke_trace (fuel : nat) (g : CompiledGraph) (state : S) (w : W)
    : option (Res S * W * list string) :=
  ainvoke_loop_trace fuel g (c_entry_point g) state w [].

End Executor.

Arguments StateGraph : clear implicits.
Arguments CompiledGraph : clear implicits.
Arguments Handler : clear implicits.

Definition END : string := "END".

End Graph.

(** ** setup-langgraph-agent.py: the campus agent *)

Module Agent.
Import Runtime Graph.
Local Open Scope Z_scope.
Local Open Scope f64_scope.

(** A [datetime] is an instant in microseconds; [isoformat()] only renders
    it, so records keep the instant. *)
Definition datetime : Type := Z.
Definition timedelta_days (days : Z) : Z := days * 86400000000.

(** The system clock: the instants successive [datetime.now()] calls return. *)
Record Clock : Type := {
  instants : nat -> datetime;
  clock_cursor : nat
}.

Definition datetime_now : M Clock datetime :=
  fun c => (Ok (instants c (clock_cursor c)),
            {| instants := instants c; clock_cursor := S (clock_cursor c) |}).

(** A sensor reading [{"type": ..., "value": ..., "unit": ...}]; a key may
    be absent, the code reads it with [dict.get]. *)
Record SensorReading : Type := {
  reading_type : option string;
  reading_value : option Q;
  reading_unit : option string
}.

Record EnergyReading : Type := {
  current_consumption : option Q;
  baseline : option Q
}.

Record SensorAnomaly : Type := {
  sensor_id : string;
  anomaly_type : string;
  anomaly_severity : string;
  anomaly_timestamp : datetime
}.

(** An entry of [context["maintenance_predictions"]]. *)
Record StagePrediction : Type := {
  equipment_id : string;
  predicted_failure_date : datetime;
  confidence : Q;
  recommended_action : string;
  priority : string
}.

Record EnergyOptimization : Type := {
  building_id : string;
  opt_current_consumption : Q;
  potential_savings : Q;
  opt_recommendations : list string;
  estimated_cost_savings : Q
}.

Record Alert : Type := {
  alert_id : string;
  alert_type : string;
  alert_severity : string;
  alert_title : string;
  alert_message : string;
  alert_timestamp : datetime;
  alert_actions : list string
}.

Record Recommendation : Type := {
  rec_id : string;
  rec_type : string;
  rec_title : string;
  rec_description : string;
  rec_impact : string;
  rec_estimated_savings : option Q;
  rec_actions : list string;
  rec_priority : Z
}.

Inductive Decision : Type :=
  | RecommendationDecision (recommendation_id decision reason : string) (timestamp : datetime)
  | ReviewDecision (type reason : string) (alert_ids : list string).

(** The keys of [state.context] the handlers write and read; an absent key
    is [None]. *)
Record Context : Type := {
  sensor_anomalies : option (list SensorAnomaly);
  maintenance_predictions : option (list StagePrediction);
  energy_optimizations : option (list EnergyOptimization);
  decisions : option (list Decision)
}.

Record CampusAgentState : Type := {
  sensor_data : list (string * SensorReading);
  maintenance_requests : list Engine.Dict;
  energy_data : list (string * EnergyReading);
  alerts : list Alert;
  recommendations : list Recommendation;
  current_task : option string;
  context : Context;
  timestamp : datetime
}.

Definition set_context (c : Context) (s : CampusAgentState) : CampusAgentState :=
  {| sensor_data := sensor_data s; maintenance_requests := maintenance_requests s;
     energy_data := energy_data s; alerts := alerts s;
     recommendations := recommendations s; current_task := current_task s;
     context := c; timestamp := timestamp s |}.

Definition set_current_task (t : string) (s : CampusAgentState) : CampusAgentState :=
  {| sensor_data := sensor_data s; maintenance_requests := maintenance_requests s;
     energy_data := energy_data s; alerts := alerts s;
     recommendations := recommendations s; current_task := Some t;
     context := context s; timestamp := timestamp s |}.

Definition set_alerts (l : list Alert) (s : CampusAgentState) : CampusAgentState :=
  {| sensor_data := sensor_data s; maintenance_requests := maintenance_requests s;
     energy_data := energy_data s; alerts := l;
     recommendations := recommendations s; current_task := current_task s;
     context := context s; timestamp := timestamp s |}.

Definition set_recommendations (l : list Recommendation) (s : CampusAgentState)
    : CampusAgentState :=
  {| sensor_data := sensor_data s; maintenance_requests := maintenance_requests s;
     energy_data := energy_data s; alerts := alerts s;
     recommendations := l; current_task := current_task s;
     context := context s; timestamp := timestamp s |}.

(** [AgentTask] *)
Inductive AgentTask : Type :=
  | MONITOR_SENSORS | PREDICT_MAINTENANCE | OPTIMIZE_ENERGY
  | GENERATE_ALERTS | PROVIDE_RECOMMENDATIONS.

Definition AgentTask_value (t : AgentTask) : string :=
  match t with
  | MONITOR_SENSORS => "monitor_sensors"
  | PREDICT_MAINTENANCE => "predict_maintenance"
  | OPTIMIZE_ENERGY => "optimize_energy"
  | GENERATE_ALERTS => "generate_alerts"
  | PROVIDE_RECOMMENDATIONS => "provide_recommendations"
  end.

Definition thresholds : gmap string (Q * Q) :=
  <["temperature" := (15, 30)%Q]> (<["humidity" := (20, 80)%Q]>
  (<["energy" := (0, 2500)%Q]> ∅))%string.

Definition _detect_sensor_anomaly (data : SensorReading) : bool :=
  let value := default 0%Q (reading_value data) in
  let sensor_type := default ""%string (reading_type data) in
  match thresholds !! sensor_type with
  | Some (min, max) => (value <~ min) || (value >~ max)
  | None => false
  end.

Definition _monitor_sensors (state : CampusAgentState) : M Clock CampusAgentState :=
  datetime_now;;  (* the instant the log line shows *)
  sensor_anomalies ←
    for_each (sensor_data state) []
      (fun sensor_anomalies '(sensor_id, data) =>
         if _detect_sensor_anomaly data then
           now ← datetime_now;
           mret (sensor_anomalies ++
                 [{| sensor_id := sensor_id; anomaly_type := "threshold_exceeded";
                     anomaly_severity := "medium"; anomaly_timestamp := now |}])
         else mret sensor_anomalies);
  let c := context state in
  mret (set_current_task (AgentTask_value MONITOR_SENSORS)
         (set_context {| sensor_anomalies := Some sensor_anomalies;
                         maintenance_predictions := maintenance_predictions c;
                         energy_optimizations := energy_optimizations c;
                         decisions := decisions c |} state)).

(** The in-line list of [_predict_maintenance]: id, health score, type. *)
Definition equipment_data : list (string * Z * string) :=
  [("eq-001", 75, "hvac"); ("eq-002", 45, "elevator"); ("eq-003", 90, "generator")]%string.

Definition _predict_maintenance (state : CampusAgentState) : M Clock CampusAgentState :=
  maintenance_predictions ←
    for_each equipment_data []
      (fun maintenance_predictions '(id, health_score, type) =>
         if health_score <? 60 then
           let days_to_failure := Z.max 1 ((health_score - 20) / 5) in
           now ← datetime_now;
           mret (maintenance_predictions ++
                 [{| equipment_id := id;
                     predicted_failure_date := now + timedelta_days days_to_failure;
                     confidence := lit (85 # 100);
                     recommended_action := "Schedule preventive maintenance for " +:+ type;
                     priority := if days_to_failure <=? 7 then "high" else "medium" |}])
         else mret maintenance_predictions);
  let c := context state in
  mret (set_current_task (AgentTask_value PREDICT_MAINTENANCE)
         (set_context {| sensor_anomalies := sensor_anomalies c;
                         maintenance_predictions := Some maintenance_predictions;
                         energy_optimizations := energy_optimizations c;
                         decisions := decisions c |} state)).

Definition _optimize_energy (state : CampusAgentState) : M Clock CampusAgentState :=
  energy_optimizations ←
    for_each (energy_data state) []
      (fun energy_optimizations '(building_id, energy_data) =>
         let current_consumption := default 1000%Q (current_consumption energy_data) in
         if current_consumption >~ 1200 then
           consumption ← as_float current_consumption;
           let potential_savings := consumption *~ lit (15 # 100) in
           mret (energy_optimizations ++
             [{| building_id := building_id;
                 opt_current_consumption := current_consumption;
                 potential_savings := potential_savings;
                 opt_recommendations := ["Adjust HVAC temperature setpoints";
                                         "Implement smart lighting schedules";
                                         "Optimize equipment runtime"];
                 estimated_cost_savings := potential_savings *~ lit (15 # 100) |}])
         else mret energy_optimizations);
  let c := context state in
  mret (set_current_task (AgentTask_value OPTIMIZE_ENERGY)
         (set_context {| sensor_anomalies := sensor_anomalies c;
                         maintenance_predictions := maintenance_predictions c;
                         energy_optimizations := Some energy_optimizations;
                         decisions := decisions c |} state)).

Definition _generate_alerts (state : CampusAgentState) : M Clock CampusAgentState :=
  let alerts : list Alert := [] in
  let alerts :=
    fold_left
      (fun alerts anomaly =>
         alerts ++
           [{| alert_id := "alert-" +:+ pretty (length alerts + 1)%nat;
               alert_type := "sensor_anomaly";
               alert_severity := anomaly_severity anomaly;
               alert_title := "Sensor Anomaly Detected";
               alert_message := "Sensor " +:+ sensor_id anomaly +:+ " showing abnormal readings";
               alert_timestamp := anomaly_timestamp anomaly;
               alert_actions := ["Investigate sensor"; "Check equipment status"] |}])
      (default [] (sensor_anomalies (context state))) alerts in
  alerts ←
    for_each (default [] (maintenance_predictions (context state))) alerts
      (fun alerts prediction =>
         now ← datetime_now;
         mret (alerts ++
           [{| alert_id := "alert-" +:+ pretty (length alerts + 1)%nat;
               alert_type := "maintenance_prediction";
               alert_severity := if String.eqb (priority prediction) "high"
                                 then "critical" else "warning";
               alert_title := "Maintenance Required";
               alert_message := "Equipment " +:+ equipment_id prediction +:+ " requires attention";
               alert_timestamp := now;
               alert_actions := [recommended_action prediction] |}]));
  mret (set_current_task (AgentTask_value GENERATE_ALERTS)
         (set_alerts (Agent.alerts state ++ alerts) state)).

Definition _generate_recommendations (state : CampusAgentState) : M Clock CampusAgentState :=
  let recommendations : list Recommendation := [] in
  let recommendations :=
    fold_left
      (fun recommendations optimization =>
         recommendations ++
           [{| rec_id := "rec-" +:+ pretty (length recommendations + 1)%nat;
               rec_type := "energy_optimization";
               rec_title := "Energy Consumption Optimization";
               rec_description := "Reduce energy consumption in building "
                                  +:+ building_id optimization;
               rec_impact := "high";
               rec_estimated_savings := Some (estimated_cost_savings optimization);
               rec_actions := opt_recommendations optimization;
               rec_priority := 8 |}])
      (default [] (energy_optimizations (context state))) recommendations in
  let recommendations :=
    fold_left
      (fun recommendations prediction =>
         recommendations ++
           [{| rec_id := "rec-" +:+ pretty (length recommendations + 1)%nat;
               rec_type := "maintenance";
               rec_title := "Preventive Maintenance";
               rec_description := "Schedule maintenance for equipment "
                                  +:+ equipment_id prediction;
               rec_impact := if String.eqb (priority prediction) "high"
                             then "critical" else "medium";
               rec_estimated_savings := None;
               rec_actions := [recommended_action prediction];
               rec_priority := if String.eqb (priority prediction) "high" then 9 else 6 |}])
      (default [] (maintenance_predictions (context state))) recommendations in
  mret (set_current_task (AgentTask_value PROVIDE_RECOMMENDATIONS)
         (set_recommendations (Agent.recommendations state ++ recommendations) state)).

Definition _make_decisions (state : CampusAgentState) : M Clock CampusAgentState :=
  decisions ←
    for_each (recommendations state) []
      (fun decisions rec =>
         if String.eqb (rec_type rec) "energy_optimization"
            && negb (String.eqb (rec_impact rec) "critical") then
           now ← datetime_now;
           mret (decisions ++
                 [RecommendationDecision (rec_id rec) "auto_approved"
                    "Low risk energy optimization" now])
         else mret decisions);
  let critical_alerts :=
    List.filter (fun alert => String.eqb (alert_severity alert) "critical") (alerts state) in
  let decisions :=
    match critical_alerts with
    | [] => decisions
    | _ => decisions ++
           [ReviewDecision "human_review_required"
              (pretty (length critical_alerts)
               +:+ " critical alerts require immediate attention")
              (map alert_id critical_alerts)]
    end in
  let c := context state in
  mret (set_context {| sensor_anomalies := sensor_anomalies c;
                       maintenance_predictions := maintenance_predictions c;
                       energy_optimizations := energy_optimizations c;
                       decisions := Some decisions |} state).

(** [SmartCampusAgent._build_agent_graph]: [workflow] as it is when
    [workflow.compile()] is reached, then the compiled graph. *)
Definition campus_workflow : StateGraph CampusAgentState Clock :=
  let workflow := StateGraph_init in
  let workflow := add_node "sensor_monitor" _monitor_sensors workflow in
  let workflow := add_node "maintenance_predictor" _predict_maintenance workflow in
  let workflow := add_node "energy_optimizer" _optimize_energy workflow in
  let workflow := add_node "alert_generator" _generate_alerts workflow in
  let workflow := add_node "recommendation_engine" _generate_recommendations workflow in
  let workflow := add_node "decision_maker" _make_decisions workflow in
  let workflow := set_entry_point "sensor_monitor" workflow in
  let workflow := add_edge "sensor_monitor" "maintenance_predictor" workflow in
  let workflow := add_edge "maintenance_predictor" "energy_optimizer" workflow in
  let workflow := add_edge "energy_optimizer" "alert_generator" workflow in
  let workflow := add_edge "alert_generator" "recommendation_engine" workflow in
  let workflow := add_edge "recommendation_engine" "decision_maker" workflow in
  let workflow := add_edge "decision_maker" END workflow in
  workflow.

Definition _build_agent_graph : CompiledGraph CampusAgentState Clock :=
  compile campus_workflow.

(** The state [process_campus_data] starts a run from. *)
Definition initial_state (sensor_data : list (string * SensorReading))
    (energy_data : list (string * EnergyReading)) : M Clock CampusAgentState :=
  now ← datetime_now;
  mret {| sensor_data := sensor_data; maintenance_requests := [];
          energy_data := energy_data; alerts := []; recommendations := [];
          current_task := None;
          context := {| sensor_anomalies := None; maintenance_predictions := None;
                        energy_optimizations := None; decisions := None |};
          timestamp := now |}.

(** The readings of the script's [main()]. *)
Definition main_sensor_data : list (string * SensorReading) :=
  [("sensor-001", {| reading_type := Some "temperature"; reading_value := Some 35%Q;
                     reading_unit := Some "°C" |});
   ("sensor-002", {| reading_type := Some "humidity"; reading_value := Some 45%Q;
                     reading_unit := Some "%" |});
   ("sensor-003", {| reading_type := Some "energy"; reading_value := Some 1800%Q;
                     reading_unit := Some "kWh" |})]%string.

Definition main_energy_data : list (string * EnergyReading) :=
  [("bld-001", {| current_consumption := Some 1350%Q; baseline := Some 1200%Q |});
   ("bld-002", {| current_consumption := Some 980%Q; baseline := Some 1000%Q |})]%string.

End Agent.

(** ** Reference inputs and the vocabulary of the properties *)

Module Scenario.
Import Runtime Engine.
Local Open Scope Z_scope.
Local Open Scope f64_scope.

(** A sample tape for [np.random]: a multiplicative congruential sequence
    scaled to [[0,1)]. *)
Definition tape (n : nat) : Q := ((7919 * Z.of_nat n) mod 10007) # 10007.

(** A freshly constructed engine, nothing drawn yet. *)
Definition fresh_world : World :=
  {| self := PredictiveMaintenanceEngine_init; np_samples := tape; np_cursor := 0 |}.

(** A pump installed today: no age, no usage, no history. *)
Definition new_pump : EquipmentData :=
  {| equipment_id := "eq-100"; equipment_type := "pump";
     age_years := 0; usage_hours := 0; temperature := lit 20;
     vibration := 0; pressure := lit 50; current_draw := lit 12;
     last_maintenance_days := 0;
     maintenance_history := []; failure_history := [] |}.

(** The pump with a maintenance counter that was never reset: the int
    [10 ^ 400]. *)
Definition unserviced_pump : EquipmentData :=
  {| equipment_id := "eq-100"; equipment_type := "pump";
     age_years := 0; usage_hours := 0; temperature := lit 20;
     vibration := 0; pressure := lit 50; current_draw := lit 12;
     last_maintenance_days := 10 ^ 400;
     maintenance_history := []; failure_history := [] |}.

(** [eq_001] with an overheating reading of 125 degrees. *)
Definition overheated_hvac : EquipmentData :=
  {| equipment_id := "eq-001"; equipment_type := "hvac";
     age_years := lit (85 # 10); usage_hours := 35000; temperature := lit 125;
     vibration := lit (32 # 10); pressure := lit 85; current_draw := lit (452 # 10);
     last_maintenance_days := 120;
     maintenance_history := []; failure_history := [] |}.

(** The failure probability as the specification words it: the five ratios,
    the weights, the clamp. *)
Definition spec_failure_probability (equipment : EquipmentData) : Q :=
  let weighted_sum :=
    (age_years equipment /~ 20) *~ lit (30 # 100)
    +~ (usage_hours equipment /~ 50000) *~ lit (25 # 100)
    +~ Float64.py_max 0 ((temperature equipment -~ 25) /~ 50) *~ lit (20 # 100)
    +~ (vibration equipment /~ 10) *~ lit (15 # 100)
    +~ Float64.int_truediv (last_maintenance_days equipment) 365 *~ lit (10 # 100) in
  Float64.py_min (Float64.py_max weighted_sum (lit (1 # 100))) (lit (99 # 100)).

(** The equipment-type factor as the specification tabulates it. *)
Definition type_factor (equipment_type : string) : Q :=
  if String.eqb equipment_type "hvac" then lit (12 # 10)
  else if String.eqb equipment_type "elevator" then lit (8 # 10)
  else if String.eqb equipment_type "generator" then lit (15 # 10)
  else if String.eqb equipment_type "pump" then lit 1
  else if String.eqb equipment_type "lighting" then lit 2
  else lit 1.

(** Days to failure as the specification words it: round, multiply, floor
    at 1. *)
Definition spec_days_to_failure (failure_prob : Q) (equipment : EquipmentData) : Q :=
  Float64.py_max 1
    (Float64.of_int (Float64.py_round ((1 -~ failure_prob) *~ 365))
     *~ type_factor (equipment_type equipment)).

(** The sum [0.7 + 0.1] of the base confidence and the sensor-consistency
    term, as binary64 computes it. *)
Definition confidence_floor : Q := lit (7 # 10) +~ lit (1 # 10).

(** An engine that has been trained, at the cursor where [fresh_world]
    draws after its bootstrap. *)
Definition trained_world : World :=
  set_self (trained PredictiveMaintenanceEngine_init) (advance 800 fresh_world).

(** The bucket rule as the specification words it. *)
Definition is_immediate (p : MaintenancePrediction) : bool :=
  String.eqb (risk_level p) "critical" || (days_to_failure p <=? 3).
Definition is_this_week (p : MaintenancePrediction) : bool :=
  negb (is_immediate p) && (days_to_failure p <=? 7).
Definition is_this_month (p : MaintenancePrediction) : bool :=
  negb (is_immediate p) && negb (days_to_failure p <=? 7) && (days_to_failure p <=? 30).
Definition is_next_quarter (p : MaintenancePrediction) : bool :=
  negb (is_immediate p) && negb (days_to_failure p <=? 7)
  && negb (days_to_failure p <=? 30).

(** A schedule with its four buckets written out. *)
Definition schedule_of (immediate this_week this_month next_quarter : list MaintenancePrediction)
    : gmap string (list MaintenancePrediction) :=
  <["immediate" := immediate]> (<["this_week" := this_week]>
  (<["this_month" := this_month]> (<["next_quarter" := next_quarter]> ∅)))%string.

(** The three items of the batch example: the pump in the middle is the one
    that cannot be scored. *)
Definition batch_example : list EquipmentData := [eq_001; new_pump; eq_002].

(** What each call of the scoring method returns during a batch, in input
    order, and the world the batch ends in. *)
Fixpoint outcomes (scorer : EquipmentData -> M World MaintenancePrediction)
    (equipment_list : list EquipmentData) (w : World)
    : list (Res MaintenancePrediction) * World :=
  match equipment_list with
  | [] => ([], w)
  | equipment :: rest =>
      let '(r, w1) := scorer equipment w in
      let '(rs, w2) := outcomes scorer rest w1 in
      (r :: rs, w2)
  end.

Fixpoint successes {A} (rs : list (Res A)) : list A :=
  match rs with
  | [] => []
  | Ok a :: rs' => a :: successes rs'
  | Raise _ :: rs' => successes rs'
  end.

Fixpoint failures {A} (rs : list (Res A)) : nat :=
  match rs with
  | [] => 0
  | Ok _ :: rs' => failures rs'
  | Raise _ :: rs' => S (failures rs')
  end.

(** A scoring method that cannot score one equipment item. *)
Definition scorer_failing_on (bad_id : string) (equipment : EquipmentData)
    : M World MaintenancePrediction :=
  if String.eqb (equipment_id equipment) bad_id
  then raise (ValueError "telemetry unavailable")
  else predict_maintenance equipment.

End Scenario.

Module AgentScenario.
Import Runtime Graph Agent.
Local Open Scope Z_scope.

(** The six stage names in wiring order. *)
Definition stage_names : list string :=
  ["sensor_monitor"; "maintenance_predictor"; "energy_optimizer";
   "alert_generator"; "recommendation_engine"; "decision_maker"]%string.

(** The six handlers applied once each, one after the other. *)
Definition campus_pipeline (state : CampusAgentState) : M Clock CampusAgentState :=
  s1 ← _monitor_sensors state;
  s2 ← _predict_maintenance s1;
  s3 ← _optimize_energy s2;
  s4 ← _generate_alerts s3;
  s5 ← _generate_recommendations s4;
  _make_decisions s5.

(** Further [add_edge] calls made after the wiring of [_build_agent_graph]. *)
Definition with_extra_edges (extras : list (string * string))
    (g : StateGraph CampusAgentState Clock) : StateGraph CampusAgentState Clock :=
  fold_left (fun g '(from_node, to_node) => add_edge from_node to_node g) extras g.

(** [b] is the first edge recorded from [a]. *)
Definition first_edge (g : StateGraph CampusAgentState Clock) (a b : string) : Prop :=
  exists rest, edges g !! a = Some (b :: rest).

(** A graph with the campus nodes whose first edges are the campus wiring. *)
Definition campus_wired (g : StateGraph CampusAgentState Clock) : Prop :=
  nodes g = nodes campus_workflow /\
  entry_point g = Some "sensor_monitor"%string /\
  first_edge g "sensor_monitor" "maintenance_predictor" /\
  first_edge g "maintenance_predictor" "energy_optimizer" /\
  first_edge g "energy_optimizer" "alert_generator" /\
  first_edge g "alert_generator" "recommendation_engine" /\
  first_edge g "recommendation_engine" "decision_maker" /\
  first_edge g "decision_maker" END.

(** A clock ticking every millisecond, and the state [process_campus_data]
    builds from the readings of [main()]. *)
Definition sample_clock : Clock :=
  {| instants := fun n => 1700000000000000 + 1000 * Z.of_nat n; clock_cursor := 1 |}.

Definition sample_state : CampusAgentState :=
  {| sensor_data := main_sensor_data; maintenance_requests := [];
     energy_data := main_energy_data; alerts := []; recommendations := [];
     current_task := None;
     context := {| sensor_anomalies := None; maintenance_predictions := None;
                   energy_optimizations := None; decisions := None |};
     timestamp := 1700000000000000 |}.

(** A reading [_optimize_energy] selects and cannot use as a float: an int
    consumption above 1200 that is beyond the floats; [energy_overflow] tells
    whether the energy mapping holds one. *)
Definition unconvertible (reading : EnergyReading) : bool :=
  let current_consumption := default 1000%Q (current_consumption reading) in
  (current_consumption >~ 1200)%f64 && Float64.overflows current_consumption.

Definition energy_overflow (energy_data : list (string * EnergyReading)) : bool :=
  existsb (fun x => unconvertible x.2) energy_data.

(** The three stages a run calls when the third one raises. *)
Definition stages_until_energy : list string :=
  ["sensor_monitor"; "maintenance_predictor"; "energy_optimizer"]%string.

(** [sample_state] with a third building whose meter reports the int
    [10 ^ 400]. *)
Definition overflowing_energy_data : list (string * EnergyReading) :=
  main_energy_data
  ++ [("bld-003"%string,
       {| current_consumption := Some (inject_Z (10 ^ 400)); baseline := Some 1000%Q |})].

Definition overflowing_state : CampusAgentState :=
  {| sensor_data := main_sensor_data; maintenance_requests := [];
     energy_data := overflowing_energy_data; alerts := []; recommendations := [];
     current_task := None;
     context := {| sensor_anomalies := None; maintenance_predictions := None;
                   energy_optimizations := None; decisions := None |};
     timestamp := 1700000000000000 |}.

(** The one entry [_predict_maintenance] computes from its in-line list, when
    the clock reads [now]. *)
Definition inline_prediction (now : datetime) : StagePrediction :=
  {| equipment_id := "eq-002";
     predicted_failure_date := now + timedelta_days 5;
     confidence := lit (85 # 100);
     recommended_action := "Schedule preventive maintenance for elevator";
     priority := "high" |}.

(** The stage as the specification words it: the Scoring Module run over the
    equipment snapshot of the registry. *)
Definition spec_stage_predictions (registry : list Engine.EquipmentData)
    : M Engine.World (list Engine.MaintenancePrediction) :=
  Engine.batch_predict registry.

End AgentScenario.

(** ** Vocabulary of the further properties of the engine *)

Module EngineVocabulary.
Import Runtime Engine Scenario.
Local Open Scope Q_scope.

(** The rank of a risk level: low 0, medium 1, high 2, critical 3. *)
Definition severity (risk_level : string) : nat :=
  if String.eqb risk_level "critical" then 3
  else if String.eqb risk_level "high" then 2
  else if String.eqb risk_level "medium" then 1
  else 0.

(** Every sample of the generator is a unit sample. *)
Definition unit_tape (w : World) : Prop :=
  forall n, 0 <= np_samples w n <= 1.

(** The seven conditions [_identify_factors] tests, all false. *)
Definition no_factor (equipment : EquipmentData) (is_anomaly : bool) : Prop :=
  age_years equipment <= 10 /\ usage_hours equipment <= 30000 /\
  temperature equipment <= 30 /\ vibration equipment <= 5 /\
  (last_maintenance_days equipment <= 180)%Z /\ is_anomaly = false /\
  (length (failure_history equipment) <= 2)%nat.

(** An engine whose detector was replaced by a new, unfitted one after
    training: [engine.anomaly_detector = IsolationForest()]. *)
Definition detector_replaced (w : World) : World :=
  set_self {| failure_model := failure_model (self w);
              anomaly_detector := IsolationForest_init;
              is_trained := is_trained (self w);
              feature_columns := feature_columns (self w) |} w.

End EngineVocabulary.

(** ** setup-langgraph-agent.py: the entry point *)

Module AgentRun.
Import Runtime Graph Agent.

(** The agent object: its compiled graph and the states of the runs made. *)
Record SmartCampusAgent : Type := {
  graph : CompiledGraph CampusAgentState Clock;
  state_history : list CampusAgentState
}.

Definition SmartCampusAgent_init : SmartCampusAgent :=
  {| graph := _build_agent_graph; state_history := [] |}.

(** The dictionary [process_campus_data] returns. *)
Record Results : Type := {
  results_alerts : list Alert;
  results_recommendations : list Recommendation;
  results_context : Context;
  results_timestamp : datetime
}.

(** [process_campus_data]: the result and the agent with its history
    extended; [fuel] bounds the loop of [ainvoke]. *)
Definition process_campus_data (fuel : nat) (self : SmartCampusAgent)
    (sensor_data : list (string * SensorReading))
    (energy_data : list (string * EnergyReading)) (clock : Clock)
    : option (Res (Results * SmartCampusAgent) * Clock) :=
  match initial_state sensor_data energy_data clock with
  | (Raise e, clock1) => Some (Raise e, clock1)
  | (Ok state0, clock1) =>
    match ainvoke fuel (graph self) state0 clock1 with
    | None => None
    | Some (Raise e, clock2) => Some (Raise e, clock2)
    | Some (Ok final_state, clock2) =>
      Some (Ok ({| results_alerts := alerts final_state;
                   results_recommendations := recommendations final_state;
                   results_context := context final_state;
                   results_timestamp := timestamp final_state |},
                {| graph := graph self;
                   state_history := state_history self ++ [final_state] |}),
            clock2)
    end
  end.

End AgentRun.

(** ** Vocabulary of the further properties of the agent *)

Module AgentVocabulary.
Import Runtime Graph Agent AgentScenario.
Local Open Scope Z_scope.

(** What a loop appends to [acc] when, for each [x] of [xs] that satisfies
    [cond], it reads the clock and appends [mk acc x now]; [k] is the clock
    cursor. *)
Fixpoint appended {A B} (cond : A -> bool) (mk : list B -> A -> datetime -> B)
    (instants : nat -> datetime) (k : nat) (acc : list B) (xs : list A) : list B :=
  match xs with
  | [] => []
  | x :: rest =>
      if cond x
      then let b := mk acc x (instants k) in
           b :: appended cond mk instants (S k) (acc ++ [b]) rest
      else appended cond mk instants k acc rest
  end.

(** The labels [prefix-first], ..., [prefix-(first+n-1)]. *)
Definition numbered (prefix : string) (first n : nat) : list string :=
  map (fun i => prefix +:+ pretty i) (seq first n).

(** The sensors [_monitor_sensors] flags, and the buildings
    [_optimize_energy] selects. *)
Definition flagged (sensor_data : list (string * SensorReading))
    : list (string * SensorReading) :=
  List.filter (fun x => _detect_sensor_anomaly x.2) sensor_data.

Definition high_consumers (energy_data : list (string * EnergyReading))
    : list (string * EnergyReading) :=
  List.filter (fun x => (default 1000%Q (current_consumption x.2) >~ 1200)%f64) energy_data.

(** The recommendations [_make_decisions] approves by itself. *)
Definition auto_approvable (rec : Recommendation) : bool :=
  String.eqb (rec_type rec) "energy_optimization"
  && negb (String.eqb (rec_impact rec) "critical").

Definition is_critical (alert : Alert) : bool :=
  String.eqb (alert_severity alert) "critical".

Definition is_review (d : Decision) : bool :=
  match d with
  | ReviewDecision _ _ _ => true
  | RecommendationDecision _ _ _ _ => false
  end.

(** The clock after [n] more readings. *)
Definition ticked (n : nat) (c : Clock) : Clock :=
  {| instants := instants c; clock_cursor := n + clock_cursor c |}.

(** Two handlers on counters and a two-node graph that runs one after the
    other. *)
Definition increment : Handler nat unit := fun n => mret (S n).
Definition double : Handler nat unit := fun n => mret (2 * n)%nat.

Definition two_stage_graph : StateGraph nat unit :=
  add_edge "b" END (add_edge "a" "b" (set_entry_point "a"
    (add_node "b" double (add_node "a" increment StateGraph_init)))).

(** Paths of first recorded edges through a compiled graph. *)
Section PathVocabulary.
Context {S W : Type}.

Definition head_name (path : list (string * Handler S W)) (stop : string) : string :=
  match path with
  | [] => stop
  | (name, _) :: _ => name
  end.

Fixpoint follows (g : CompiledGraph S W) (path : list (string * Handler S W))
    (stop : string) : Prop :=
  match path with
  | [] => c_nodes g !! stop = None
  | (name, handler) :: rest =>
      name <> ""%string /\
      c_nodes g !! name = Some handler /\
      (exists others, c_edges g !! name = Some (head_name rest stop :: others)) /\
      follows g rest stop
  end.

Fixpoint run_path (path : list (string * Handler S W)) (state : S) : M W S :=
  match path with
  | [] => mret state
  | (_, handler) :: rest => state' ← handler state; run_path rest state'
  end.

(** Every name that satisfies [P] is a registered node whose handler always
    returns and whose first recorded edge leads to a name that satisfies [P]. *)
Definition closed_under_first_edges (g : CompiledGraph S W) (P : string -> Prop) : Prop :=
  forall name, P name ->
    name <> ""%string /\
    exists handler next others,
      c_nodes g !! name = Some handler /\
      (forall state, returns (handler state)) /\
      c_edges g !! name = Some (next :: others) /\
      P next.

(** The graph after [add_edge from_node t] for each [t] of [targets]. *)
Definition add_edges (from_node : string) (targets : list string) (g : StateGraph S W)
    : StateGraph S W :=
  fold_left (fun g to_node => add_edge from_node to_node g) targets g.

End PathVocabulary.

(** A graph whose only node points to itself. *)
Definition looping_graph : StateGraph nat unit :=
  add_edge "a" "a" (set_entry_point "a" (add_node "a" increment StateGraph_init)).

(** The records the handlers append, as functions of what was appended
    before, the item at hand and the clock reading. *)
Definition anomaly_of (acc : list SensorAnomaly) (x : string * SensorReading)
    (now : datetime) : SensorAnomaly :=
  {| sensor_id := x.1; anomaly_type := "threshold_exceeded";
     anomaly_severity := "medium"; anomaly_timestamp := now |}.

Definition optimization_of (acc : list EnergyOptimization) (x : string * EnergyReading)
    : EnergyOptimization :=
  let current_consumption := default 1000%Q (current_consumption x.2) in
  let potential_savings := (Float64.fl current_consumption *~ lit (15 # 100))%f64 in
  {| building_id := x.1;
     opt_current_consumption := current_consumption;
     potential_savings := potential_savings;
     opt_recommendations := ["Adjust HVAC temperature setpoints";
                             "Implement smart lighting schedules";
                             "Optimize equipment runtime"];
     estimated_cost_savings := (potential_savings *~ lit (15 # 100))%f64 |}.

Definition anomaly_alert (alerts : list Alert) (anomaly : SensorAnomaly) : Alert :=
  {| alert_id := "alert-" +:+ pretty (length alerts + 1)%nat;
     alert_type := "sensor_anomaly";
     alert_severity := anomaly_severity anomaly;
     alert_title := "Sensor Anomaly Detected";
     alert_message := "Sensor " +:+ sensor_id anomaly +:+ " showing abnormal readings";
     alert_timestamp := anomaly_timestamp anomaly;
     alert_actions := ["Investigate sensor"; "Check equipment status"] |}.

Definition prediction_alert (alerts : list Alert) (prediction : StagePrediction)
    (now : datetime) : Alert :=
  {| alert_id := "alert-" +:+ pretty (length alerts + 1)%nat;
     alert_type := "maintenance_prediction";
     alert_severity := if String.eqb (priority prediction) "high"
                       then "critical" else "warning";
     alert_title := "Maintenance Required";
     alert_message := "Equipment " +:+ equipment_id prediction +:+ " requires attention";
     alert_timestamp := now;
     alert_actions := [recommended_action prediction] |}.

Definition energy_recommendation (recommendations : list Recommendation)
    (optimization : EnergyOptimization) : Recommendation :=
  {| rec_id := "rec-" +:+ pretty (length recommendations + 1)%nat;
     rec_type := "energy_optimization";
     rec_title := "Energy Consumption Optimization";
     rec_description := "Reduce energy consumption in building "
                        +:+ building_id optimization;
     rec_impact := "high";
     rec_estimated_savings := Some (estimated_cost_savings optimization);
     rec_actions := opt_recommendations optimization;
     rec_priority := 8 |}.

Definition maintenance_recommendation (recommendations : list Recommendation)
    (prediction : StagePrediction) : Recommendation :=
  {| rec_id := "rec-" +:+ pretty (length recommendations + 1)%nat;
     rec_type := "maintenance";
     rec_title := "Preventive Maintenance";
     rec_description := "Schedule maintenance for equipment "
                        +:+ equipment_id prediction;
     rec_impact := if String.eqb (priority prediction) "high"
                   then "critical" else "medium";
     rec_estimated_savings := None;
     rec_actions := [recommended_action prediction];
     rec_priority := if String.eqb (priority prediction) "high" then 9 else 6 |}.

Definition approval_of (decisions : list Decision) (rec : Recommendation)
    (now : datetime) : Decision :=
  RecommendationDecision (rec_id rec) "auto_approved" "Low risk energy optimization" now.

Definition always {A} (x : A) : bool := true.

(** The six stages of the campus graph in wiring order, with their handlers. *)
Definition campus_path : list (string * Handler CampusAgentState Clock) :=
  [("sensor_monitor", _monitor_sensors); ("maintenance_predictor", _predict_maintenance);
   ("energy_optimizer", _optimize_energy); ("alert_generator", _generate_alerts);
   ("recommendation_engine", _generate_recommendations);
   ("decision_maker", _make_decisions)]%string.

End AgentVocabulary.

(* ===================================================================== *)
(** * Part II: properties *)
(* ===================================================================== *)

(** ** Rounding is monotone *)

Section Float64Facts.
Import Float64.
Local Open Scope Q_scope.

Lemma pow2_pos e : 0 < pow2 e.
Proof. apply Qpower_0_lt. reflexivity. Qed.

Lemma pow2_add a b : pow2 (a + b) == pow2 a * pow2 b.
Proof. apply Qpower_plus. discriminate. Qed.

Lemma pow2_le a b : (a <= b)%Z -> pow2 a <= pow2 b.
Proof. intros H. apply Qpower_le_compat_l; [exact H | discriminate]. Qed.

Lemma pow2_lt_inv a b : pow2 a < pow2 b -> (a < b)%Z.
Proof. intros H. apply (Qpower_lt_compat_l_inv 2); [exact H | reflexivity]. Qed.

Lemma pow2_inj_Z n : (0 <= n)%Z -> pow2 n == inject_Z (2 ^ n).
Proof. intros H. unfold pow2. rewrite Zpower_Qpower by exact H. reflexivity. Qed.

Lemma rnd_even_Z k : rnd_even (inject_Z k) = k.
Proof.
  unfold rnd_even. rewrite Qfloor_Z.
  assert (E : inject_Z k - inject_Z k == 0) by ring.
  destruct (Qcompare_spec (inject_Z k - inject_Z k) (1 # 2)) as [H|H|H].
  - rewrite E in H. discriminate.
  - reflexivity.
  - rewrite E in H. discriminate.
Qed.

Lemma rnd_even_bounds q : (Qfloor q <= rnd_even q <= Qfloor q + 1)%Z.
Proof.
  unfold rnd_even.
  destruct (Qcompare _ _); [destruct (Z.even _)| |]; lia.
Qed.

Lemma rnd_even_mono x y : x <= y -> (rnd_even x <= rnd_even y)%Z.
Proof.
  intros Hxy.
  pose proof (Qfloor_resp_le _ _ Hxy) as Hf.
  destruct (Z.eq_dec (Qfloor x) (Qfloor y)) as [E|NE].
  - unfold rnd_even. rewrite <- E.
    destruct (Qcompare_spec (x - inject_Z (Qfloor x)) (1 # 2)) as [H1|H1|H1];
    destruct (Qcompare_spec (y - inject_Z (Qfloor x)) (1 # 2)) as [H2|H2|H2];
    try destruct (Z.even (Qfloor x)); try lia; exfalso; lra.
  - pose proof (rnd_even_bounds x). pose proof (rnd_even_bounds y). lia.
Qed.

Lemma rnd_even_ge k q : inject_Z k <= q -> (k <= rnd_even q)%Z.
Proof. intros H. rewrite <- (rnd_even_Z k). by apply rnd_even_mono. Qed.

Lemma rnd_even_le k q : q <= inject_Z k -> (rnd_even q <= k)%Z.
Proof. intros H. rewrite <- (rnd_even_Z k). by apply rnd_even_mono. Qed.

Lemma Q_num_den q : q * inject_Z (Zpos (Qden q)) == inject_Z (Qnum q).
Proof. destruct q as [n d]. unfold Qeq, inject_Z. simpl. lia. Qed.

(** [ilog2] finds the binade of a positive rational. *)
Lemma ilog2_spec q : 0 < q -> pow2 (ilog2 q) <= q < pow2 (ilog2 q + 1).
Proof.
  intros Hq.
  assert (Hn : (0 < Qnum q)%Z).
  { destruct q as [n d]. unfold Qlt in Hq. simpl in *. lia. }
  set (d := Zpos (Qden q)) in *.
  assert (Hd : (0 < d)%Z) by (unfold d; lia).
  pose proof (Z.log2_spec _ Hn) as [Ha1 Ha2].
  pose proof (Z.log2_spec _ Hd) as [Hb1 Hb2].
  pose proof (Z.log2_nonneg (Qnum q)) as Ha0.
  pose proof (Z.log2_nonneg d) as Hb0.
  pose proof (Q_num_den q) as Hnd. fold d in Hnd.
  assert (HdQ : 0 < inject_Z d) by (unfold Qlt; simpl; lia).
  unfold ilog2. fold d.
  set (a := Z.log2 (Qnum q)) in *. set (b := Z.log2 d) in *.
  destruct (Qle_bool (pow2 (a - b)) q) eqn:Hc.
  - apply Qle_bool_iff in Hc. split; [exact Hc|].
    apply (Qmult_lt_r _ _ (inject_Z d)); [exact HdQ|].
    rewrite Hnd.
    apply Qlt_le_trans with (pow2 (a + 1)).
    + rewrite pow2_inj_Z by lia. rewrite <- Zlt_Qlt.
      replace (a + 1)%Z with (Z.succ a) by lia. exact Ha2.
    + replace (a + 1)%Z with ((a - b + 1) + b)%Z by lia.
      rewrite pow2_add. apply Qmult_le_l; [apply pow2_pos|].
      rewrite pow2_inj_Z by lia. rewrite <- Zle_Qle. exact Hb1.
  - assert (Hlt : q < pow2 (a - b)).
    { apply Qnot_le_lt. intros H. apply Qle_bool_iff in H. congruence. }
    split.
    + apply (Qmult_le_r _ _ (inject_Z d)); [exact HdQ|].
      rewrite Hnd.
      apply Qle_trans with (pow2 a).
      * replace a with ((a - b - 1) + (b + 1))%Z at 2 by lia.
        rewrite pow2_add. apply Qmult_le_l; [apply pow2_pos|].
        rewrite pow2_inj_Z by lia. rewrite <- Zle_Qle.
        replace (b + 1)%Z with (Z.succ b) by lia. lia.
      * rewrite pow2_inj_Z by lia. rewrite <- Zle_Qle. exact Ha1.
    + replace (a - b - 1 + 1)%Z with (a - b)%Z by lia. exact Hlt.
Qed.

Lemma ilog2_mono x y : 0 < x -> x <= y -> (ilog2 x <= ilog2 y)%Z.
Proof.
  intros Hx Hxy.
  assert (Hy : 0 < y) by lra.
  destruct (ilog2_spec x Hx) as [H1 _]. destruct (ilog2_spec y Hy) as [_ H2].
  assert (H : pow2 (ilog2 x) < pow2 (ilog2 y + 1)) by lra.
  apply pow2_lt_inv in H. lia.
Qed.

Lemma fl_pos_eq q :
  fl_pos q == inject_Z (rnd_even (q * pow2 (52 - eff_exp q))) * pow2 (eff_exp q - 52).
Proof. unfold fl_pos. apply Qred_correct. Qed.

(** A rounded positive number does not leave the closure of its binade. *)
Lemma fl_pos_upper q : 0 < q -> fl_pos q <= pow2 (eff_exp q + 1).
Proof.
  intros Hq. rewrite fl_pos_eq.
  destruct (ilog2_spec q Hq) as [_ H2].
  assert (Hle : q <= pow2 (eff_exp q + 1)).
  { apply Qle_trans with (pow2 (ilog2 q + 1)); [lra|]. apply pow2_le. unfold eff_exp. lia. }
  replace (eff_exp q + 1)%Z with (53 + (eff_exp q - 52))%Z by lia.
  rewrite pow2_add. apply Qmult_le_compat_r; [|apply Qlt_le_weak, pow2_pos].
  rewrite (pow2_inj_Z 53) by lia. rewrite <- Zle_Qle. apply rnd_even_le.
  rewrite <- (pow2_inj_Z 53) by lia.
  replace 53%Z with ((eff_exp q + 1) + (52 - eff_exp q))%Z by lia.
  rewrite pow2_add. apply Qmult_le_compat_r; [exact Hle|apply Qlt_le_weak, pow2_pos].
Qed.

Lemma fl_pos_lower q : 0 < q -> (emin <= ilog2 q)%Z -> pow2 (eff_exp q) <= fl_pos q.
Proof.
  intros Hq He. rewrite fl_pos_eq.
  destruct (ilog2_spec q Hq) as [H1 _].
  assert (E : eff_exp q = ilog2 q) by (unfold eff_exp; lia).
  rewrite E.
  replace (ilog2 q) with (52 + (ilog2 q - 52))%Z at 1 by lia.
  rewrite pow2_add. apply Qmult_le_compat_r; [|apply Qlt_le_weak, pow2_pos].
  rewrite (pow2_inj_Z 52) by lia. rewrite <- Zle_Qle. apply rnd_even_ge.
  rewrite <- (pow2_inj_Z 52) by lia.
  replace 52%Z with (ilog2 q + (52 - ilog2 q))%Z at 1 by lia.
  rewrite pow2_add. apply Qmult_le_compat_r; [exact H1|apply Qlt_le_weak, pow2_pos].
Qed.

Lemma fl_pos_nonneg q : 0 < q -> 0 <= fl_pos q.
Proof.
  intros Hq. rewrite fl_pos_eq.
  apply Qmult_le_0_compat; [|apply Qlt_le_weak, pow2_pos].
  replace 0 with (inject_Z 0) by reflexivity. rewrite <- Zle_Qle. apply rnd_even_ge.
  simpl. apply Qmult_le_0_compat; [lra|apply Qlt_le_weak, pow2_pos].
Qed.

Lemma fl_pos_mono x y : 0 < x -> x <= y -> fl_pos x <= fl_pos y.
Proof.
  intros Hx Hxy.
  assert (Hy : 0 < y) by lra.
  pose proof (ilog2_mono x y Hx Hxy) as He.
  destruct (Z.eq_dec (eff_exp x) (eff_exp y)) as [E|NE].
  - rewrite !fl_pos_eq, E.
    apply Qmult_le_compat_r; [|apply Qlt_le_weak, pow2_pos].
    rewrite <- Zle_Qle. apply rnd_even_mono.
    apply Qmult_le_compat_r; [exact Hxy|apply Qlt_le_weak, pow2_pos].
  - assert (Hlt : (eff_exp x < eff_exp y)%Z) by (unfold eff_exp in *; lia).
    assert (Hny : (emin <= ilog2 y)%Z) by (unfold eff_exp in *; lia).
    apply Qle_trans with (pow2 (eff_exp x + 1)); [by apply fl_pos_upper|].
    apply Qle_trans with (pow2 (eff_exp y)); [apply pow2_le; lia|].
    by apply fl_pos_lower.
Qed.

Lemma fl_nonneg q : 0 <= q -> 0 <= fl q.
Proof.
  intros Hq. unfold fl.
  destruct (Qcompare_spec q 0) as [H|H|H]; [lra|lra|by apply fl_pos_nonneg].
Qed.

Lemma fl_nonpos q : q <= 0 -> fl q <= 0.
Proof.
  intros Hq. unfold fl.
  destruct (Qcompare_spec q 0) as [H|H|H]; [lra| |lra].
  rewrite Qred_correct.
  assert (0 <= fl_pos (- q)) by (apply fl_pos_nonneg; lra). lra.
Qed.

Lemma fl_mono x y : x <= y -> fl x <= fl y.
Proof.
  intros Hxy.
  destruct (Qlt_le_dec 0 x) as [Hx|Hx].
  - unfold fl.
    destruct (Qcompare_spec x 0) as [H1|H1|H1]; [lra|lra|].
    destruct (Qcompare_spec y 0) as [H2|H2|H2]; [lra|lra|].
    by apply fl_pos_mono.
  - destruct (Qlt_le_dec 0 y) as [Hy|Hy].
    + apply Qle_trans with 0; [by apply fl_nonpos|apply fl_nonneg; lra].
    + unfold fl.
      destruct (Qcompare_spec x 0) as [H1|H1|H1];
      destruct (Qcompare_spec y 0) as [H2|H2|H2]; try lra.
      * rewrite Qred_correct.
        assert (0 <= fl_pos (- x)) by (apply fl_pos_nonneg; lra). lra.
      * rewrite !Qred_correct.
        assert (fl_pos (- y) <= fl_pos (- x)) by (apply fl_pos_mono; lra). lra.
Qed.

Lemma fadd_mono x x' y y' : x <= x' -> y <= y' -> fadd x y <= fadd x' y'.
Proof. intros. apply fl_mono. lra. Qed.

Lemma py_min_le_l a b : py_min a b <= a.
Proof. unfold py_min. destruct (Qlt_le_dec b a); lra. Qed.

Lemma py_min_le_r a b : py_min a b <= b.
Proof. unfold py_min. destruct (Qlt_le_dec b a); lra. Qed.

Lemma py_min_glb c a b : c <= a -> c <= b -> c <= py_min a b.
Proof. unfold py_min. destruct (Qlt_le_dec b a); lra. Qed.

Lemma py_max_ge_l a b : a <= py_max a b.
Proof. unfold py_max. destruct (Qlt_le_dec a b); lra. Qed.

Lemma py_max_ge_r a b : b <= py_max a b.
Proof. unfold py_max. destruct (Qlt_le_dec a b); lra. Qed.

Lemma py_max_lub c a b : a <= c -> b <= c -> py_max a b <= c.
Proof. unfold py_max. destruct (Qlt_le_dec a b); lra. Qed.

(** Rounding does not cross a number it leaves alone. *)
Lemma fl_le_const x c : x <= c -> fl c == c -> fl x <= c.
Proof. intros H E. rewrite <- E. by apply fl_mono. Qed.

Lemma fl_ge_const x c : c <= x -> fl c == c -> c <= fl x.
Proof. intros H E. rewrite <- E. by apply fl_mono. Qed.

End Float64Facts.

(** ** The rounding function against the kernel's binary64

    On the literals and operations the counterexamples below go through, on a
    tie and on a subnormal quotient, [Float64.fl] computes the number the
    primitive floats of the kernel compute. *)

Section Float64Agreement.
Import Float64.
Set Warnings "-inexact-float".

Example agrees_literals :
  agrees 0.7%float (lit (7 # 10)) && agrees 0.1%float (lit (1 # 10))
  && agrees 0.8%float (lit (8 # 10)) && agrees 0.95%float (lit (95 # 100))
  && agrees 1.2%float (lit (12 # 10)) = true.
Proof. vm_compute. reflexivity. Qed.

Example agrees_base_plus_consistency :
  agrees (0.7 + 0.1)%float (lit (7 # 10) +~ lit (1 # 10))%f64 = true.
Proof. vm_compute. reflexivity. Qed.

Example agrees_base_days :
  agrees ((1 - 0.7) * 365)%float ((1 -~ lit (7 # 10)) *~ 365)%f64 = true.
Proof. vm_compute. reflexivity. Qed.

Example agrees_scaled_days :
  agrees (109 * 1.2)%float (109 *~ lit (12 # 10))%f64 = true.
Proof. vm_compute. reflexivity. Qed.

Example agrees_uniform :
  agrees (0.1 + (0.9 - 0.1) * 0.3)%float
    (lit (1 # 10) +~ (lit (9 # 10) -~ lit (1 # 10)) *~ lit (3 # 10))%f64 = true.
Proof. vm_compute. reflexivity. Qed.

Example agrees_weighted_sum :
  agrees (8.5 / 20 * 0.3 + 35000 / 50000 * 0.25 + (32.5 - 25) / 50 * 0.2
          + 3.2 / 10 * 0.15 + 120 / 365 * 0.1)%float
    (lit (85 # 10) /~ 20 *~ lit (3 # 10) +~ 35000 /~ 50000 *~ lit (25 # 100)
     +~ (lit (325 # 10) -~ 25) /~ 50 *~ lit (2 # 10)
     +~ lit (32 # 10) /~ 10 *~ lit (15 # 100) +~ 120 /~ 365 *~ lit (1 # 10))%f64 = true.
Proof. vm_compute. reflexivity. Qed.

Example agrees_tie_to_even :
  agrees (2.5 + 4503599627370496)%float (lit (25 # 10) +~ 4503599627370496)%f64 = true.
Proof. vm_compute. reflexivity. Qed.

Example agrees_subnormal :
  agrees (1e-320 / 3)%float (lit (1 # 10 ^ 320) /~ 3)%f64 = true.
Proof. vm_compute. reflexivity. Qed.

Example agrees_negative :
  agrees (- (1 / 3) + 1e-17)%float (fl (- (1 /~ 3)%f64) +~ lit (1 # 10 ^ 17))%f64 = true.
Proof. vm_compute. reflexivity. Qed.

(** The overflow threshold: the largest finite float is kept, the tie just
    above it is beyond the floats (the kernel's addition yields infinity
    there), and so is the int [10 ^ 400]. *)
Example agrees_largest_float :
  agrees 0x1.fffffffffffffp+1023%float (pow2 1024 - pow2 971)
  && negb (overflows (pow2 1024 - pow2 971))
  && negb (overflows (pow2 1024 - pow2 970 - 1))
  && overflows (pow2 1024 - pow2 970)
  && PrimFloat.eqb (0x1.fffffffffffffp+1023 + 0x1p+970)%float infinity
  && overflows (inject_Z (10 ^ 400))
  && overflows (inject_Z (10 ^ 400) / 365)
  && negb (overflows (- (pow2 1024 - pow2 971)))
  && overflows (- pow2 1024) = true.
Proof. vm_compute. reflexivity. Qed.

Set Warnings "+inexact-float".
End Float64Agreement.

(** ** Running the engine *)

Section EngineRuns.
Import Runtime Engine.
Local Open Scope Q_scope.

Lemma bind_run {W A B} (m : M W A) (k : A -> M W B) w a w' :
  m w = (Ok a, w') -> (m ≫= k) w = k a w'.
Proof. intros H. unfold mbind, M_bind, bind. by rewrite H. Qed.

Lemma bind_raise {W A B} (m : M W A) (k : A -> M W B) w e w' :
  m w = (Raise e, w') -> (m ≫= k) w = (Raise e, w').
Proof. intros H. unfold mbind, M_bind, bind. by rewrite H. Qed.

Lemma advance_advance n m w : advance n (advance m w) = advance (n + m) w.
Proof. unfold advance. simpl. f_equal. lia. Qed.

Lemma advance_set_self n s w : advance n (set_self s w) = set_self s (advance n w).
Proof. reflexivity. Qed.

(** A quotient of at most 1 in magnitude is far from the largest float. *)
Lemma overflows_unit q : -1 <= q <= 1 -> Float64.overflows q = false.
Proof.
  intros [Hlo Hhi]. unfold Float64.overflows.
  assert (H1 : Float64.fl q <= 1) by (apply fl_le_const; [exact Hhi|reflexivity]).
  assert (H2 : -1 <= Float64.fl q) by (apply fl_ge_const; [exact Hlo|reflexivity]).
  assert (Hp : 1 < Float64.pow2 1024) by (vm_compute; reflexivity).
  apply orb_false_iff. split; apply not_true_iff_false; rewrite Qle_bool_iff; lra.
Qed.

Lemma days_ratio_converts (n : Z) :
  (0 <= n <= 365)%Z -> Float64.overflows (inject_Z n / 365) = false.
Proof.
  intros [Hlo Hhi]. apply overflows_unit. split.
  - apply Qle_trans with 0; [lra|]. apply Qle_shift_div_l; [lra|].
    rewrite Qmult_0_l. change 0 with (inject_Z 0). by rewrite <- Zle_Qle.
  - apply Qle_shift_div_r; [lra|]. rewrite Qmult_1_l.
    change 365 with (inject_Z 365). by rewrite <- Zle_Qle.
Qed.

(** The weighted sum of a record whose quotient of days converts. *)
Lemma _calculate_failure_probability_run equipment w :
  Float64.overflows (inject_Z (last_maintenance_days equipment) / 365) = false ->
  exists failure_prob, _calculate_failure_probability equipment w = (Ok failure_prob, w).
Proof.
  intros H. unfold _calculate_failure_probability, maintenance_factor, int_true_divide.
  change (inject_Z 365) with 365. rewrite H. eexists. reflexivity.
Qed.

Lemma _calculate_failure_probability_raises equipment w :
  Float64.overflows (inject_Z (last_maintenance_days equipment) / 365) = true ->
  _calculate_failure_probability equipment w
  = (Raise (OverflowError "integer division result too large for a float"), w).
Proof.
  intros H. unfold _calculate_failure_probability, maintenance_factor, int_true_divide.
  change (inject_Z 365) with 365. rewrite H. reflexivity.
Qed.

Lemma np_random_randint_run low high w :
  (low < high)%Z ->
  exists n, np_random_randint low high w = (Ok n, advance 1 w) /\ (low <= n < high)%Z.
Proof.
  intros H. unfold np_random_randint. destruct (Z.leb_spec high low) as [Hle|_]; [lia|].
  eexists. split; [reflexivity|].
  pose proof (Z.mod_pos_bound
                (Qfloor (np_samples w (np_cursor w) * inject_Z (high - low))) (high - low)).
  lia.
Qed.

(** One mock record costs eight samples and cannot fail; its days since
    maintenance are an int of [[1, 365)]. *)
Lemma mock_equipment_run i w :
  exists equipment,
    mock_equipment i w = (Ok equipment, advance 8 w) /\
    (1 <= last_maintenance_days equipment < 365)%Z.
Proof.
  unfold mock_equipment, np_random_choice.
  destruct (np_random_randint_run 0 (Z.of_nat 4) w) as (k & Hk & _); [lia|].
  erewrite bind_run by (erewrite bind_run by exact Hk; reflexivity).
  do 6 (erewrite bind_run by reflexivity).
  match goal with
  | |- exists _, (_ ≫= _) ?w1 = _ /\ _ =>
      destruct (np_random_randint_run 1 365 w1) as (lmd & Hl & Hrange); [lia|]
  end.
  erewrite bind_run by exact Hl.
  eexists. split; [reflexivity|]. exact Hrange.
Qed.

Lemma mock_data_run (ids : list nat) : forall acc w,
  Forall (fun e => (1 <= last_maintenance_days e < 365)%Z) acc ->
  exists mock_data,
    for_each ids acc
      (fun mock_data i => equipment ← mock_equipment i; mret (mock_data ++ [equipment])) w
    = (Ok mock_data, advance (8 * length ids) w) /\
    Forall (fun e => (1 <= last_maintenance_days e < 365)%Z) mock_data.
Proof.
  induction ids as [|i ids IH]; intros acc w Hacc.
  - exists acc. split; [destruct w; reflexivity|exact Hacc].
  - destruct (mock_equipment_run i w) as (equipment & He & Hrange).
    destruct (IH (acc ++ [equipment]) (advance 8 w)) as (mock_data & Hd & Hall).
    { apply Forall_app. split; [exact Hacc|by constructor]. }
    exists mock_data. split; [|exact Hall]. cbn [for_each].
    erewrite bind_run; [|erewrite bind_run by exact He; reflexivity].
    rewrite Hd, advance_advance. do 2 f_equal. cbn [length]. lia.
Qed.

(** Training raises when the quotient of days of a record is beyond the
    floats, and fits both models otherwise. *)
Lemma train_models_run historical_data w :
  Forall (fun e => Float64.overflows (inject_Z (last_maintenance_days e) / 365) = false)
    historical_data ->
  train_models historical_data w = (Ok tt, set_self (trained (self w)) w).
Proof.
  intros Hall. unfold train_models.
  assert (Hloop : forall acc,
             exists acc',
               for_each historical_data acc
                 (fun '(X_train, y_train) equipment =>
                    let features := concat (prepare_features equipment) in
                    failure_prob ← _calculate_failure_probability equipment;
                    mret (X_train ++ [features], y_train ++ [failure_prob])) w
               = (Ok acc', w)).
  { induction Hall as [|e es He _ IH]; intros acc; [by exists acc|].
    destruct acc as [X_train y_train].
    destruct (_calculate_failure_probability_run e w He) as [failure_prob Hp].
    cbn [for_each]. cbv zeta.
    erewrite bind_run by (erewrite bind_run by exact Hp; reflexivity).
    apply IH. }
  destruct (Hloop ([], [])) as [[X_train y_train] Hl].
  erewrite bind_run by exact Hl. reflexivity.
Qed.

(** The lazy bootstrap: 100 mock records, then both models are fitted. *)
Lemma _mock_training_run w :
  _mock_training w = (Ok tt, set_self (trained (self w)) (advance 800 w)).
Proof.
  unfold _mock_training.
  destruct (mock_data_run (seq 0 100) [] w) as (mock_data & Hd & Hall); [constructor|].
  erewrite bind_run by exact Hd.
  rewrite train_models_run; [reflexivity|].
  eapply Forall_impl; [exact Hall|]. intros e He. cbv beta in He. apply days_ratio_converts. lia.
Qed.

Lemma predict_after_training equipment_data w :
  models_fitted w ->
  (let features := prepare_features equipment_data in
   w0 ← get;
   predicted ← RandomForestRegressor_predict (failure_model (self w0)) features;
   failure_prob ← index0 predicted;
   w1 ← get;
   scores ← IsolationForest_predict (anomaly_detector (self w1)) features;
   anomaly_score ← index0 scores;
   mret (prediction_of equipment_data failure_prob (anomaly_score =? -1)%Z)) w
  = (Ok (prediction_of equipment_data
           (model_failure_prob (np_samples w (np_cursor w)))
           (model_is_anomaly (if_contamination (anomaly_detector (self w)))
              (np_samples w (S (np_cursor w))))),
     advance 2 w).
Proof.
  intros [Hf Ha]. destruct w as [[fm ad tr fc] samples cursor]. simpl in Hf, Ha.
  cbv [mbind M_bind bind get RandomForestRegressor_predict IsolationForest_predict
       self failure_model anomaly_detector prepare_features].
  rewrite Hf. cbn [length replicateM].
  cbv [mbind M_bind bind mret M_ret ret np_random_uniform np_random_choice2 random_sample
       index0 self failure_model anomaly_detector np_samples np_cursor].
  rewrite Ha. cbn [length replicateM].
  cbv [mbind M_bind bind mret M_ret ret np_random_uniform np_random_choice2 random_sample
       index0 self failure_model anomaly_detector np_samples np_cursor advance
       model_is_anomaly model_failure_prob].
  destruct (Float64.ltb _ _); reflexivity.
Qed.

Lemma predict_maintenance_trained equipment_data w :
  is_trained (self w) = true -> models_fitted w ->
  predict_maintenance equipment_data w
  = (Ok (prediction_of equipment_data
           (model_failure_prob (np_samples w (np_cursor w)))
           (model_is_anomaly (if_contamination (anomaly_detector (self w)))
              (np_samples w (S (np_cursor w))))),
     advance 2 w).
Proof.
  intros Ht Hm. rewrite <- (predict_after_training equipment_data w Hm).
  unfold predict_maintenance.
  erewrite bind_run by reflexivity. rewrite Ht.
  erewrite bind_run by reflexivity. reflexivity.
Qed.

Lemma predict_maintenance_untrained equipment_data w :
  is_trained (self w) = false ->
  predict_maintenance equipment_data w
  = (Ok (prediction_of equipment_data
           (model_failure_prob (np_samples w (800 + np_cursor w)))
           (model_is_anomaly (if_contamination (anomaly_detector (self w)))
              (np_samples w (S (800 + np_cursor w))))),
     set_self (trained (self w)) (advance 802 w)).
Proof.
  intros Ht.
  set (w1 := set_self (trained (self w)) (advance 800 w)).
  assert (Hm : models_fitted w1) by (split; reflexivity).
  pose proof (predict_after_training equipment_data w1 Hm) as Hp.
  unfold predict_maintenance.
  erewrite bind_run by reflexivity. rewrite Ht.
  erewrite bind_run by apply _mock_training_run.
  fold w1. etransitivity; [exact Hp|].
  unfold w1. rewrite advance_set_self, advance_advance. reflexivity.
Qed.

Lemma predict_maintenance_run equipment_data w :
  usable w ->
  exists w',
    predict_maintenance equipment_data w
    = (Ok (prediction_of equipment_data
             (model_failure_prob (np_samples w (draw_cursor w)))
             (model_is_anomaly (if_contamination (anomaly_detector (self w)))
                (np_samples w (S (draw_cursor w))))), w')
    /\ is_trained (self w') = true /\ models_fitted w'
    /\ np_samples w' = np_samples w /\ np_cursor w' = (2 + draw_cursor w)%nat.
Proof.
  intros Hu. unfold draw_cursor.
  destruct (is_trained (self w)) eqn:Ht.
  - destruct Hu as [Hu|Hm]; [congruence|].
    eexists. split; [by apply predict_maintenance_trained|].
    destruct Hm. repeat split; assumption.
  - eexists. split; [by apply predict_maintenance_untrained|].
    repeat split.
Qed.

End EngineRuns.

(** ** The scoring helpers *)

Section Scoring.
Import Runtime Engine Scenario Float64.
Local Open Scope Q_scope.

Lemma confidence_floor_value :
  confidence_floor == 7205759403792793 # 9007199254740992.
Proof. vm_compute. reflexivity. Qed.

Lemma history_factor_nonneg (n : nat) :
  0 <= py_min (int_truediv (Z.of_nat n) 10) (lit (2 # 10)).
Proof.
  apply py_min_glb; [|vm_compute; discriminate].
  apply fl_nonneg. apply Qle_shift_div_l; [reflexivity|].
  rewrite Qmult_0_l. replace 0 with (inject_Z 0) by reflexivity.
  rewrite <- Zle_Qle. lia.
Qed.

Lemma confidence_age_factor_nonneg x :
  0 <= x -> 0 <= py_min (x /~ 10)%f64 (lit (1 # 10)).
Proof.
  intros Hx. apply py_min_glb; [|vm_compute; discriminate].
  apply fl_nonneg. apply Qle_shift_div_l; [reflexivity|]. lra.
Qed.

Lemma _calculate_confidence_bounds equipment failure_prob :
  0 <= age_years equipment ->
  confidence_floor <= _calculate_confidence equipment failure_prob <= lit (95 # 100).
Proof.
  intros Hage. unfold _calculate_confidence.
  pose proof (history_factor_nonneg (length (maintenance_history equipment))) as Hh.
  pose proof (confidence_age_factor_nonneg _ Hage) as Ha.
  set (h := py_min (int_truediv _ 10) _) in *.
  set (a := py_min (fdiv _ 10) _) in *.
  split; [|apply py_min_le_r].
  apply py_min_glb; [|vm_compute; discriminate].
  assert (H1 : lit (7 # 10) <= (lit (7 # 10) +~ h)%f64).
  { apply Qle_trans with (fl (lit (7 # 10) + 0)); [vm_compute; discriminate|].
    apply fl_mono. lra. }
  assert (H2 : confidence_floor <= (lit (7 # 10) +~ h +~ lit (1 # 10))%f64).
  { unfold confidence_floor. apply fadd_mono; [exact H1|lra]. }
  apply Qle_trans with (fl (confidence_floor + 0)); [vm_compute; discriminate|].
  apply fl_mono. lra.
Qed.




Lemma gtb_true x y : gtb x y = true <-> y < x.
Proof.
  unfold gtb. rewrite negb_true_iff, <- not_true_iff_false, Qle_bool_iff.
  split; [apply Qnot_le_lt|apply Qlt_not_le].
Qed.

Lemma gtb_false x y : gtb x y = false <-> x <= y.
Proof. unfold gtb. rewrite negb_false_iff. apply Qle_bool_iff. Qed.

(** C5: the risk level is the first matching case of: critical if the
    anomaly flag is set or p > 0.8 or d <= 7; else high if p > 0.6 or d <= 30;
    else medium if p > 0.4 or d <= 90; else low.  In particular an anomaly
    always yields critical.  The thresholds are the binary64 literals. *)
Theorem C5_risk_level_first_match :
  forall (failure_prob : Q) (days_to_failure : Z),
    let critical a := a = true \/ lit (8 # 10) < failure_prob \/ (days_to_failure <= 7)%Z in
    let high := lit (6 # 10) < failure_prob \/ (days_to_failure <= 30)%Z in
    let medium := lit (4 # 10) < failure_prob \/ (days_to_failure <= 90)%Z in
    (forall a, critical a ->
       _determine_risk_level failure_prob days_to_failure a = "critical"%string) /\
    (forall a, ~ critical a -> high ->
       _determine_risk_level failure_prob days_to_failure a = "high"%string) /\
    (forall a, ~ critical a -> ~ high -> medium ->
       _determine_risk_level failure_prob days_to_failure a = "medium"%string) /\
    (forall a, ~ critical a -> ~ high -> ~ medium ->
       _determine_risk_level failure_prob days_to_failure a = "low"%string) /\
    _determine_risk_level failure_prob days_to_failure true = "critical"%string.
Proof.
  intros p d critical high medium. unfold _determine_risk_level.
  assert (Hc : forall a, critical a <->
            a || gtb p (lit (8 # 10)) || (d <=? 7)%Z = true).
  { intros a. unfold critical.
    rewrite !orb_true_iff, gtb_true, Z.leb_le. tauto. }
  assert (Hh : high <-> gtb p (lit (6 # 10)) || (d <=? 30)%Z = true).
  { unfold high. rewrite orb_true_iff, gtb_true, Z.leb_le. tauto. }
  assert (Hm : medium <-> gtb p (lit (4 # 10)) || (d <=? 90)%Z = true).
  { unfold medium. rewrite orb_true_iff, gtb_true, Z.leb_le. tauto. }
  repeat split.
  - intros a Ha. apply Hc in Ha. by rewrite Ha.
  - intros a Ha Hhi. rewrite Hc in Ha. rewrite Hh in Hhi.
    apply not_true_is_false in Ha. by rewrite Ha, Hhi.
  - intros a Ha Hhi Hme. rewrite Hc in Ha. rewrite Hh in Hhi. rewrite Hm in Hme.
    apply not_true_is_false in Ha, Hhi. by rewrite Ha, Hhi, Hme.
  - intros a Ha Hhi Hme. rewrite Hc in Ha. rewrite Hh in Hhi. rewrite Hm in Hme.
    apply not_true_is_false in Ha, Hhi, Hme. by rewrite Ha, Hhi, Hme.
Qed.

Lemma type_multipliers_lookup (t : string) :
  default (lit 1) (type_multipliers !! t) = type_factor t.
Proof.
  unfold type_factor, type_multipliers.
  destruct (String.eqb_spec t "hvac") as [->|H1]; [reflexivity|].
  rewrite lookup_insert_ne by congruence.
  destruct (String.eqb_spec t "elevator") as [->|H2]; [reflexivity|].
  rewrite lookup_insert_ne by congruence.
  destruct (String.eqb_spec t "generator") as [->|H3]; [reflexivity|].
  rewrite lookup_insert_ne by congruence.
  destruct (String.eqb_spec t "pump") as [->|H4]; [reflexivity|].
  rewrite lookup_insert_ne by congruence.
  destruct (String.eqb_spec t "lighting") as [->|H5]; [reflexivity|].
  rewrite lookup_insert_ne by congruence.
  reflexivity.
Qed.

(** C4 (as stated, refuted): at failure probability 0.7 the code returns 109
    days for a pump where rounding gives 110, and 130 days for an hvac unit
    where rounding and then multiplying by 1.2 gives 132. *)
Lemma C4_truncation_differs_from_rounding :
  _calculate_days_to_failure (lit (7 # 10)) new_pump = 109%Z /\
  spec_days_to_failure (lit (7 # 10)) new_pump == 110 /\
  _calculate_days_to_failure (lit (7 # 10)) eq_001 = 130%Z /\
  spec_days_to_failure (lit (7 # 10)) eq_001 == 132 /\
  ~ inject_Z (_calculate_days_to_failure (lit (7 # 10)) new_pump)
    == spec_days_to_failure (lit (7 # 10)) new_pump.
Proof. repeat split; vm_compute; congruence. Qed.

(** C4 (amended): for every failure probability p and equipment record,
    days_to_failure is max(1, int(int((1 - p) * 365) * factor)), where int
    truncates toward zero and factor is the equipment-type factor (hvac 1.2,
    elevator 0.8, generator 1.5, pump 1.0, lighting 2.0, any other type 1.0);
    in particular days_to_failure >= 1. *)
Theorem C4_days_to_failure_truncates :
  forall (failure_prob : Q) (equipment : EquipmentData),
    _calculate_days_to_failure failure_prob equipment
    = Z.max 1 (to_int (of_int (to_int ((1 -~ failure_prob) *~ 365)%f64)
                       *~ type_factor (equipment_type equipment))%f64) /\
    (1 <= _calculate_days_to_failure failure_prob equipment)%Z.
Proof.
  intros p e. unfold _calculate_days_to_failure.
  rewrite type_multipliers_lookup. split; [reflexivity|lia].
Qed.

(** The value [np.random.uniform(0.1, 0.9)] computes from a unit sample
    stays between the two binary64 literals. *)
Lemma model_failure_prob_range u :
  0 <= u <= 1 -> lit (1 # 10) <= model_failure_prob u <= lit (9 # 10).
Proof.
  intros [H0 H1]. unfold model_failure_prob.
  set (c := (lit (9 # 10) -~ lit (1 # 10))%f64).
  assert (Hc : 0 < c) by (vm_compute; reflexivity).
  assert (Hlo : 0 <= (c *~ u)%f64).
  { apply fl_nonneg. apply Qmult_le_0_compat; lra. }
  assert (Hhi : (c *~ u)%f64 <= (c *~ 1)%f64).
  { apply fl_mono. apply Qmult_le_l; assumption. }
  split.
  - apply Qle_trans with (fl (lit (1 # 10) + 0)); [vm_compute; discriminate|].
    apply fl_mono. lra.
  - apply Qle_trans with (fl (lit (1 # 10) + (c *~ 1)%f64)); [|vm_compute; discriminate].
    apply fl_mono. lra.
Qed.

Lemma ratio_factor_range x (d : Q) :
  0 < d -> 0 <= x -> 0 <= py_min (x /~ d)%f64 1 <= 1.
Proof.
  intros Hd Hx. split; [|apply py_min_le_r].
  apply py_min_glb; [|discriminate].
  apply fl_nonneg. apply Qle_shift_div_l; [exact Hd|]. lra.
Qed.

Lemma clamp_range x :
  lit (1 # 100) <= py_min (py_max x (lit (1 # 100))) (lit (99 # 100)) <= lit (99 # 100).
Proof.
  split.
  - apply py_min_glb; [apply py_max_ge_r|vm_compute; discriminate].
  - apply py_min_le_r.
Qed.

Lemma factors_range equipment :
  0 <= age_years equipment -> 0 <= usage_hours equipment ->
  temperature equipment <= 75 -> 0 <= vibration equipment ->
  (0 <= last_maintenance_days equipment)%Z ->
  0 <= age_factor equipment <= 1 /\ 0 <= usage_factor equipment <= 1 /\
  0 <= temp_factor equipment <= 1 /\ 0 <= vibration_factor equipment <= 1 /\
  0 <= py_min (int_truediv (last_maintenance_days equipment) 365) 1 <= 1.
Proof.
  intros Ha Hu Ht Hv Hm.
  split; [|split; [|split; [|split]]].
  - apply ratio_factor_range; [reflexivity|exact Ha].
  - apply ratio_factor_range; [reflexivity|exact Hu].
  - unfold temp_factor. split; [apply py_max_ge_l|].
    apply py_max_lub; [discriminate|].
    apply fl_le_const; [|reflexivity].
    apply Qle_shift_div_r; [reflexivity|].
    apply (fl_le_const _ (1 * 50)); [lra|reflexivity].
  - apply ratio_factor_range; [reflexivity|exact Hv].
  - unfold int_truediv.
    apply (ratio_factor_range (inject_Z (last_maintenance_days equipment)) (inject_Z 365));
      [reflexivity|].
    replace 0 with (inject_Z 0) by reflexivity. rewrite <- Zle_Qle. exact Hm.
Qed.







End Scoring.

(** ** Batches, schedules and the lazy bootstrap *)

Section Batch.
Import Runtime Engine Scenario.
Local Open Scope Z_scope.

Lemma append_to_immediate p a b c d :
  append_to "immediate" p (schedule_of a b c d) = schedule_of (a ++ [p]) b c d.
Proof.
  unfold append_to, schedule_of. apply map_eq. intros k.
  rewrite !lookup_insert. repeat case_decide; simplify_eq; reflexivity.
Qed.

Lemma append_to_this_week p a b c d :
  append_to "this_week" p (schedule_of a b c d) = schedule_of a (b ++ [p]) c d.
Proof.
  unfold append_to, schedule_of. apply map_eq. intros k.
  rewrite !lookup_insert. repeat case_decide; simplify_eq; reflexivity.
Qed.

Lemma append_to_this_month p a b c d :
  append_to "this_month" p (schedule_of a b c d) = schedule_of a b (c ++ [p]) d.
Proof.
  unfold append_to, schedule_of. apply map_eq. intros k.
  rewrite !lookup_insert. repeat case_decide; simplify_eq; reflexivity.
Qed.

Lemma append_to_next_quarter p a b c d :
  append_to "next_quarter" p (schedule_of a b c d) = schedule_of a b c (d ++ [p]).
Proof.
  unfold append_to, schedule_of. apply map_eq. intros k.
  rewrite !lookup_insert. repeat case_decide; simplify_eq; reflexivity.
Qed.

(** The loop of [generate_maintenance_schedule], from any four buckets. *)
Lemma schedule_loop predictions : forall a b c d,
  fold_left
    (fun schedule prediction =>
       if is_immediate prediction
       then append_to "immediate" prediction schedule
       else if days_to_failure prediction <=? 7
       then append_to "this_week" prediction schedule
       else if days_to_failure prediction <=? 30
       then append_to "this_month" prediction schedule
       else append_to "next_quarter" prediction schedule)
    predictions (schedule_of a b c d)
  = schedule_of (a ++ List.filter is_immediate predictions)
                (b ++ List.filter is_this_week predictions)
                (c ++ List.filter is_this_month predictions)
                (d ++ List.filter is_next_quarter predictions).
Proof.
  induction predictions as [|p l IH]; intros a b c d.
  - cbn [fold_left List.filter]. by rewrite !app_nil_r.
  - cbn [fold_left List.filter].
    pose proof (eq_refl : is_this_week p
                          = negb (is_immediate p) && (days_to_failure p <=? 7)) as Hw.
    pose proof (eq_refl : is_this_month p
                          = negb (is_immediate p) && negb (days_to_failure p <=? 7)
                            && (days_to_failure p <=? 30)) as Hm.
    pose proof (eq_refl : is_next_quarter p
                          = negb (is_immediate p) && negb (days_to_failure p <=? 7)
                            && negb (days_to_failure p <=? 30)) as Hq.
    destruct (is_immediate p), (days_to_failure p <=? 7), (days_to_failure p <=? 30);
      cbn [negb andb] in Hw, Hm, Hq; rewrite Hw, Hm, Hq;
      rewrite ?append_to_immediate, ?append_to_this_week, ?append_to_this_month,
        ?append_to_next_quarter, IH, <- ?app_assoc; reflexivity.
Qed.

Lemma one_bucket p :
  (Nat.b2n (is_immediate p) + Nat.b2n (is_this_week p) + Nat.b2n (is_this_month p)
   + Nat.b2n (is_next_quarter p) = 1)%nat.
Proof.
  unfold is_this_week, is_this_month, is_next_quarter.
  destruct (is_immediate p), (days_to_failure p <=? 7), (days_to_failure p <=? 30);
    reflexivity.
Qed.

Lemma buckets_permutation (l : list MaintenancePrediction) :
  Permutation l
    (List.filter is_immediate l ++ List.filter is_this_week l
     ++ List.filter is_this_month l ++ List.filter is_next_quarter l).
Proof.
  induction l as [|p l IH]; [constructor|].
  pose proof (one_bucket p) as H1. cbn [List.filter].
  destruct (is_immediate p), (is_this_week p), (is_this_month p), (is_next_quarter p);
    try discriminate H1.
  - cbn [app]. by constructor.
  - by apply Permutation_cons_app.
  - rewrite app_assoc. apply Permutation_cons_app. by rewrite <- app_assoc.
  - rewrite !app_assoc. apply Permutation_cons_app. by rewrite <- !app_assoc.
Qed.

Lemma schedule_of_keys a b c d k :
  schedule_of a b c d !! k <> None ->
  k ∈ ["immediate"; "this_week"; "this_month"; "next_quarter"]%string.
Proof.
  unfold schedule_of. rewrite !lookup_insert, lookup_empty.
  repeat case_decide; [set_solver..|congruence].
Qed.

(** C6: the schedule has exactly the four buckets immediate, this_week,
    this_month, next_quarter; every prediction appears in exactly one of them,
    and membership follows the priority-ordered rule: immediate iff the risk
    level is critical or days_to_failure <= 3; otherwise this_week iff
    days_to_failure <= 7; otherwise this_month iff days_to_failure <= 30;
    otherwise next_quarter. *)
Theorem C6_schedule_is_a_partition :
  forall predictions : list MaintenancePrediction,
    let schedule := generate_maintenance_schedule predictions in
    let immediate p := risk_level p = "critical"%string \/ days_to_failure p <= 3 in
    (exists a b c d,
       schedule !! "immediate"%string = Some a /\
       schedule !! "this_week"%string = Some b /\
       schedule !! "this_month"%string = Some c /\
       schedule !! "next_quarter"%string = Some d /\
       (forall k, schedule !! k <> None ->
          k ∈ ["immediate"; "this_week"; "this_month"; "next_quarter"]%string) /\
       Permutation predictions (a ++ b ++ c ++ d) /\
       (forall p, p ∈ a <-> p ∈ predictions /\ immediate p) /\
       (forall p, p ∈ b <-> p ∈ predictions /\ ~ immediate p /\ days_to_failure p <= 7) /\
       (forall p, p ∈ c <->
          p ∈ predictions /\ ~ immediate p /\ ~ days_to_failure p <= 7
          /\ days_to_failure p <= 30) /\
       (forall p, p ∈ d <->
          p ∈ predictions /\ ~ immediate p /\ ~ days_to_failure p <= 7
          /\ ~ days_to_failure p <= 30)).
Proof.
  intros predictions schedule immediate.
  assert (Hs : schedule
               = schedule_of (List.filter is_immediate predictions)
                   (List.filter is_this_week predictions)
                   (List.filter is_this_month predictions)
                   (List.filter is_next_quarter predictions)).
  { unfold schedule, generate_maintenance_schedule.
    exact (schedule_loop predictions [] [] [] []). }
  assert (Hi : forall p, is_immediate p = true <-> immediate p).
  { intros p. unfold is_immediate, immediate.
    rewrite orb_true_iff, String.eqb_eq, Z.leb_le. tauto. }
  assert (Hn : forall p, is_immediate p = false <-> ~ immediate p).
  { intros p. rewrite <- Hi. destruct (is_immediate p); split; congruence. }
  eexists _, _, _, _. rewrite Hs.
  do 4 (split; [reflexivity|]).
  split; [apply schedule_of_keys|].
  split; [apply buckets_permutation|].
  split; [|split; [|split]]; intros p; rewrite !list_elem_of_In, filter_In;
    unfold is_this_week, is_this_month, is_next_quarter;
    rewrite ?andb_true_iff, ?negb_true_iff, ?Z.leb_le, ?Z.leb_gt, ?Hi, ?Hn; intuition lia.
Qed.

Lemma outcomes_length scorer equipment_list : forall w,
  length (outcomes scorer equipment_list w).1 = length equipment_list.
Proof.
  induction equipment_list as [|e es IH]; intros w; [reflexivity|].
  cbn [outcomes]. destruct (scorer e w) as [r w1].
  specialize (IH w1). destruct (outcomes scorer es w1) as [rs w2].
  cbn [fst length] in *. by rewrite IH.
Qed.

Lemma successes_failures_length {A} (rs : list (Res A)) :
  (length (successes rs) + failures rs = length rs)%nat.
Proof. induction rs as [|[a|e] rs IH]; cbn [successes failures length]; lia. Qed.

(** The [for]/[try] loop keeps exactly the predictions of the calls that
    returned, in input order, whatever the other calls raised. *)
Lemma batch_loop scorer equipment_list : forall predictions w,
  for_each equipment_list predictions
    (fun predictions equipment =>
       try_except
         (prediction ← scorer equipment; mret (predictions ++ [prediction]))
         (fun e => mret predictions)) w
  = (Ok (predictions ++ successes (outcomes scorer equipment_list w).1),
     (outcomes scorer equipment_list w).2).
Proof.
  induction equipment_list as [|e es IH]; intros predictions w.
  - cbn [for_each outcomes successes fst snd]. by rewrite app_nil_r.
  - cbn [for_each outcomes].
    unfold mbind at 1, M_bind at 1, bind at 1, try_except at 1.
    unfold mbind at 1, M_bind at 1, bind at 1.
    destruct (scorer e w) as [[prediction|exception] w1].
    + cbn [mret M_ret ret]. rewrite IH.
      destruct (outcomes scorer es w1) as [rs w2]. cbn [fst snd successes].
      by rewrite <- app_assoc.
    + cbn [mret M_ret ret]. rewrite IH.
      destruct (outcomes scorer es w1) as [rs w2]. reflexivity.
Qed.

(** A trained engine one of whose models is not fitted scores nothing, and
    a failed call leaves the engine object as it was. *)
Lemma predict_maintenance_broken equipment w :
  is_trained (self w) = true -> ~ models_fitted w ->
  exists w',
    predict_maintenance equipment w = (Raise (ValueError "Model not fitted"), w') /\
    self w' = self w.
Proof.
  intros Ht Hm. destruct w as [[fm ad tr fc] samples cursor].
  unfold models_fitted in Hm. cbn [self is_trained failure_model anomaly_detector] in Ht, Hm.
  subst tr. unfold predict_maintenance.
  erewrite bind_run by reflexivity. cbn [self is_trained].
  erewrite bind_run by reflexivity.
  erewrite bind_run by reflexivity. cbn [self failure_model anomaly_detector].
  unfold RandomForestRegressor_predict, IsolationForest_predict.
  destruct (rf_is_fitted fm).
  - destruct (if_is_fitted ad) eqn:Hd; [exfalso; by apply Hm|].
    cbn [prepare_features length replicateM].
    cbv [mbind M_bind bind mret M_ret ret np_random_uniform random_sample index0 get
         self failure_model anomaly_detector np_samples np_cursor].
    rewrite Hd. eexists. split; reflexivity.
  - eexists. split; reflexivity.
Qed.

(** With the engine's own scoring method a batch has no failure or nothing
    but failures: whether a call raises depends on the engine, not on the
    item. *)
Lemma outcomes_all_or_none equipment_list w :
  failures (outcomes predict_maintenance equipment_list w).1 = 0%nat \/
  failures (outcomes predict_maintenance equipment_list w).1 = length equipment_list.
Proof.
  assert (Hcase : usable w \/ (is_trained (self w) = true /\ ~ models_fitted w)).
  { unfold usable, models_fitted.
    destruct (is_trained (self w)); [|by left; left].
    destruct (rf_is_fitted (failure_model (self w))) eqn:Hf;
      destruct (if_is_fitted (anomaly_detector (self w))) eqn:Hd;
      first [by left; right | right; split; [reflexivity|intros [? ?]; discriminate]]. }
  destruct Hcase as [Hu|[Ht Hm]].
  - left. revert w Hu. induction equipment_list as [|e es IH]; intros w Hu; [reflexivity|].
    cbn [outcomes].
    destruct (predict_maintenance_run e w Hu) as (w1 & -> & _ & Hm & _).
    specialize (IH w1 (or_intror Hm)).
    destruct (outcomes predict_maintenance es w1) as [rs w2]. exact IH.
  - right. revert w Ht Hm.
    induction equipment_list as [|e es IH]; intros w Ht Hm; [reflexivity|].
    cbn [outcomes].
    destruct (predict_maintenance_broken e w Ht Hm) as (w1 & -> & Hself).
    assert (Ht1 : is_trained (self w1) = true) by (by rewrite Hself).
    assert (Hm1 : ~ models_fitted w1) by (unfold models_fitted in *; by rewrite Hself).
    specialize (IH w1 Ht1 Hm1).
    destruct (outcomes predict_maintenance es w1) as [rs w2].
    cbn [fst failures length] in *. by rewrite IH.
Qed.



(** The batch example returns the predictions of the two items around the
    failing one. *)
Example batch_example_ids :
  map prediction_equipment_id
    (successes (outcomes (scorer_failing_on "eq-100") batch_example fresh_world).1)
  = ["eq-001"; "eq-002"]%string.
Proof. vm_compute. reflexivity. Qed.

(** The engine's own scoring method never raises on a usable engine, so its
    batches return one prediction per item. *)
Lemma batch_predict_complete equipment_list : forall w,
  usable w ->
  exists predictions w',
    batch_predict equipment_list w = (Ok predictions, w') /\
    map prediction_equipment_id predictions = map equipment_id equipment_list.
Proof.
  intros w Hu. unfold batch_predict, batch_predict_with. rewrite batch_loop.
  eexists _, _. split; [reflexivity|]. cbn [app].
  revert w Hu. induction equipment_list as [|e es IH]; intros w Hu; [reflexivity|].
  cbn [outcomes].
  destruct (predict_maintenance_run e w Hu) as (w1 & -> & Ht & Hm & _).
  specialize (IH w1 (or_intror Hm)).
  destruct (outcomes predict_maintenance es w1) as [rs w2].
  cbn [fst successes map] in *. by rewrite IH.
Qed.



End Batch.

(** ** The workflow executor and the campus run *)

Section Workflow.
Import Runtime Graph Agent AgentScenario AgentVocabulary.
Local Open Scope Z_scope.

Lemma returns_mret {W A} (a : A) : returns (mret a : M W A).
Proof. intros w. by exists a, w. Qed.

Lemma returns_bind {W A B} (m : M W A) (k : A -> M W B) :
  returns m -> (forall a, returns (k a)) -> returns (m ≫= k).
Proof.
  intros Hm Hk w. destruct (Hm w) as (a & w1 & Hr).
  destruct (Hk a w1) as (b & w2 & Hr2). exists b, w2.
  by erewrite bind_run by exact Hr.
Qed.

Lemma returns_for_each {W A B} (xs : list A) (body : B -> A -> M W B) :
  (forall acc x, returns (body acc x)) -> forall acc, returns (for_each xs acc body).
Proof.
  intros Hb. induction xs as [|x xs IH]; intros acc; cbn [for_each].
  - apply returns_mret.
  - apply returns_bind; [apply Hb|exact IH].
Qed.

Lemma returns_datetime_now : returns datetime_now.
Proof. intros c. by eexists _, _. Qed.

Lemma _monitor_sensors_returns state : returns (_monitor_sensors state).
Proof.
  unfold _monitor_sensors.
  apply returns_bind; [apply returns_datetime_now|intros _].
  apply returns_bind; [|intros; apply returns_mret].
  apply returns_for_each. intros acc [sensor_id data].
  destruct (_detect_sensor_anomaly data); [|apply returns_mret].
  apply returns_bind; [apply returns_datetime_now|intros; apply returns_mret].
Qed.

Lemma _predict_maintenance_returns state : returns (_predict_maintenance state).
Proof.
  unfold _predict_maintenance.
  apply returns_bind; [|intros; apply returns_mret].
  apply returns_for_each. intros acc [[id health_score] type].
  destruct (health_score <? 60); [|apply returns_mret].
  apply returns_bind; [apply returns_datetime_now|intros; apply returns_mret].
Qed.

(** The first two stages leave the energy readings alone. *)
Lemma _monitor_sensors_keeps_energy state c :
  exists s1 c1, _monitor_sensors state c = (Ok s1, c1) /\ energy_data s1 = energy_data state.
Proof.
  destruct (_monitor_sensors_returns state c) as (s1 & c1 & H). exists s1, c1.
  split; [exact H|]. revert H. unfold _monitor_sensors.
  erewrite bind_run by reflexivity.
  unfold mbind at 1, M_bind at 1, bind at 1.
  match goal with
  | |- context [for_each ?xs ?acc ?body ?w] =>
      destruct (for_each xs acc body w) as [[l|e] c']
  end; [|discriminate].
  intros [= <- _]. reflexivity.
Qed.

Lemma _predict_maintenance_keeps_energy state c :
  exists s2 c2,
    _predict_maintenance state c = (Ok s2, c2) /\ energy_data s2 = energy_data state.
Proof. eexists _, _. split; reflexivity. Qed.

(** The loop of [_optimize_energy]: it raises at the first selected building
    whose consumption is an int beyond the floats, and appends one
    optimization per selected building otherwise. *)
Lemma energy_loop_run (xs : list (string * EnergyReading)) : forall (k : nat) acc (c : Clock),
  for_each xs acc
    (fun energy_optimizations '(building_id, energy_data) =>
       let current_consumption := default 1000%Q (current_consumption energy_data) in
       if (current_consumption >~ 1200)%f64 then
         consumption ← as_float current_consumption;
         let potential_savings := (consumption *~ lit (15 # 100))%f64 in
         mret (energy_optimizations ++
           [{| building_id := building_id;
               opt_current_consumption := current_consumption;
               potential_savings := potential_savings;
               opt_recommendations := ["Adjust HVAC temperature setpoints";
                                       "Implement smart lighting schedules";
                                       "Optimize equipment runtime"];
               estimated_cost_savings := (potential_savings *~ lit (15 # 100))%f64 |}])
       else mret energy_optimizations) c
  = if energy_overflow xs
    then (Raise (OverflowError "int too large to convert to float"), c)
    else (Ok (acc ++ appended
                       (fun x => (default 1000%Q (current_consumption x.2) >~ 1200)%f64)
                       (fun acc x _ => optimization_of acc x) (fun _ => 0) k acc xs), c).
Proof.
  induction xs as [|[building_id reading] xs IH]; intros k acc c.
  - cbn [for_each energy_overflow existsb appended]. by rewrite app_nil_r.
  - cbn [for_each energy_overflow existsb appended snd]. unfold unconvertible at 1.
    cbv zeta.
    destruct (default 1000%Q (current_consumption reading) >~ 1200)%f64 eqn:Hsel.
    + cbn [andb]. unfold as_float.
      destruct (Float64.overflows (default 1000%Q (current_consumption reading))); cbn [orb].
      * reflexivity.
      * erewrite bind_run by (erewrite bind_run by reflexivity; reflexivity).
        rewrite (IH (S k)). unfold energy_overflow.
        destruct (existsb _ xs); [reflexivity|].
        rewrite <- app_assoc. reflexivity.
    + cbn [andb orb]. erewrite bind_run by reflexivity. rewrite (IH k).
      reflexivity.
Qed.

Lemma _optimize_energy_run state c :
  _optimize_energy state c
  = if energy_overflow (energy_data state)
    then (Raise (OverflowError "int too large to convert to float"), c)
    else (Ok (set_current_task "optimize_energy"
                (set_context
                   {| sensor_anomalies := sensor_anomalies (context state);
                      maintenance_predictions := maintenance_predictions (context state);
                      energy_optimizations :=
                        Some (appended
                                (fun x =>
                                   (default 1000%Q (current_consumption x.2) >~ 1200)%f64)
                                (fun acc x _ => optimization_of acc x) (fun _ => 0) 0%nat []
                                (energy_data state));
                      decisions := decisions (context state) |} state)), c).
Proof.
  unfold _optimize_energy. unfold mbind at 1, M_bind at 1, bind at 1.
  rewrite (energy_loop_run _ 0%nat).
  destruct (energy_overflow (energy_data state)); reflexivity.
Qed.

Lemma _optimize_energy_ok state c :
  energy_overflow (energy_data state) = false ->
  exists s3, _optimize_energy state c = (Ok s3, c) /\ energy_data s3 = energy_data state.
Proof. intros H. rewrite _optimize_energy_run, H. eexists. split; reflexivity. Qed.

Lemma _optimize_energy_raises state c :
  energy_overflow (energy_data state) = true ->
  _optimize_energy state c
  = (Raise (OverflowError "int too large to convert to float"), c).
Proof. intros H. by rewrite _optimize_energy_run, H. Qed.

Lemma _generate_alerts_returns state : returns (_generate_alerts state).
Proof.
  unfold _generate_alerts.
  apply returns_bind; [|intros; apply returns_mret].
  apply returns_for_each. intros acc prediction.
  apply returns_bind; [apply returns_datetime_now|intros; apply returns_mret].
Qed.

Lemma _generate_recommendations_returns state : returns (_generate_recommendations state).
Proof. apply returns_mret. Qed.

Lemma _make_decisions_returns state : returns (_make_decisions state).
Proof.
  unfold _make_decisions.
  apply returns_bind; [|intros; apply returns_mret].
  apply returns_for_each. intros acc rec.
  destruct (_ && _); [|apply returns_mret].
  apply returns_bind; [apply returns_datetime_now|intros; apply returns_mret].
Qed.

(** The recorded loop and the loop of the source return the same result. *)
Lemma ainvoke_loop_trace_erase {S W} fuel (g : CompiledGraph S W) :
  forall current_node state w called,
    ainvoke_loop fuel g current_node state w
    = (fun r => (r.1.1, r.1.2)) <$> ainvoke_loop_trace fuel g current_node state w called.
Proof.
  induction fuel as [|fuel IH]; intros current_node state w called; [reflexivity|].
  cbn [ainvoke_loop ainvoke_loop_trace].
  destruct (truthy current_node) as [name|]; [|reflexivity].
  destruct (c_nodes g !! name) as [handler|]; [|reflexivity].
  destruct (handler state w) as [[state'|e] w']; [|reflexivity].
  destruct (c_edges g !! name) as [[|next rest]|]; try reflexivity.
  apply IH.
Qed.

(** One iteration through a node that has a handler and a recorded edge:
    only the first recorded edge decides where the run goes. *)
Lemma trace_step {S W} fuel (g : CompiledGraph S W) name handler state w state' w'
    next rest called :
  truthy (Some name) = Some name ->
  c_nodes g !! name = Some handler ->
  handler state w = (Ok state', w') ->
  c_edges g !! name = Some (next :: rest) ->
  ainvoke_loop_trace (Datatypes.S fuel) g (Some name) state w called
  = ainvoke_loop_trace fuel g (Some next) state' w' (called ++ [name]).
Proof.
  intros Ht Hn Hh He. cbn [ainvoke_loop_trace]. rewrite Ht.
  unfold Handler, M in *. by rewrite Hn, Hh, He.
Qed.

(** One iteration through a node whose handler raises: the run ends there. *)
Lemma trace_raise {S W} fuel (g : CompiledGraph S W) name handler state w e w' called :
  truthy (Some name) = Some name ->
  c_nodes g !! name = Some handler ->
  handler state w = (Raise e, w') ->
  ainvoke_loop_trace (Datatypes.S fuel) g (Some name) state w called
  = Some (Raise e, w', called ++ [name]).
Proof.
  intros Ht Hn Hh. cbn [ainvoke_loop_trace]. rewrite Ht.
  unfold Handler, M in *. by rewrite Hn, Hh.
Qed.

(** The run stops at a name that has no handler. *)
Lemma trace_stop {S W} fuel (g : CompiledGraph S W) name state w called :
  truthy (Some name) = Some name ->
  c_nodes g !! name = None ->
  ainvoke_loop_trace (Datatypes.S fuel) g (Some name) state w called
  = Some (Ok state, w, called).
Proof.
  intros Ht Hn. cbn [ainvoke_loop_trace]. rewrite Ht.
  unfold Handler, M in *. by rewrite Hn.
Qed.

(** An edge recorded from a node that already has one changes no run of
    the graph, from any node and state. *)
Lemma later_edge_is_inert {S W} (g : StateGraph S W) from_node to_node first rest fuel :
  edges g !! from_node = Some (first :: rest) ->
  forall current_node state w,
    ainvoke_loop fuel (compile (add_edge from_node to_node g)) current_node state w
    = ainvoke_loop fuel (compile g) current_node state w.
Proof.
  intros He. induction fuel as [|fuel IH]; intros current_node state w; [reflexivity|].
  cbn [ainvoke_loop compile add_edge c_nodes c_edges nodes edges].
  destruct (truthy current_node) as [name|]; [|reflexivity].
  destruct (nodes g !! name) as [handler|]; [|reflexivity].
  destruct (handler state w) as [[state'|e] w']; [|reflexivity].
  destruct (decide (from_node = name)) as [<-|Hne].
  - rewrite lookup_insert_eq, He. cbn [default app]. apply IH.
  - rewrite lookup_insert_ne by exact Hne.
    destruct (edges g !! name) as [[|next others]|]; try reflexivity. apply IH.
Qed.

Lemma first_edge_add_edge g a b from_node to_node :
  first_edge g a b -> first_edge (add_edge from_node to_node g) a b.
Proof.
  intros [rest He]. unfold first_edge, add_edge. cbn [edges].
  destruct (decide (from_node = a)) as [->|Hne].
  - rewrite lookup_insert_eq, He. cbn [default app]. by eexists.
  - rewrite lookup_insert_ne by exact Hne. by eexists.
Qed.

Lemma campus_wired_add_edge g from_node to_node :
  campus_wired g -> campus_wired (add_edge from_node to_node g).
Proof.
  intros (Hn & He & H1 & H2 & H3 & H4 & H5 & H6).
  repeat split; try by apply first_edge_add_edge.
  - exact Hn.
  - exact He.
Qed.

Lemma campus_wired_extra extras : forall g,
  campus_wired g -> campus_wired (with_extra_edges extras g).
Proof.
  induction extras as [|[a b] extras IH]; intros g Hg; [exact Hg|].
  apply IH. by apply campus_wired_add_edge.
Qed.

Lemma campus_workflow_wired : campus_wired campus_workflow.
Proof.
  repeat split; try reflexivity; unfold first_edge; eexists; reflexivity.
Qed.

(** Every wired graph runs the pipeline, whatever the state holds. *)
Lemma campus_wired_run g state clock spare :
  campus_wired g ->
  energy_overflow (energy_data state) = false ->
  exists final clock',
    campus_pipeline state clock = (Ok final, clock') /\
    ainvoke_trace (7 + spare) (compile g) state clock
    = Some (Ok final, clock', stage_names).
Proof.
  intros (Hn & He & [r1 H1] & [r2 H2] & [r3 H3] & [r4 H4] & [r5 H5] & [r6 H6]) Hconv.
  destruct (_monitor_sensors_keeps_energy state clock) as (s1 & c1 & E1 & K1).
  destruct (_predict_maintenance_keeps_energy s1 c1) as (s2 & c2 & E2 & K2).
  destruct (_optimize_energy_ok s2 c2) as (s3 & E3 & _); [by rewrite K2, K1|].
  destruct (_generate_alerts_returns s3 c2) as (s4 & c4 & E4).
  destruct (_generate_recommendations_returns s4 c4) as (s5 & c5 & E5).
  destruct (_make_decisions_returns s5 c5) as (s6 & c6 & E6).
  exists s6, c6. split.
  - unfold campus_pipeline.
    erewrite bind_run by exact E1. erewrite bind_run by exact E2.
    erewrite bind_run by exact E3. erewrite bind_run by exact E4.
    erewrite bind_run by exact E5. exact E6.
  - unfold ainvoke_trace, compile. cbn [c_entry_point c_nodes c_edges].
    rewrite He. change (7 + spare)%nat with (Datatypes.S (6 + spare)).
    erewrite trace_step;
      [|reflexivity|cbn [c_nodes]; rewrite Hn; reflexivity|exact E1|exact H1].
    change (6 + spare)%nat with (Datatypes.S (5 + spare)).
    erewrite trace_step;
      [|reflexivity|cbn [c_nodes]; rewrite Hn; reflexivity|exact E2|exact H2].
    change (5 + spare)%nat with (Datatypes.S (4 + spare)).
    erewrite trace_step;
      [|reflexivity|cbn [c_nodes]; rewrite Hn; reflexivity|exact E3|exact H3].
    change (4 + spare)%nat with (Datatypes.S (3 + spare)).
    erewrite trace_step;
      [|reflexivity|cbn [c_nodes]; rewrite Hn; reflexivity|exact E4|exact H4].
    change (3 + spare)%nat with (Datatypes.S (2 + spare)).
    erewrite trace_step;
      [|reflexivity|cbn [c_nodes]; rewrite Hn; reflexivity|exact E5|exact H5].
    change (2 + spare)%nat with (Datatypes.S (1 + spare)).
    erewrite trace_step;
      [|reflexivity|cbn [c_nodes]; rewrite Hn; reflexivity|exact E6|exact H6].
    change (1 + spare)%nat with (Datatypes.S spare).
    erewrite trace_stop; [reflexivity|reflexivity|].
    cbn [c_nodes]. rewrite Hn. reflexivity.
Qed.

(** With an int consumption beyond the floats the run ends in the third
    stage: the exception leaves [ainvoke] and the last three handlers are not
    called. *)
Lemma campus_wired_abort g state clock spare :
  campus_wired g ->
  energy_overflow (energy_data state) = true ->
  exists clock',
    campus_pipeline state clock
    = (Raise (OverflowError "int too large to convert to float"), clock') /\
    ainvoke_trace (3 + spare) (compile g) state clock
    = Some (Raise (OverflowError "int too large to convert to float"), clock',
            stages_until_energy).
Proof.
  intros (Hn & He & [r1 H1] & [r2 H2] & _) Hover.
  destruct (_monitor_sensors_keeps_energy state clock) as (s1 & c1 & E1 & K1).
  destruct (_predict_maintenance_keeps_energy s1 c1) as (s2 & c2 & E2 & K2).
  assert (E3 : _optimize_energy s2 c2
               = (Raise (OverflowError "int too large to convert to float"), c2)).
  { apply _optimize_energy_raises. by rewrite K2, K1. }
  exists c2. split.
  - unfold campus_pipeline.
    erewrite bind_run by exact E1. erewrite bind_run by exact E2.
    by erewrite bind_raise by exact E3.
  - unfold ainvoke_trace, compile. cbn [c_entry_point c_nodes c_edges].
    rewrite He. change (3 + spare)%nat with (Datatypes.S (2 + spare)).
    erewrite trace_step;
      [|reflexivity|cbn [c_nodes]; rewrite Hn; reflexivity|exact E1|exact H1].
    change (2 + spare)%nat with (Datatypes.S (1 + spare)).
    erewrite trace_step;
      [|reflexivity|cbn [c_nodes]; rewrite Hn; reflexivity|exact E2|exact H2].
    change (1 + spare)%nat with (Datatypes.S spare).
    erewrite trace_raise;
      [reflexivity|reflexivity|cbn [c_nodes]; rewrite Hn; reflexivity|exact E3].
Qed.

(** What [ainvoke] returns is what the recorded loop returns. *)
Lemma ainvoke_of_trace {S W} fuel (g : CompiledGraph S W) state w r w' called :
  ainvoke_trace fuel g state w = Some (r, w', called) ->
  ainvoke fuel g state w = Some (r, w').
Proof.
  unfold ainvoke, ainvoke_trace. intros H.
  by rewrite (ainvoke_loop_trace_erase _ _ _ _ _ []), H.
Qed.

(** C1 (as stated, refuted): with the readings of [main()] and a third
    building whose consumption is the int 10 ^ 400, the run of the compiled
    campus workflow raises OverflowError in energy_optimizer; it has called
    three handlers, and alert_generator, recommendation_engine and
    decision_maker are never called. *)
Lemma C1_overflowing_consumption_aborts_run :
  exists clock',
    ainvoke 7 _build_agent_graph overflowing_state sample_clock
    = Some (Raise (OverflowError "int too large to convert to float"), clock') /\
    ainvoke_trace 7 _build_agent_graph overflowing_state sample_clock
    = Some (Raise (OverflowError "int too large to convert to float"), clock',
            stages_until_energy) /\
    length stages_until_energy = 3%nat /\
    ~ In "alert_generator"%string stages_until_energy.
Proof.
  destruct (campus_wired_abort campus_workflow overflowing_state sample_clock 4
              campus_workflow_wired) as (clock' & _ & Ht); [vm_compute; reflexivity|].
  exists clock'. split; [exact (ainvoke_of_trace _ _ _ _ _ _ _ Ht)|].
  split; [exact Ht|]. split; [reflexivity|].
  unfold stages_until_energy. cbn [In]. intuition discriminate.
Qed.

(** C1 (amended): on every initial state and clock, and whatever further
    edges are added after the wiring, a run of the compiled campus workflow
    follows the first edge recorded from each stage; the state does not take
    part in routing.  When no selected consumption figure is an int beyond the
    floats, the run calls the six stage handlers exactly once each, in the
    order sensor_monitor, maintenance_predictor, energy_optimizer,
    alert_generator, recommendation_engine, decision_maker, stops at END,
    which has no handler, and returns what the six handlers return when
    applied in that order.  Otherwise it calls the first three handlers and
    ends with the OverflowError that energy_optimizer raises. *)
Theorem C1_campus_run_visits_six_stages_in_order :
  forall (state : CampusAgentState) (clock : Clock) (spare : nat)
         (extras : list (string * string)),
    let g := compile (with_extra_edges extras campus_workflow) in
    c_edges _build_agent_graph !! "decision_maker"%string = Some [END] /\
    c_nodes g !! END = None /\
    ainvoke (7 + spare) g state clock
    = ainvoke (7 + spare) _build_agent_graph state clock /\
    ainvoke (7 + spare) g state clock = Some (campus_pipeline state clock) /\
    if energy_overflow (energy_data state)
    then exists clock',
        ainvoke (7 + spare) g state clock
        = Some (Raise (OverflowError "int too large to convert to float"), clock') /\
        ainvoke_trace (7 + spare) g state clock
        = Some (Raise (OverflowError "int too large to convert to float"), clock',
                stages_until_energy)
    else exists final clock',
        ainvoke (7 + spare) g state clock = Some (Ok final, clock') /\
        ainvoke_trace (7 + spare) g state clock = Some (Ok final, clock', stage_names).
Proof.
  intros state clock spare extras g.
  pose proof (campus_wired_extra extras _ campus_workflow_wired) as Hw.
  assert (Hrun : forall extras',
             ainvoke (7 + spare) (compile (with_extra_edges extras' campus_workflow))
               state clock
             = Some (campus_pipeline state clock)).
  { intros extras'.
    pose proof (campus_wired_extra extras' _ campus_workflow_wired) as Hw'.
    destruct (energy_overflow (energy_data state)) eqn:Hover.
    - destruct (campus_wired_abort _ state clock (4 + spare) Hw' Hover)
        as (clock' & Hp & Ht).
      rewrite Hp. exact (ainvoke_of_trace _ _ _ _ _ _ _ Ht).
    - destruct (campus_wired_run _ state clock spare Hw' Hover)
        as (final & clock' & Hp & Ht).
      rewrite Hp. exact (ainvoke_of_trace _ _ _ _ _ _ _ Ht). }
  split; [reflexivity|]. split.
  { destruct Hw as (Hn & _). subst g. cbn [c_nodes compile]. by rewrite Hn. }
  split; [subst g; rewrite (Hrun extras); exact (eq_sym (Hrun []))|].
  split; [exact (Hrun extras)|].
  destruct (energy_overflow (energy_data state)) eqn:Hover.
  - destruct (campus_wired_abort _ state clock (4 + spare) Hw Hover)
      as (clock' & _ & Ht).
    exists clock'. split; [exact (ainvoke_of_trace _ _ _ _ _ _ _ Ht)|exact Ht].
  - destruct (campus_wired_run _ state clock spare Hw Hover)
      as (final & clock' & _ & Ht).
    exists final, clock'. split; [exact (ainvoke_of_trace _ _ _ _ _ _ _ Ht)|exact Ht].
Qed.

End Workflow.

(** ** The maintenance predictor stage *)

Section StagePredictor.
Import Runtime Graph Agent AgentScenario.
Local Open Scope Z_scope.

(** C8 (as stated, refuted): on the equipment snapshot of the engine's
    [main()], the Scoring Module returns a prediction for eq-001 and one for
    eq-002, while the stage stores a single entry, for eq-002; on an empty
    snapshot the Scoring Module returns nothing and the stage stores the same
    single entry. *)
Lemma C8_stage_ignores_registry :
  exists state' clock' predictions w',
    _predict_maintenance sample_state sample_clock = (Ok state', clock') /\
    spec_stage_predictions Engine.main_equipment_data Scenario.fresh_world
    = (Ok predictions, w') /\
    map equipment_id (default [] (maintenance_predictions (context state')))
    = ["eq-002"]%string /\
    map Engine.prediction_equipment_id predictions = ["eq-001"; "eq-002"]%string /\
    length (default [] (maintenance_predictions (context state'))) <> length predictions /\
    spec_stage_predictions [] Scenario.fresh_world = (Ok [], Scenario.fresh_world).
Proof.
  destruct (batch_predict_complete Engine.main_equipment_data Scenario.fresh_world
              (or_introl eq_refl)) as (predictions & w' & Hb & Hids).
  eexists _, _, predictions, w'.
  split; [reflexivity|]. split; [exact Hb|]. split; [reflexivity|].
  split; [exact Hids|]. split; [|reflexivity].
  apply (f_equal length) in Hids. rewrite !length_map in Hids.
  rewrite Hids. cbn. discriminate.
Qed.

(** C8 (amended): for every state, the maintenance_predictor stage consults
    neither the Scoring Module nor an equipment registry.  It evaluates its
    own in-line list of three health scores (eq-001 hvac 75, eq-002 elevator
    45, eq-003 generator 90) and stores under context['maintenance_predictions']
    the entries of those below 60: always the single entry for eq-002, failing
    in max(1, (45 - 20) div 5) = 5 days from the clock reading, confidence
    0.85, priority high.  It sets current_task to predict_maintenance and
    leaves everything else in the state as it was. *)
Theorem C8_stage_stores_inline_prediction :
  forall (state : CampusAgentState) (clock : Clock),
    exists state',
      _predict_maintenance state clock
      = (Ok state', {| instants := instants clock;
                       clock_cursor := S (clock_cursor clock) |}) /\
      maintenance_predictions (context state')
      = Some [inline_prediction (instants clock (clock_cursor clock))] /\
      current_task state' = Some "predict_maintenance"%string /\
      sensor_anomalies (context state') = sensor_anomalies (context state) /\
      energy_optimizations (context state') = energy_optimizations (context state) /\
      decisions (context state') = decisions (context state) /\
      sensor_data state' = sensor_data state /\
      energy_data state' = energy_data state /\
      maintenance_requests state' = maintenance_requests state /\
      alerts state' = alerts state /\
      recommendations state' = recommendations state /\
      timestamp state' = timestamp state.
Proof.
  intros state clock. eexists. split; [reflexivity|]. repeat split.
Qed.

End StagePredictor.

(* ===================================================================== *)
(** * Part III: further properties of the code *)
(* ===================================================================== *)

(** ** More on rounding and truncation *)

Section Float64Order.
Import Float64.
Local Open Scope Q_scope.

Lemma to_int_nonneg x : 0 <= x -> to_int x = Qfloor x.
Proof.
  intros Hx. destruct x as [n d]. unfold to_int, Qfloor. cbn [Qnum Qden].
  apply Z.quot_div_nonneg; [|lia].
  unfold Qle in Hx. cbn in Hx. lia.
Qed.

Lemma to_int_neg x : x <= 0 -> to_int x = Qceiling x.
Proof.
  intros Hx. destruct x as [n d]. unfold to_int, Qceiling, Qfloor, Qopp.
  cbn [Qnum Qden]. unfold Qle in Hx. cbn in Hx.
  assert (Hn : (n <= 0)%Z) by lia.
  replace n with (- - n)%Z at 1 by lia.
  rewrite Z.quot_opp_l by lia. f_equal.
  apply Z.quot_div_nonneg; lia.
Qed.

Lemma to_int_mono x y : x <= y -> (to_int x <= to_int y)%Z.
Proof.
  intros Hxy.
  destruct (Qlt_le_dec x 0) as [Hx|Hx]; destruct (Qlt_le_dec y 0) as [Hy|Hy].
  - rewrite !to_int_neg by lra. by apply Qceiling_resp_le.
  - rewrite to_int_neg by lra. rewrite to_int_nonneg by lra.
    apply Z.le_trans with 0%Z.
    + change 0%Z with (Qceiling 0). apply Qceiling_resp_le. lra.
    + change 0%Z with (Qfloor 0). by apply Qfloor_resp_le.
  - lra.
  - rewrite !to_int_nonneg by lra. by apply Qfloor_resp_le.
Qed.

Lemma to_int_Z k : to_int (inject_Z k) = k.
Proof. unfold to_int, inject_Z. cbn. apply Z.quot_1_r. Qed.

Lemma of_int_mono a b : (a <= b)%Z -> of_int a <= of_int b.
Proof. intros H. apply fl_mono. by rewrite <- Zle_Qle. Qed.

Lemma fsub_antitone_r x y y' : y <= y' -> fsub x y' <= fsub x y.
Proof. intros H. apply fl_mono. lra. Qed.

Lemma fmul_mono_l x x' c : 0 <= c -> x <= x' -> fmul x c <= fmul x' c.
Proof. intros Hc H. apply fl_mono. by apply Qmult_le_compat_r. Qed.

Lemma fmul_mono_r x c c' : 0 <= x -> c <= c' -> fmul x c <= fmul x c'.
Proof.
  intros Hx H. apply fl_mono. rewrite !(Qmult_comm x). by apply Qmult_le_compat_r.
Qed.

End Float64Order.

(** ** Days to failure, risk and cost as functions of the failure probability *)

Section ScoringOrder.
Import Runtime Engine Scenario EngineVocabulary Float64.
Local Open Scope Q_scope.

Lemma type_factor_range t : lit (8 # 10) <= type_factor t <= 2.
Proof.
  unfold type_factor.
  repeat (destruct (String.eqb t _)); split; vm_compute; discriminate.
Qed.

Lemma days_to_failure_antitone p1 p2 equipment :
  p1 <= p2 ->
  (_calculate_days_to_failure p2 equipment <= _calculate_days_to_failure p1 equipment)%Z.
Proof.
  intros Hp. unfold _calculate_days_to_failure. rewrite type_multipliers_lookup.
  pose proof (type_factor_range (equipment_type equipment)) as [Hlo _].
  assert (H0 : 0 <= type_factor (equipment_type equipment)).
  { apply Qle_trans with (lit (8 # 10)); [vm_compute; discriminate|exact Hlo]. }
  apply Z.max_le_compat_l, to_int_mono, fmul_mono_l; [exact H0|].
  apply of_int_mono, to_int_mono, fmul_mono_l; [discriminate|].
  by apply fsub_antitone_r.
Qed.

Lemma days_to_failure_at_0 equipment :
  (_calculate_days_to_failure 0 equipment <= 730)%Z.
Proof.
  unfold _calculate_days_to_failure. rewrite type_multipliers_lookup.
  unfold type_factor.
  repeat (destruct (String.eqb (equipment_type equipment) _)); vm_compute; discriminate.
Qed.

Lemma days_to_failure_at_01 equipment :
  (_calculate_days_to_failure (lit (1 # 10)) equipment <= 656)%Z.
Proof.
  unfold _calculate_days_to_failure. rewrite type_multipliers_lookup.
  unfold type_factor.
  repeat (destruct (String.eqb (equipment_type equipment) _)); vm_compute; discriminate.
Qed.

Lemma days_to_failure_at_09 equipment :
  (28 <= _calculate_days_to_failure (lit (9 # 10)) equipment)%Z.
Proof.
  unfold _calculate_days_to_failure. rewrite type_multipliers_lookup.
  unfold type_factor.
  repeat (destruct (String.eqb (equipment_type equipment) _)); vm_compute; discriminate.
Qed.

(** X1: a higher failure probability never gives more days to failure, for
    any equipment record. *)
Theorem X1_days_to_failure_never_grows_with_probability :
  forall (p1 p2 : Q) (equipment : EquipmentData),
    p1 <= p2 ->
    (_calculate_days_to_failure p2 equipment <= _calculate_days_to_failure p1 equipment)%Z.
Proof. intros p1 p2 equipment. apply days_to_failure_antitone. Qed.

Lemma X1_days_to_failure_never_grows_with_probability_witness :
  (_calculate_days_to_failure (lit (7 # 10)) eq_001
   <= _calculate_days_to_failure (lit (3 # 10)) eq_001)%Z.
Proof.
  apply (X1_days_to_failure_never_grows_with_probability (lit (3 # 10)) (lit (7 # 10)) eq_001).
  vm_compute. discriminate.
Defined.

(** X2: for a failure probability that is not negative, days to failure lies
    between 1 and 730 (a year of base days times the largest type factor). *)
Theorem X2_days_to_failure_at_most_two_years :
  forall (failure_prob : Q) (equipment : EquipmentData),
    0 <= failure_prob ->
    (1 <= _calculate_days_to_failure failure_prob equipment <= 730)%Z.
Proof.
  intros p equipment Hp. split.
  - unfold _calculate_days_to_failure. lia.
  - etransitivity; [apply (days_to_failure_antitone 0 p equipment Hp)|].
    apply days_to_failure_at_0.
Qed.

Lemma X2_days_to_failure_at_most_two_years_witness :
  (1 <= _calculate_days_to_failure (lit (3 # 10)) eq_001 <= 730)%Z.
Proof.
  apply (X2_days_to_failure_at_most_two_years (lit (3 # 10)) eq_001).
  vm_compute. discriminate.
Defined.

Lemma gtb_mono p1 p2 c : p1 <= p2 -> gtb p1 c = true -> gtb p2 c = true.
Proof. rewrite !gtb_true. intros. lra. Qed.

Lemma leb_antitone (d1 d2 k : Z) :
  (d2 <= d1)%Z -> (d1 <=? k)%Z = true -> (d2 <=? k)%Z = true.
Proof. rewrite !Z.leb_le. lia. Qed.

Lemma risk_level_monotone p1 p2 d1 d2 a :
  p1 <= p2 -> (d2 <= d1)%Z ->
  (severity (_determine_risk_level p1 d1 a)
   <= severity (_determine_risk_level p2 d2 a))%nat.
Proof.
  intros Hp Hd. unfold _determine_risk_level.
  destruct a; [cbn; lia|]. cbn [orb].
  pose proof (gtb_mono p1 p2 (lit (8 # 10)) Hp) as G8.
  pose proof (gtb_mono p1 p2 (lit (6 # 10)) Hp) as G6.
  pose proof (gtb_mono p1 p2 (lit (4 # 10)) Hp) as G4.
  pose proof (leb_antitone d1 d2 7 Hd) as L7.
  pose proof (leb_antitone d1 d2 30 Hd) as L30.
  pose proof (leb_antitone d1 d2 90 Hd) as L90.
  destruct (gtb p1 (lit (8 # 10))), (d1 <=? 7)%Z;
    try (rewrite ?G8, ?L7, ?orb_true_r by reflexivity; cbn; lia);
  destruct (gtb p2 (lit (8 # 10))), (d2 <=? 7)%Z; cbn [orb]; try (cbn; lia);
  destruct (gtb p1 (lit (6 # 10))), (d1 <=? 30)%Z;
    try (rewrite ?G6, ?L30, ?orb_true_r by reflexivity; cbn; lia);
  destruct (gtb p2 (lit (6 # 10))), (d2 <=? 30)%Z; cbn [orb]; try (cbn; lia);
  destruct (gtb p1 (lit (4 # 10))), (d1 <=? 90)%Z;
    try (rewrite ?G4, ?L90, ?orb_true_r by reflexivity; cbn; lia);
  destruct (gtb p2 (lit (4 # 10))), (d2 <=? 90)%Z; cbn; lia.
Qed.

(** X3: with the equipment record and the anomaly flag fixed, a higher
    failure probability never lowers the severity of the risk level of the
    prediction built from it (low < medium < high < critical), the days to
    failure it implies being taken into account. *)
Theorem X3_risk_severity_never_drops_with_probability :
  forall (equipment : EquipmentData) (p1 p2 : Q) (is_anomaly : bool),
    p1 <= p2 ->
    (severity (risk_level (prediction_of equipment p1 is_anomaly))
     <= severity (risk_level (prediction_of equipment p2 is_anomaly)))%nat.
Proof.
  intros equipment p1 p2 a Hp. cbn [risk_level prediction_of].
  apply risk_level_monotone; [exact Hp|by apply days_to_failure_antitone].
Qed.

Lemma X3_risk_severity_never_drops_with_probability_witness :
  (severity (risk_level (prediction_of eq_001 (lit (3 # 10)) false))
   <= severity (risk_level (prediction_of eq_001 (lit (7 # 10)) false)))%nat.
Proof.
  apply (X3_risk_severity_never_drops_with_probability eq_001
           (lit (3 # 10)) (lit (7 # 10)) false).
  vm_compute. discriminate.
Defined.

Lemma base_costs_lookup (t : string) :
  default 1000%Z (base_costs !! t)
  = (if String.eqb t "hvac" then 800
     else if String.eqb t "elevator" then 2500
     else if String.eqb t "generator" then 1500
     else if String.eqb t "pump" then 600
     else if String.eqb t "lighting" then 200
     else 1000)%Z.
Proof.
  unfold base_costs.
  destruct (String.eqb_spec t "hvac") as [->|H1]; [reflexivity|].
  rewrite lookup_insert_ne by congruence.
  destruct (String.eqb_spec t "elevator") as [->|H2]; [reflexivity|].
  rewrite lookup_insert_ne by congruence.
  destruct (String.eqb_spec t "generator") as [->|H3]; [reflexivity|].
  rewrite lookup_insert_ne by congruence.
  destruct (String.eqb_spec t "pump") as [->|H4]; [reflexivity|].
  rewrite lookup_insert_ne by congruence.
  destruct (String.eqb_spec t "lighting") as [->|H5]; [reflexivity|].
  rewrite lookup_insert_ne by congruence.
  reflexivity.
Qed.

Lemma risk_multipliers_lookup (r : string) :
  default (lit 1) (risk_multipliers !! r)
  = if String.eqb r "critical" then lit (25 # 10)
    else if String.eqb r "high" then lit (18 # 10)
    else if String.eqb r "medium" then lit (12 # 10)
    else lit 1.
Proof.
  unfold risk_multipliers.
  destruct (String.eqb_spec r "critical") as [->|H1]; [reflexivity|].
  rewrite lookup_insert_ne by congruence.
  destruct (String.eqb_spec r "high") as [->|H2]; [reflexivity|].
  rewrite lookup_insert_ne by congruence.
  destruct (String.eqb_spec r "medium") as [->|H3]; [reflexivity|].
  rewrite lookup_insert_ne by congruence.
  destruct (String.eqb_spec r "low") as [->|H4]; [reflexivity|].
  rewrite lookup_insert_ne by congruence.
  reflexivity.
Qed.

(** The base cost converts to a float exactly and is at least 200. *)
Lemma base_cost_exact t :
  let b := default 1000%Z (base_costs !! t) in
  of_int b == inject_Z b /\ 200 <= inject_Z b.
Proof.
  cbv zeta. rewrite base_costs_lookup.
  repeat (destruct (String.eqb t _)); split; vm_compute; congruence.
Qed.

Lemma risk_multiplier_ge_1 r : 1 <= default (lit 1) (risk_multipliers !! r).
Proof.
  rewrite risk_multipliers_lookup.
  repeat (destruct (String.eqb r _)); vm_compute; discriminate.
Qed.

Lemma age_multiplier_ge_1 x : 0 <= x -> 1 <= (1 +~ x /~ 20)%f64.
Proof.
  intros Hx.
  assert (H0 : 0 <= (x /~ 20)%f64).
  { apply fl_nonneg. apply Qle_shift_div_l; [reflexivity|]. lra. }
  apply Qle_trans with (fl (1 + 0)); [vm_compute; discriminate|].
  apply fl_mono. lra.
Qed.

(** X4: for equipment that is not of negative age, the estimated cost is at
    least the base cost of the equipment type (1000 for a type the table does
    not know), whatever the risk level string, known or not; so it is never
    below 200. *)
Theorem X4_estimated_cost_at_least_base_cost :
  forall (equipment : EquipmentData) (risk_level : string),
    0 <= age_years equipment ->
    inject_Z (default 1000%Z (base_costs !! equipment_type equipment))
    <= _estimate_maintenance_cost equipment risk_level /\
    200 <= _estimate_maintenance_cost equipment risk_level.
Proof.
  intros equipment r Hage.
  pose proof (base_cost_exact (equipment_type equipment)) as [Hb H200]. cbv zeta in Hb, H200.
  pose proof (risk_multiplier_ge_1 r) as Hm.
  pose proof (age_multiplier_ge_1 _ Hage) as Hg.
  unfold _estimate_maintenance_cost. cbv zeta.
  set (b := default 1000%Z (base_costs !! equipment_type equipment)) in *.
  set (m := default (lit 1) (risk_multipliers !! r)) in *.
  set (g := (1 +~ age_years equipment /~ 20)%f64) in *.
  assert (Hb0 : 0 <= of_int b) by lra.
  assert (Hx : inject_Z b <= (of_int b *~ m)%f64).
  { apply Qle_trans with (fl (of_int b)).
    - unfold of_int. rewrite <- Hb at 1. unfold of_int.
      apply Qle_trans with (fl (inject_Z b)); [lra|].
      apply fl_mono. unfold of_int in Hb. lra.
    - apply fl_mono.
      apply Qle_trans with (of_int b * 1); [lra|].
      rewrite !(Qmult_comm (of_int b)). by apply Qmult_le_compat_r. }
  assert (Hc : inject_Z b <= (of_int b *~ m *~ g)%f64).
  { apply Qle_trans with (fl (inject_Z b)); [unfold of_int in Hb; lra|].
    apply fl_mono.
    apply Qle_trans with ((of_int b *~ m)%f64 * 1); [lra|].
    rewrite !(Qmult_comm (of_int b *~ m)%f64). apply Qmult_le_compat_r; lra. }
  split; lra.
Qed.

Lemma X4_estimated_cost_at_least_base_cost_witness :
  inject_Z (default 1000%Z (base_costs !! equipment_type eq_001))
  <= _estimate_maintenance_cost eq_001 "unknown" /\
  200 <= _estimate_maintenance_cost eq_001 "unknown".
Proof.
  apply (X4_estimated_cost_at_least_base_cost eq_001 "unknown").
  vm_compute. discriminate.
Defined.

Lemma risk_level_cases p d a :
  let r := _determine_risk_level p d a in
  r = "critical"%string \/ r = "high"%string \/ r = "medium"%string \/ r = "low"%string.
Proof.
  cbv zeta. unfold _determine_risk_level.
  repeat (match goal with |- context [if ?b then _ else _] => destruct b end); tauto.
Qed.

Lemma risk_multiplier_monotone r1 r2 :
  (r1 = "critical" \/ r1 = "high" \/ r1 = "medium" \/ r1 = "low")%string ->
  (r2 = "critical" \/ r2 = "high" \/ r2 = "medium" \/ r2 = "low")%string ->
  (severity r1 <= severity r2)%nat ->
  default (lit 1) (risk_multipliers !! r1) <= default (lit 1) (risk_multipliers !! r2).
Proof.
  intros H1 H2 Hs.
  destruct H1 as [->|[->|[->| ->]]]; destruct H2 as [->|[->|[->| ->]]];
    cbn in Hs; try lia; vm_compute; discriminate.
Qed.

(** X5: for equipment that is not of negative age, a higher failure
    probability never lowers the estimated cost of the prediction built from
    it, the equipment record and the anomaly flag being the same. *)
Theorem X5_estimated_cost_never_drops_with_probability :
  forall (equipment : EquipmentData) (p1 p2 : Q) (is_anomaly : bool),
    0 <= age_years equipment -> p1 <= p2 ->
    estimated_cost (prediction_of equipment p1 is_anomaly)
    <= estimated_cost (prediction_of equipment p2 is_anomaly).
Proof.
  intros equipment p1 p2 a Hage Hp. cbn [estimated_cost prediction_of].
  pose proof (base_cost_exact (equipment_type equipment)) as [Hb H200]. cbv zeta in Hb, H200.
  pose proof (age_multiplier_ge_1 _ Hage) as Hg.
  assert (Hs := risk_level_monotone p1 p2 _ _ a Hp
                  (days_to_failure_antitone p1 p2 equipment Hp)).
  apply risk_multiplier_monotone in Hs; [|apply risk_level_cases..].
  unfold _estimate_maintenance_cost. cbv zeta.
  apply fmul_mono_l; [lra|]. apply fmul_mono_r; [lra|exact Hs].
Qed.

Lemma X5_estimated_cost_never_drops_with_probability_witness :
  estimated_cost (prediction_of eq_001 (lit (3 # 10)) false)
  <= estimated_cost (prediction_of eq_001 (lit (7 # 10)) false).
Proof.
  apply (X5_estimated_cost_never_drops_with_probability eq_001
           (lit (3 # 10)) (lit (7 # 10)) false); vm_compute; discriminate.
Defined.

End ScoringOrder.

(** ** What the engine's predictions look like *)

Section EnginePredictions.
Import Runtime Engine Scenario EngineVocabulary Float64.
Local Open Scope Q_scope.

Lemma prediction_days_range equipment u a :
  0 <= u <= 1 ->
  (28 <= days_to_failure (prediction_of equipment (model_failure_prob u) a) <= 656)%Z.
Proof.
  intros Hu. cbn [days_to_failure prediction_of].
  destruct (model_failure_prob_range u Hu) as [Hlo Hhi]. split.
  - etransitivity; [apply days_to_failure_at_09|].
    by apply days_to_failure_antitone.
  - etransitivity; [|apply days_to_failure_at_01].
    by apply days_to_failure_antitone.
Qed.



(** A batch on a usable engine with a unit tape: every item is scored, and
    each prediction satisfies what holds of all predictions built from a unit
    sample. *)
Lemma batch_predict_Forall2 (P : EquipmentData -> MaintenancePrediction -> Prop) :
  (forall e u a, 0 <= u <= 1 -> P e (prediction_of e (model_failure_prob u) a)) ->
  forall equipment_list w,
    usable w -> unit_tape w ->
    exists predictions w',
      batch_predict equipment_list w = (Ok predictions, w') /\
      Forall2 P equipment_list predictions.
Proof.
  intros HP equipment_list w Hu Ht.
  unfold batch_predict, batch_predict_with. rewrite batch_loop.
  eexists _, _. split; [reflexivity|]. cbn [app].
  revert w Hu Ht. induction equipment_list as [|e es IH]; intros w Hu Ht.
  - constructor.
  - cbn [outcomes].
    destruct (predict_maintenance_run e w Hu) as (w1 & -> & _ & Hm & Hsame & _).
    assert (Ht1 : unit_tape w1) by (intros n; rewrite Hsame; apply Ht).
    specialize (IH w1 (or_intror Hm) Ht1).
    destruct (outcomes predict_maintenance es w1) as [rs w2].
    cbn [fst successes] in *. constructor; [|exact IH].
    apply HP, Ht.
Qed.


Lemma unit_tape_fresh_world : unit_tape fresh_world.
Proof.
  intros n. cbn [np_samples fresh_world]. unfold tape.
  pose proof (Z.mod_pos_bound (7919 * Z.of_nat n) 10007 ltac:(lia)) as Hm.
  unfold Qle. cbn [Qnum Qden]. lia.
Qed.


End EnginePredictions.

(** ** Engine state across calls, factors and recommendations *)

Section EngineBehaviour.
Import Runtime Engine Scenario EngineVocabulary Float64.
Local Open Scope Q_scope.





(** A trained engine whose detector is not fitted raises on every
    prediction and stays in that condition. *)
Lemma predict_maintenance_unfitted_detector equipment w :
  is_trained (self w) = true ->
  if_is_fitted (anomaly_detector (self w)) = false ->
  exists w',
    predict_maintenance equipment w = (Raise (ValueError "Model not fitted"), w') /\
    self w' = self w.
Proof.
  intros Ht Hd. destruct w as [[fm ad tr fc] samples cursor].
  cbn [self is_trained anomaly_detector] in Ht, Hd. subst tr.
  unfold predict_maintenance.
  erewrite bind_run by reflexivity. cbn [self is_trained].
  erewrite bind_run by reflexivity.
  erewrite bind_run by reflexivity. cbn [self failure_model anomaly_detector].
  unfold RandomForestRegressor_predict, IsolationForest_predict.
  destruct (rf_is_fitted fm).
  - cbn [prepare_features length replicateM].
    cbv [mbind M_bind bind mret M_ret ret np_random_uniform random_sample index0 get
         self failure_model anomaly_detector np_samples np_cursor].
    rewrite Hd. eexists. split; reflexivity.
  - eexists. split; reflexivity.
Qed.

(** X10: after training, replacing the anomaly detector by a new, unfitted
    one makes every prediction raise "Model not fitted" (no second bootstrap
    happens, since is_trained stays set), and [batch_predict] then returns an
    empty list for any equipment list, without raising. *)
Theorem X10_replaced_detector_empties_batches :
  forall (equipment : EquipmentData) (equipment_list : list EquipmentData) (w : World),
    is_trained (self w) = true ->
    (exists w', predict_maintenance equipment (detector_replaced w)
                = (Raise (ValueError "Model not fitted"), w')) /\
    (exists w', batch_predict equipment_list (detector_replaced w) = (Ok [], w')).
Proof.
  intros equipment equipment_list w Ht. split.
  - destruct (predict_maintenance_unfitted_detector equipment (detector_replaced w))
      as (w' & Hr & _); [exact Ht|reflexivity|]. by exists w'.
  - unfold batch_predict, batch_predict_with. rewrite batch_loop.
    eexists. f_equal. cbn [app]. f_equal.
    assert (H : is_trained (self (detector_replaced w)) = true /\
                if_is_fitted (anomaly_detector (self (detector_replaced w))) = false)
      by (split; [exact Ht|reflexivity]).
    revert H. generalize (detector_replaced w). clear w Ht.
    induction equipment_list as [|e es IH]; intros w [Ht Hd]; [reflexivity|].
    cbn [outcomes].
    destruct (predict_maintenance_unfitted_detector e w Ht Hd) as (w' & -> & Hself).
    specialize (IH w'). rewrite Hself in IH. specialize (IH (conj Ht Hd)).
    destruct (outcomes predict_maintenance es w') as [rs w2]. exact IH.
Qed.

Lemma X10_replaced_detector_empties_batches_witness :
  (exists w', predict_maintenance eq_001 (detector_replaced trained_world)
              = (Raise (ValueError "Model not fitted"), w')) /\
  (exists w', batch_predict main_equipment_data (detector_replaced trained_world)
              = (Ok [], w')).
Proof.
  apply (X10_replaced_detector_empties_batches eq_001 main_equipment_data trained_world).
  reflexivity.
Defined.

End EngineBehaviour.

(** ** Contributing factors and recommended actions *)

Section FactorsAndActions.
Import Runtime Engine Scenario EngineVocabulary Float64.
Local Open Scope Q_scope.

Ltac factor_case :=
  repeat match goal with
  | E : gtb _ _ = true |- _ => apply gtb_true in E
  | E : gtb _ _ = false |- _ => apply gtb_false in E
  | E : (_ <? _)%Z = true |- _ => apply Z.ltb_lt in E
  | E : (_ <? _)%Z = false |- _ => apply Z.ltb_ge in E
  | E : (_ <? _)%nat = true |- _ => apply Nat.ltb_lt in E
  | E : (_ <? _)%nat = false |- _ => apply Nat.ltb_ge in E
  end.

(** X11: the list of contributing factors is never empty; it is the single
    entry "Normal operating conditions" exactly when none of the seven
    conditions holds (age > 10, usage > 30000, temperature > 30, vibration > 5,
    more than 180 days since maintenance, anomaly, more than 2 earlier
    failures), and otherwise that entry does not occur in it. *)
Theorem X11_factors_default_to_normal_conditions :
  forall (equipment : EquipmentData) (is_anomaly : bool),
    _identify_factors equipment is_anomaly <> [] /\
    (_identify_factors equipment is_anomaly = ["Normal operating conditions"%string]
     <-> no_factor equipment is_anomaly) /\
    (~ no_factor equipment is_anomaly ->
     ~ In "Normal operating conditions"%string (_identify_factors equipment is_anomaly)).
Proof.
  intros equipment a. unfold _identify_factors, no_factor.
  destruct (gtb (age_years equipment) 10) eqn:E1;
  destruct (gtb (usage_hours equipment) 30000) eqn:E2;
  destruct (gtb (temperature equipment) 30) eqn:E3;
  destruct (gtb (vibration equipment) 5) eqn:E4;
  destruct (180 <? last_maintenance_days equipment)%Z eqn:E5;
  destruct a eqn:E6;
  destruct (2 <? length (failure_history equipment))%nat eqn:E7;
  cbn [app]; factor_case;
  (split; [discriminate|]);
  (split; [split; [intros Heq; try discriminate Heq; repeat split; first [lra|lia|reflexivity]
                  |intros (H1 & H2 & H3 & H4 & H5 & H6 & H7);
                   first [reflexivity|exfalso; first [lra|lia|discriminate]]]
          |intros Hno Hin; cbn [In] in Hin;
           first [apply Hno; repeat split; first [lra|lia|reflexivity]
                 |intuition discriminate]]).
Qed.

(** X12: the recommended actions number between 2 and 8; when the anomaly
    flag is set the last one is "Investigate unusual sensor readings", and when
    it is not set that action does not occur, whatever the risk level string
    and the equipment type. *)
Theorem X12_anomaly_action_comes_last :
  forall (equipment : EquipmentData) (risk_level : string) (is_anomaly : bool),
    let actions := _generate_recommendations equipment risk_level is_anomaly in
    (2 <= length actions <= 8)%nat /\
    (if is_anomaly
     then List.last actions ""%string = "Investigate unusual sensor readings"%string
     else ~ In "Investigate unusual sensor readings"%string actions).
Proof.
  intros equipment r a. cbv zeta. unfold _generate_recommendations.
  destruct (String.eqb r "critical"), (String.eqb r "high"), (String.eqb r "medium"),
    (String.eqb (equipment_type equipment) "hvac"),
    (String.eqb (equipment_type equipment) "elevator"),
    (String.eqb (equipment_type equipment) "generator"),
    (gtb (temperature equipment) 30), a;
    cbn [app length List.last In];
    (split; [lia|first [reflexivity|intuition discriminate]]).
Qed.

End FactorsAndActions.

(** ** The executor on arbitrary graphs *)

Section ExecutorFacts.
Import Runtime Graph Agent AgentScenario AgentVocabulary.
Context {S W : Type}.

Lemma truthy_nonempty name : name <> ""%string -> truthy (Some name) = Some name.
Proof. destruct name; [congruence|reflexivity]. Qed.

Lemma ainvoke_loop_unregistered fuel (g : CompiledGraph S W) name state w :
  c_nodes g !! name = None ->
  ainvoke_loop (Datatypes.S fuel) g (Some name) state w = Some (Ok state, w).
Proof.
  intros Hn. cbn [ainvoke_loop].
  destruct (truthy (Some name)) as [n|] eqn:Ht; [|reflexivity].
  assert (n = name) as -> by (destruct name; cbn in Ht; congruence).
  unfold Handler, M in *. by rewrite Hn.
Qed.

Lemma ainvoke_loop_follows (g : CompiledGraph S W) path stop :
  follows g path stop ->
  forall spare state w,
    ainvoke_loop (Datatypes.S (length path + spare)) g (Some (head_name path stop)) state w
    = Some (run_path path state w).
Proof.
  induction path as [|[name handler] rest IH]; intros Hf spare state w.
  - cbn [follows head_name] in *. by apply ainvoke_loop_unregistered.
  - cbn [follows] in Hf. destruct Hf as (Hne & Hn & [others He] & Hrest).
    cbn [head_name length run_path]. cbn [ainvoke_loop plus].
    rewrite (truthy_nonempty name Hne).
    unfold Handler, M in *. rewrite Hn.
    unfold mbind, M_bind, bind.
    destruct (handler state w) as [[state'|e] w']; [|reflexivity].
    rewrite He. apply (IH Hrest).
Qed.

(** X13: a run follows first recorded edges.  When the entry point starts a
    path of registered nodes, each one's first recorded edge leading to the
    next and the last one's to an unregistered name, [ainvoke] with one more
    iteration than the path is long returns what the handlers of the path
    return when applied in order; if one of them raises, the run returns that
    exception and calls none of the later handlers. *)
Theorem X13_run_follows_first_edges :
  forall (g : CompiledGraph S W) (path : list (string * Handler S W)) (stop : string)
         (spare : nat) (state : S) (w : W),
    c_entry_point g = Some (head_name path stop) ->
    follows g path stop ->
    ainvoke (Datatypes.S (length path + spare)) g state w = Some (run_path path state w).
Proof.
  intros g path stop spare state w He Hf. unfold ainvoke. rewrite He.
  by apply ainvoke_loop_follows.
Qed.

(** X14: a run whose entry point was never set, is the empty string, or
    names no registered node returns the state it was given and calls no
    handler. *)
Theorem X14_run_without_usable_entry_point :
  forall (g : CompiledGraph S W) (fuel : nat) (state : S) (w : W),
    c_entry_point g = None \/ c_entry_point g = Some ""%string \/
    (exists name, c_entry_point g = Some name /\ c_nodes g !! name = None) ->
    ainvoke (Datatypes.S fuel) g state w = Some (Ok state, w) /\
    ainvoke_trace (Datatypes.S fuel) g state w = Some (Ok state, w, []).
Proof.
  intros g fuel state w [He|[He|(name & He & Hn)]];
    unfold ainvoke, ainvoke_trace; rewrite He; try (split; reflexivity).
  split; [by apply ainvoke_loop_unregistered|].
  cbn [ainvoke_loop_trace].
  destruct (truthy (Some name)) as [n|] eqn:Ht; [|reflexivity].
  assert (n = name) as -> by (destruct name; cbn in Ht; congruence).
  unfold Handler, M in *. by rewrite Hn.
Qed.

(** X15: the executor does not detect cycles.  From a node of a set of
    registered nodes whose handlers always return and whose first recorded
    edges stay in the set, the loop of [ainvoke] does not end within any number
    of iterations. *)
Theorem X15_cycle_of_first_edges_never_returns :
  forall (g : CompiledGraph S W) (P : string -> Prop),
    closed_under_first_edges g P ->
    forall (fuel : nat) (name : string) (state : S) (w : W),
      P name -> ainvoke_loop fuel g (Some name) state w = None.
Proof.
  intros g P Hc fuel. induction fuel as [|fuel IH]; intros name state w Hp; [reflexivity|].
  destruct (Hc name Hp) as (Hne & handler & next & others & Hn & Hr & He & Hnext).
  cbn [ainvoke_loop]. rewrite (truthy_nonempty name Hne).
  unfold Handler, M in *. rewrite Hn.
  destruct (Hr state w) as (state' & w' & ->). rewrite He. by apply IH.
Qed.

Lemma add_edges_spec from_node targets : forall (g : StateGraph S W),
  edges (add_edges from_node targets g)
  = match targets with
    | [] => edges g
    | _ => <[from_node := default [] (edges g !! from_node) ++ targets]> (edges g)
    end /\
  nodes (add_edges from_node targets g) = nodes g /\
  entry_point (add_edges from_node targets g) = entry_point g.
Proof.
  induction targets as [|t ts IH]; intros g; [done|].
  cbn [add_edges fold_left]. fold (add_edges from_node ts (add_edge from_node t g)).
  destruct (IH (add_edge from_node t g)) as (He & Hn & Hp).
  rewrite He, Hn, Hp. cbn [add_edge edges nodes entry_point].
  split; [|done]. destruct ts as [|t' ts]; [done|].
  rewrite lookup_insert_eq. simpl default.
  rewrite insert_insert_eq, <- app_assoc. reflexivity.
Qed.

(** X16: [add_edge] only ever appends.  After recording edges from a node to
    the targets t1, ..., tn in that order, the node's edge list is its earlier
    list followed by t1, ..., tn; the edge lists of the other nodes, the
    registered handlers and the entry point are as before. *)
Theorem X16_add_edge_appends_in_recording_order :
  forall (g : StateGraph S W) (from_node : string) (targets : list string),
    targets <> [] ->
    edges (add_edges from_node targets g) !! from_node
    = Some (default [] (edges g !! from_node) ++ targets) /\
    (forall other, other <> from_node ->
       edges (add_edges from_node targets g) !! other = edges g !! other) /\
    c_nodes (compile (add_edges from_node targets g)) = nodes g /\
    c_entry_point (compile (add_edges from_node targets g)) = entry_point g.
Proof.
  intros g from_node targets Hne.
  destruct (add_edges_spec from_node targets g) as (He & Hn & Hp).
  destruct targets as [|t ts]; [congruence|].
  rewrite He. split; [apply lookup_insert_eq|].
  split; [intros other Ho; by apply lookup_insert_ne|].
  split; assumption.
Qed.

End ExecutorFacts.

Section ExecutorWitnesses.
Import Runtime Graph Agent AgentScenario AgentVocabulary.

Lemma X13_run_follows_first_edges_witness :
  ainvoke (Datatypes.S (length [("a"%string, increment); ("b"%string, double)] + 0))
    (compile two_stage_graph) 3%nat tt
  = Some (run_path [("a"%string, increment); ("b"%string, double)] 3%nat tt).
Proof.
  apply (X13_run_follows_first_edges (compile two_stage_graph)
           [("a"%string, increment); ("b"%string, double)] END 0 3%nat tt).
  - reflexivity.
  - cbn [follows head_name]. repeat split; try discriminate; try reflexivity;
      eexists; reflexivity.
Defined.

Lemma X14_run_without_usable_entry_point_witness :
  ainvoke 1 (compile (StateGraph_init (S := nat) (W := unit))) 3%nat tt = Some (Ok 3%nat, tt) /\
  ainvoke_trace 1 (compile (StateGraph_init (S := nat) (W := unit))) 3%nat tt
  = Some (Ok 3%nat, tt, []).
Proof.
  apply (X14_run_without_usable_entry_point (compile StateGraph_init) 0 3%nat tt).
  left. reflexivity.
Defined.

Lemma X15_cycle_of_first_edges_never_returns_witness :
  ainvoke_loop 1000 (compile looping_graph) (Some "a"%string) 0%nat tt = None.
Proof.
  apply (X15_cycle_of_first_edges_never_returns (compile looping_graph)
           (fun name => name = "a"%string)); [|reflexivity].
  intros name ->. split; [discriminate|].
  exists increment, "a"%string, []. repeat split.
  intros state w. by eexists _, _.
Defined.

Lemma X16_add_edge_appends_in_recording_order_witness :
  edges (add_edges "a" ["b"; "c"]%string two_stage_graph) !! "a"%string
  = Some (default [] (edges two_stage_graph !! "a"%string) ++ ["b"; "c"]%string) /\
  (forall other, other <> "a"%string ->
     edges (add_edges "a" ["b"; "c"]%string two_stage_graph) !! other
     = edges two_stage_graph !! other) /\
  c_nodes (compile (add_edges "a" ["b"; "c"]%string two_stage_graph)) = nodes two_stage_graph /\
  c_entry_point (compile (add_edges "a" ["b"; "c"]%string two_stage_graph))
  = entry_point two_stage_graph.
Proof.
  apply (X16_add_edge_appends_in_recording_order two_stage_graph "a" ["b"; "c"]%string).
  discriminate.
Defined.

End ExecutorWitnesses.

(** ** Loops that append *)

Section AppendingLoops.
Import Runtime Graph Agent AgentScenario AgentVocabulary.

Lemma for_each_ext {W A B} (xs : list A) (body1 body2 : B -> A -> M W B) :
  (forall acc x w, body1 acc x w = body2 acc x w) ->
  forall acc w, for_each xs acc body1 w = for_each xs acc body2 w.
Proof.
  intros Hb. induction xs as [|x xs IH]; intros acc w; [reflexivity|].
  cbn [for_each]. unfold mbind, M_bind, bind. rewrite Hb.
  destruct (body2 acc x w) as [[acc'|e] w']; [|reflexivity]. apply IH.
Qed.

Lemma ticked_ticked n m c : ticked n (ticked m c) = ticked (n + m) c.
Proof. unfold ticked. cbn. f_equal. lia. Qed.

Lemma for_each_appended {A B} (cond : A -> bool) (mk : list B -> A -> datetime -> B) xs :
  forall acc c,
    for_each xs acc
      (fun acc x => if cond x
                    then now ← datetime_now; mret (acc ++ [mk acc x now])
                    else mret acc) c
    = (Ok (acc ++ appended cond mk (instants c) (clock_cursor c) acc xs),
       ticked (length (List.filter cond xs)) c).
Proof.
  induction xs as [|x xs IH]; intros acc c.
  - cbn. rewrite app_nil_r. by destruct c.
  - cbn [for_each appended List.filter]. destruct (cond x).
    + erewrite bind_run; [|erewrite bind_run by reflexivity; reflexivity].
      rewrite IH. cbn [instants clock_cursor length].
      rewrite <- app_assoc. cbn [app]. f_equal.
      unfold ticked. cbn. f_equal. lia.
    + erewrite bind_run by reflexivity. apply IH.
Qed.

Lemma appended_timeless {A B} (cond : A -> bool) (mk : list B -> A -> B) xs :
  forall instants instants' k k' acc,
    appended cond (fun acc x _ => mk acc x) instants k acc xs
    = appended cond (fun acc x _ => mk acc x) instants' k' acc xs.
Proof.
  induction xs as [|x xs IH]; intros instants instants' k k' acc; [reflexivity|].
  cbn [appended]. destruct (cond x); [f_equal|]; apply IH.
Qed.

Lemma fold_left_appended {A B} (cond : A -> bool) (mk : list B -> A -> B) xs :
  forall acc,
    fold_left (fun acc x => if cond x then acc ++ [mk acc x] else acc) xs acc
    = acc ++ appended cond (fun acc x _ => mk acc x) (fun _ => 0%Z) 0 acc xs.
Proof.
  induction xs as [|x xs IH]; intros acc.
  - cbn. by rewrite app_nil_r.
  - cbn [fold_left appended]. destruct (cond x).
    + rewrite IH, <- app_assoc. cbn [app]. do 2 f_equal. apply appended_timeless.
    + apply IH.
Qed.

Lemma appended_length {A B} (cond : A -> bool) (mk : list B -> A -> datetime -> B)
    instants xs : forall k acc,
  length (appended cond mk instants k acc xs) = length (List.filter cond xs).
Proof.
  induction xs as [|x xs IH]; intros k acc; [reflexivity|].
  cbn [appended List.filter]. destruct (cond x); cbn [length]; by rewrite IH.
Qed.

Lemma appended_map {A B C} (cond : A -> bool) (mk : list B -> A -> datetime -> B)
    (f : B -> C) (g : A -> C) instants xs :
  (forall acc x t, f (mk acc x t) = g x) ->
  forall k acc, map f (appended cond mk instants k acc xs) = map g (List.filter cond xs).
Proof.
  intros H. induction xs as [|x xs IH]; intros k acc; [reflexivity|].
  cbn [appended List.filter]. destruct (cond x); cbn [map]; by rewrite ?H, IH.
Qed.

Lemma appended_numbered {A B} (cond : A -> bool) (mk : list B -> A -> datetime -> B)
    (label : B -> string) prefix instants xs :
  (forall acc x t, label (mk acc x t) = prefix +:+ pretty (length acc + 1)%nat) ->
  forall k acc,
    map label (appended cond mk instants k acc xs)
    = numbered prefix (S (length acc)) (length (List.filter cond xs)).
Proof.
  intros H. induction xs as [|x xs IH]; intros k acc; [reflexivity|].
  cbn [appended List.filter]. destruct (cond x); [|apply IH].
  cbn [map length]. rewrite H, IH. rewrite length_app. cbn [length].
  unfold numbered. cbn [seq map]. do 3 f_equal; lia.
Qed.

Lemma appended_Forall {A B} (cond : A -> bool) (mk : list B -> A -> datetime -> B)
    (P : B -> Prop) instants xs :
  (forall acc x t, cond x = true -> P (mk acc x t)) ->
  forall k acc, Forall P (appended cond mk instants k acc xs).
Proof.
  intros H. induction xs as [|x xs IH]; intros k acc; [constructor|].
  cbn [appended]. destruct (cond x) eqn:E; [constructor; [by apply H|apply IH]|apply IH].
Qed.

Lemma filter_true {A} (xs : list A) : List.filter (fun _ => true) xs = xs.
Proof. induction xs as [|x xs IH]; [reflexivity|]. cbn. by rewrite IH. Qed.

End AppendingLoops.

(** ** The handlers, one by one *)

Section HandlerRuns.
Import Runtime Graph Agent AgentScenario AgentVocabulary.
Local Open Scope Z_scope.

Lemma for_each_appended_all {A B} (mk : list B -> A -> datetime -> B) xs acc c :
  for_each xs acc (fun acc x => now ← datetime_now; mret (acc ++ [mk acc x now])) c
  = (Ok (acc ++ appended always mk (instants c) (clock_cursor c) acc xs),
     ticked (length xs) c).
Proof.
  rewrite <- (filter_true xs) at 3. exact (for_each_appended always mk xs acc c).
Qed.

Lemma fold_left_appended_all {A B} (mk : list B -> A -> B) xs acc :
  fold_left (fun acc x => acc ++ [mk acc x]) xs acc
  = acc ++ appended always (fun acc x _ => mk acc x) (fun _ => 0) 0 acc xs.
Proof. exact (fold_left_appended always mk xs acc). Qed.

Lemma _monitor_sensors_run state c :
  _monitor_sensors state c
  = (Ok (set_current_task "monitor_sensors"
           (set_context
              {| sensor_anomalies :=
                   Some (appended (fun x => _detect_sensor_anomaly x.2) anomaly_of
                           (instants c) (S (clock_cursor c)) [] (sensor_data state));
                 maintenance_predictions := maintenance_predictions (context state);
                 energy_optimizations := energy_optimizations (context state);
                 decisions := decisions (context state) |} state)),
     ticked (S (length (flagged (sensor_data state)))) c).
Proof.
  unfold _monitor_sensors.
  erewrite bind_run by reflexivity.
  erewrite bind_run.
  2:{ etransitivity.
      - apply (for_each_ext _ _
                 (fun acc x => if _detect_sensor_anomaly x.2
                               then now ← datetime_now; mret (acc ++ [anomaly_of acc x now])
                               else mret acc)).
        intros acc [id data] w. reflexivity.
      - apply for_each_appended. }
  cbn [app instants clock_cursor]. unfold mret, M_ret, ret. f_equal.
  unfold ticked, flagged. cbn [instants clock_cursor]. f_equal. lia.
Qed.

Lemma _generate_alerts_run state c :
  let anomalies := default [] (sensor_anomalies (context state)) in
  let predictions := default [] (maintenance_predictions (context state)) in
  let from_anomalies :=
    appended always (fun acc a _ => anomaly_alert acc a) (fun _ => 0) 0 [] anomalies in
  _generate_alerts state c
  = (Ok (set_current_task "generate_alerts"
           (set_alerts
              (alerts state ++ from_anomalies
               ++ appended always prediction_alert (instants c) (clock_cursor c)
                    from_anomalies predictions) state)),
     ticked (length predictions) c).
Proof.
  cbv zeta. unfold _generate_alerts. cbv zeta.
  change (fold_left _ (default [] (sensor_anomalies (context state))) [])
    with (fold_left (fun acc a => acc ++ [anomaly_alert acc a])
            (default [] (sensor_anomalies (context state))) []).
  rewrite fold_left_appended_all. cbn [app].
  erewrite bind_run by apply (for_each_appended_all prediction_alert).
  reflexivity.
Qed.

Lemma _generate_recommendations_run state c :
  let optimizations := default [] (energy_optimizations (context state)) in
  let predictions := default [] (maintenance_predictions (context state)) in
  let from_energy :=
    appended always (fun acc o _ => energy_recommendation acc o) (fun _ => 0) 0 []
      optimizations in
  _generate_recommendations state c
  = (Ok (set_current_task "provide_recommendations"
           (set_recommendations
              (recommendations state ++ from_energy
               ++ appended always (fun acc p _ => maintenance_recommendation acc p)
                    (fun _ => 0) 0 from_energy predictions) state)), c).
Proof.
  cbv zeta. unfold _generate_recommendations. cbv zeta.
  change (fold_left _ (default [] (energy_optimizations (context state))) [])
    with (fold_left (fun acc o => acc ++ [energy_recommendation acc o])
            (default [] (energy_optimizations (context state))) []).
  rewrite fold_left_appended_all. cbn [app].
  change (fold_left _ (default [] (maintenance_predictions (context state))) ?l)
    with (fold_left (fun acc p => acc ++ [maintenance_recommendation acc p])
            (default [] (maintenance_predictions (context state))) l).
  rewrite fold_left_appended_all. reflexivity.
Qed.

Lemma _make_decisions_run state c :
  let approvals :=
    appended auto_approvable approval_of (instants c) (clock_cursor c) []
      (recommendations state) in
  let critical_alerts := List.filter is_critical (alerts state) in
  _make_decisions state c
  = (Ok (set_context
           {| sensor_anomalies := sensor_anomalies (context state);
              maintenance_predictions := maintenance_predictions (context state);
              energy_optimizations := energy_optimizations (context state);
              decisions :=
                Some (match critical_alerts with
                      | [] => approvals
                      | _ => approvals ++
                             [ReviewDecision "human_review_required"
                                (pretty (length critical_alerts)
                                 +:+ " critical alerts require immediate attention")
                                (map alert_id critical_alerts)]
                      end) |} state),
     ticked (length (List.filter auto_approvable (recommendations state))) c).
Proof.
  cbv zeta. unfold _make_decisions.
  erewrite bind_run by apply (for_each_appended auto_approvable approval_of).
  reflexivity.
Qed.

End HandlerRuns.

(** ** What each handler stores *)

Section HandlerFacts.
Import Runtime Graph Agent AgentScenario AgentVocabulary Float64.
Local Open Scope Z_scope.

Lemma ltb_true (x y : Q) : ltb x y = true <-> (x < y)%Q.
Proof.
  unfold ltb. rewrite negb_true_iff, <- not_true_iff_false, Qle_bool_iff.
  split; [apply Qnot_le_lt|apply Qlt_not_le].
Qed.

Lemma thresholds_lookup (t : string) :
  thresholds !! t
  = if String.eqb t "temperature" then Some (15, 30)%Q
    else if String.eqb t "humidity" then Some (20, 80)%Q
    else if String.eqb t "energy" then Some (0, 2500)%Q
    else None.
Proof.
  unfold thresholds.
  destruct (String.eqb_spec t "temperature") as [->|H1]; [reflexivity|].
  rewrite lookup_insert_ne by congruence.
  destruct (String.eqb_spec t "humidity") as [->|H2]; [reflexivity|].
  rewrite lookup_insert_ne by congruence.
  destruct (String.eqb_spec t "energy") as [->|H3]; [reflexivity|].
  rewrite lookup_insert_ne by congruence.
  reflexivity.
Qed.

(** X17: a reading is flagged exactly when its type is temperature, humidity
    or energy and its value, 0 when the key is absent, lies outside the band
    [15,30], [20,80] or [0,2500]; the band edges are not flagged, and a reading
    of another type or without a type never is. *)
Theorem X17_sensor_reading_flagged_outside_its_band :
  forall data : SensorReading,
    let value := default 0%Q (reading_value data) in
    _detect_sensor_anomaly data = true <->
    (reading_type data = Some "temperature"%string /\ (value < 15 \/ 30 < value)%Q) \/
    (reading_type data = Some "humidity"%string /\ (value < 20 \/ 80 < value)%Q) \/
    (reading_type data = Some "energy"%string /\ (value < 0 \/ 2500 < value)%Q).
Proof.
  intros data. cbv zeta. unfold _detect_sensor_anomaly. cbv zeta.
  rewrite thresholds_lookup.
  destruct (reading_type data) as [t|].
  - change (default ""%string (Some t)) with t.
    destruct (String.eqb_spec t "temperature") as [->|H1].
    { cbv iota beta. rewrite orb_true_iff, ltb_true, gtb_true. split; [tauto|].
      intros [[_ H]|[[H _]|[H _]]]; [exact H|discriminate H..]. }
    destruct (String.eqb_spec t "humidity") as [->|H2].
    { cbv iota beta. rewrite orb_true_iff, ltb_true, gtb_true. split; [tauto|].
      intros [[H _]|[[_ H]|[H _]]]; [discriminate H|exact H|discriminate H]. }
    destruct (String.eqb_spec t "energy") as [->|H3].
    { cbv iota beta. rewrite orb_true_iff, ltb_true, gtb_true. split; [tauto|].
      intros [[H _]|[[H _]|[_ H]]]; [discriminate H..|exact H]. }
    split; [discriminate|]. intros [[H _]|[[H _]|[H _]]]; congruence.
  - change (default ""%string None) with ""%string. cbv iota beta.
    split; [discriminate|]. intros [[H _]|[[H _]|[H _]]]; discriminate H.
Qed.

(** X18: [_monitor_sensors] stores under context["sensor_anomalies"] one
    anomaly per flagged sensor, in the order of the sensor mapping, each of
    type threshold_exceeded and severity medium, replacing what the key held;
    it reads the clock once more than it stores anomalies and leaves alerts,
    recommendations and the readings as they were. *)
Theorem X18_monitor_stores_one_anomaly_per_flagged_sensor :
  forall (state : CampusAgentState) (clock : Clock),
    exists anomalies state',
      _monitor_sensors state clock = (Ok state', ticked (S (length anomalies)) clock) /\
      sensor_anomalies (context state') = Some anomalies /\
      map sensor_id anomalies = map fst (flagged (sensor_data state)) /\
      Forall (fun a => anomaly_severity a = "medium"%string /\
                       anomaly_type a = "threshold_exceeded"%string) anomalies /\
      alerts state' = alerts state /\
      recommendations state' = recommendations state /\
      sensor_data state' = sensor_data state.
Proof.
  intros state clock.
  exists (appended (fun x => _detect_sensor_anomaly x.2) anomaly_of (instants clock)
            (S (clock_cursor clock)) [] (sensor_data state)).
  eexists. split.
  - rewrite _monitor_sensors_run, appended_length. reflexivity.
  - cbn [context set_context set_current_task sensor_anomalies alerts recommendations
         sensor_data].
    split; [reflexivity|]. split; [by apply appended_map|].
    split; [|done]. apply appended_Forall. done.
Qed.

Lemma optimization_floor x :
  (default 1000%Q (current_consumption x.2) >~ 1200)%f64 = true ->
  (1200 < opt_current_consumption (optimization_of [] x))%Q /\
  (180 <= potential_savings (optimization_of [] x))%Q /\
  (27 <= estimated_cost_savings (optimization_of [] x))%Q.
Proof.
  intros H. apply gtb_true in H. unfold optimization_of. cbv zeta.
  cbn [opt_current_consumption potential_savings estimated_cost_savings].
  set (cc := default 1000%Q (current_consumption x.2)) in *.
  assert (H1 : (1200 <= fl cc)%Q).
  { apply fl_ge_const; [lra|reflexivity]. }
  assert (H2 : (180 <= (fl cc *~ lit (15 # 100))%f64)%Q).
  { apply Qle_trans with (fl (1200 * lit (15 # 100))); [vm_compute; discriminate|].
    apply fl_mono. apply Qmult_le_compat_r; [exact H1|vm_compute; discriminate]. }
  split; [exact H|]. split; [exact H2|].
  apply Qle_trans with (fl (180 * lit (15 # 100))); [vm_compute; discriminate|].
  apply fl_mono. apply Qmult_le_compat_r; [exact H2|vm_compute; discriminate].
Qed.

(** X19: [_optimize_energy] never reads the clock.  When a building whose
    consumption is above 1200 reports an int beyond the floats, it raises
    OverflowError and stores nothing.  Otherwise it returns, storing one
    optimization per building whose current consumption is above 1200, in the
    order of the building mapping, each with potential savings of at least 180
    and cost savings of at least 27.  A building without a consumption figure
    counts as 1000 and is never selected. *)
Theorem X19_optimizer_selects_buildings_above_1200 :
  forall (state : CampusAgentState) (clock : Clock),
    (forall id reading, current_consumption reading = None ->
       ~ In (id, reading) (high_consumers (energy_data state))) /\
    if energy_overflow (energy_data state)
    then _optimize_energy state clock
         = (Raise (OverflowError "int too large to convert to float"), clock)
    else exists optimizations state',
        _optimize_energy state clock = (Ok state', clock) /\
        energy_optimizations (context state') = Some optimizations /\
        map building_id optimizations = map fst (high_consumers (energy_data state)) /\
        Forall (fun o => (1200 < opt_current_consumption o)%Q /\
                         (180 <= potential_savings o)%Q /\
                         (27 <= estimated_cost_savings o)%Q) optimizations.
Proof.
  intros state clock. split.
  { intros id reading Hnone Hin. unfold high_consumers in Hin.
    apply filter_In in Hin as [_ Hc]. cbn in Hc. rewrite Hnone in Hc.
    cbn in Hc. discriminate. }
  rewrite _optimize_energy_run.
  destruct (energy_overflow (energy_data state)); [reflexivity|].
  exists (appended (fun x => (default 1000%Q (current_consumption x.2) >~ 1200)%f64)
            (fun acc x _ => optimization_of acc x) (fun _ => 0) 0%nat [] (energy_data state)).
  eexists. split; [reflexivity|].
  cbn [context set_context set_current_task energy_optimizations].
  split; [reflexivity|]. split; [by apply appended_map|].
  apply appended_Forall. intros acc x t Hc. by apply (optimization_floor x).
Qed.

Lemma numbered_app prefix first n m :
  numbered prefix first n ++ numbered prefix (first + n) m = numbered prefix first (n + m).
Proof. unfold numbered. by rewrite <- map_app, <- seq_app. Qed.

(** X20: [_generate_alerts] only appends to the alert list: one alert per
    stored sensor anomaly, carrying the anomaly's severity, then one per stored
    maintenance prediction, critical when the prediction's priority is high
    and warning otherwise.  The new alerts are numbered alert-1, alert-2, ...
    from 1, whatever alerts the state already holds; an absent context key
    counts as an empty list. *)
Theorem X20_alerts_are_appended_and_numbered_from_one :
  forall (state : CampusAgentState) (clock : Clock),
    let anomalies := default [] (sensor_anomalies (context state)) in
    let predictions := default [] (maintenance_predictions (context state)) in
    exists new state',
      _generate_alerts state clock = (Ok state', ticked (length predictions) clock) /\
      alerts state' = alerts state ++ new /\
      map alert_id new = numbered "alert-" 1 (length anomalies + length predictions) /\
      map alert_severity new
      = map anomaly_severity anomalies
        ++ map (fun p => if String.eqb (priority p) "high"
                         then "critical" else "warning")%string predictions /\
      context state' = context state /\
      recommendations state' = recommendations state.
Proof.
  intros state clock anomalies predictions.
  pose proof (_generate_alerts_run state clock) as Hrun. cbv zeta in Hrun.
  fold anomalies predictions in Hrun.
  eexists _, _. split; [exact Hrun|].
  cbn [alerts set_alerts set_current_task context recommendations].
  split; [reflexivity|]. split; [|split; [|done]].
  - rewrite map_app.
    rewrite (appended_numbered always _ alert_id "alert-") by reflexivity.
    rewrite (appended_numbered always _ alert_id "alert-") by reflexivity.
    rewrite appended_length, !filter_true. cbn [length].
    apply (numbered_app "alert-" 1).
  - rewrite map_app.
    rewrite (appended_map always _ alert_severity anomaly_severity) by reflexivity.
    rewrite (appended_map always _ alert_severity
               (fun p => if String.eqb (priority p) "high"
                         then "critical" else "warning")%string) by reflexivity.
    by rewrite !filter_true.
Qed.

(** X21: [_generate_recommendations] only appends to the recommendation
    list: one entry of priority 8 per stored energy optimization, then one per
    stored maintenance prediction, of priority 9 when the prediction's priority
    is high and 6 otherwise.  The new entries are numbered rec-1, rec-2, ...
    from 1; the clock is not read. *)
Theorem X21_recommendations_are_appended_and_numbered_from_one :
  forall (state : CampusAgentState) (clock : Clock),
    let optimizations := default [] (energy_optimizations (context state)) in
    let predictions := default [] (maintenance_predictions (context state)) in
    exists new state',
      _generate_recommendations state clock = (Ok state', clock) /\
      recommendations state' = recommendations state ++ new /\
      map rec_id new = numbered "rec-" 1 (length optimizations + length predictions) /\
      map rec_priority new
      = map (fun _ => 8) optimizations
        ++ map (fun p => if String.eqb (priority p) "high" then 9 else 6) predictions /\
      map rec_type new
      = map (fun _ => "energy_optimization"%string) optimizations
        ++ map (fun _ => "maintenance"%string) predictions /\
      context state' = context state /\ alerts state' = alerts state.
Proof.
  intros state clock optimizations predictions.
  pose proof (_generate_recommendations_run state clock) as Hrun. cbv zeta in Hrun.
  fold optimizations predictions in Hrun.
  eexists _, _. split; [exact Hrun|].
  cbn [recommendations set_recommendations set_current_task context alerts].
  split; [reflexivity|]. split; [|split; [|split; [|done]]].
  - rewrite map_app.
    rewrite (appended_numbered always _ rec_id "rec-") by reflexivity.
    rewrite (appended_numbered always _ rec_id "rec-") by reflexivity.
    rewrite appended_length, !filter_true. cbn [length].
    apply (numbered_app "rec-" 1).
  - rewrite map_app.
    rewrite (appended_map always _ rec_priority (fun _ => 8)) by reflexivity.
    rewrite (appended_map always _ rec_priority
               (fun p => if String.eqb (priority p) "high" then 9 else 6)) by reflexivity.
    by rewrite !filter_true.
  - rewrite map_app.
    rewrite (appended_map always _ rec_type (fun _ => "energy_optimization"%string))
      by reflexivity.
    rewrite (appended_map always _ rec_type (fun _ => "maintenance"%string))
      by reflexivity.
    by rewrite !filter_true.
Qed.

(** X22: [_make_decisions] stores, in order, one auto_approved decision per
    recommendation of type energy_optimization whose impact is not critical,
    and then, exactly when the state holds at least one critical alert, a
    single human_review_required decision listing the ids of the critical
    alerts.  It reads the clock once per approval and changes neither
    current_task nor the alerts and recommendations. *)
Theorem X22_review_decision_iff_critical_alert :
  forall (state : CampusAgentState) (clock : Clock),
    let approved := List.filter auto_approvable (recommendations state) in
    let critical_alerts := List.filter is_critical (alerts state) in
    exists approvals review state',
      _make_decisions state clock = (Ok state', ticked (length approved) clock) /\
      decisions (context state') = Some (approvals ++ review) /\
      map (fun d => match d with
                    | RecommendationDecision id _ _ _ => id
                    | ReviewDecision _ _ _ => ""%string
                    end) approvals = map rec_id approved /\
      Forall (fun d => is_review d = false) approvals /\
      review = match critical_alerts with
               | [] => []
               | _ => [ReviewDecision "human_review_required"
                         (pretty (length critical_alerts)
                          +:+ " critical alerts require immediate attention")
                         (map alert_id critical_alerts)]
               end /\
      current_task state' = current_task state /\
      alerts state' = alerts state /\ recommendations state' = recommendations state.
Proof.
  intros state clock approved critical_alerts.
  exists (appended auto_approvable approval_of (instants clock) (clock_cursor clock) []
            (recommendations state)).
  exists (match critical_alerts with
          | [] => []
          | _ => [ReviewDecision "human_review_required"
                    (pretty (length critical_alerts)
                     +:+ " critical alerts require immediate attention")
                    (map alert_id critical_alerts)]
          end).
  eexists. split; [apply _make_decisions_run|].
  cbn [context set_context decisions current_task alerts recommendations].
  split; [|split; [by apply appended_map|split; [by apply appended_Forall|done]]].
  unfold critical_alerts.
  destruct (List.filter is_critical (alerts state)); [by rewrite app_nil_r|reflexivity].
Qed.

End HandlerFacts.

(** ** The six stages composed *)

Section CampusRun.
Import Runtime Graph Agent AgentScenario AgentVocabulary AgentRun.
Local Open Scope Z_scope.

Lemma _predict_maintenance_run state c :
  _predict_maintenance state c
  = (Ok (set_current_task "predict_maintenance"
           (set_context
              {| sensor_anomalies := sensor_anomalies (context state);
                 maintenance_predictions :=
                   Some [inline_prediction (instants c (clock_cursor c))];
                 energy_optimizations := energy_optimizations (context state);
                 decisions := decisions (context state) |} state)),
     ticked 1 c).
Proof. reflexivity. Qed.

Lemma critical_after_prediction (l acc : list Alert) now t :
  List.filter is_critical (l ++ [prediction_alert acc (inline_prediction now) t]) <> [].
Proof.
  rewrite List.filter_app. intros H. apply app_eq_nil in H as [_ H]. discriminate H.
Qed.

Lemma campus_pipeline_run state c :
  let anomalies :=
    appended (fun x => _detect_sensor_anomaly x.2) anomaly_of (instants c)
      (S (clock_cursor c)) [] (sensor_data state) in
  let n := length (flagged (sensor_data state)) in
  let prediction := inline_prediction (instants c (S n + clock_cursor c)) in
  let optimizations :=
    appended (fun x => (default 1000%Q (current_consumption x.2) >~ 1200)%f64)
      (fun acc x _ => optimization_of acc x) (fun _ => 0) 0 [] (energy_data state) in
  let from_anomalies :=
    appended always (fun acc a _ => anomaly_alert acc a) (fun _ => 0) 0 [] anomalies in
  let new_alerts :=
    from_anomalies
    ++ [prediction_alert from_anomalies prediction (instants c (S (S n) + clock_cursor c))] in
  let from_energy :=
    appended always (fun acc o _ => energy_recommendation acc o) (fun _ => 0) 0 []
      optimizations in
  let new_recommendations :=
    from_energy ++ [maintenance_recommendation from_energy prediction] in
  let approvals :=
    appended auto_approvable approval_of (instants c) (S (S (S n)) + clock_cursor c) []
      (recommendations state ++ new_recommendations) in
  let critical_alerts := List.filter is_critical (alerts state ++ new_alerts) in
  energy_overflow (energy_data state) = false ->
  campus_pipeline state c
  = (Ok {| sensor_data := sensor_data state;
           maintenance_requests := maintenance_requests state;
           energy_data := energy_data state;
           alerts := alerts state ++ new_alerts;
           recommendations := recommendations state ++ new_recommendations;
           current_task := Some "provide_recommendations"%string;
           context :=
             {| sensor_anomalies := Some anomalies;
                maintenance_predictions := Some [prediction];
                energy_optimizations := Some optimizations;
                decisions :=
                  Some (approvals ++
                        [ReviewDecision "human_review_required"
                           (pretty (length critical_alerts)
                            +:+ " critical alerts require immediate attention")
                           (map alert_id critical_alerts)]) |};
           timestamp := timestamp state |},
     ticked (S (S (S n))
             + length (List.filter auto_approvable
                         (recommendations state ++ new_recommendations))) c).
Proof.
  cbv zeta. intros Hconv. unfold campus_pipeline.
  destruct state as [sd mr ed al rc ct [sa mp eo dc] ts]. cbn [energy_data] in Hconv.
  erewrite bind_run by apply _monitor_sensors_run.
  unfold set_context, set_current_task at 1.
  cbn [context alerts recommendations sensor_data energy_data maintenance_requests
       timestamp current_task sensor_anomalies maintenance_predictions
       energy_optimizations decisions].
  erewrite bind_run by apply _predict_maintenance_run.
  unfold set_context, set_current_task at 1.
  cbn [context alerts recommendations sensor_data energy_data maintenance_requests
       timestamp current_task sensor_anomalies maintenance_predictions
       energy_optimizations decisions instants clock_cursor ticked].
  erewrite bind_run
    by (rewrite _optimize_energy_run; cbn [energy_data]; rewrite Hconv; reflexivity).
  unfold set_context, set_current_task at 1.
  cbn [context alerts recommendations sensor_data energy_data maintenance_requests
       timestamp current_task sensor_anomalies maintenance_predictions
       energy_optimizations decisions].
  erewrite bind_run by apply _generate_alerts_run.
  unfold set_alerts, set_current_task at 1.
  cbn [context alerts recommendations sensor_data energy_data maintenance_requests
       timestamp current_task sensor_anomalies maintenance_predictions
       energy_optimizations decisions instants clock_cursor ticked].
  change (default [] (Some ?x)) with x.
  erewrite bind_run by apply _generate_recommendations_run.
  unfold set_recommendations, set_current_task at 1.
  cbn [context alerts recommendations sensor_data energy_data maintenance_requests
       timestamp current_task sensor_anomalies maintenance_predictions
       energy_optimizations decisions].
  change (default [] (Some ?x)) with x.
  rewrite _make_decisions_run.
  unfold set_context.
  cbn [context alerts recommendations sensor_data energy_data maintenance_requests
       timestamp current_task sensor_anomalies maintenance_predictions
       energy_optimizations decisions instants clock_cursor ticked].
  cbn [appended always app length Nat.add].
  rewrite !(app_assoc al).
  match goal with
  | |- context [List.filter is_critical ?l] =>
      destruct (List.filter is_critical l) eqn:E;
        [exfalso; revert E; apply critical_after_prediction|]
  end.
  f_equal. unfold ticked. cbn [instants clock_cursor]. f_equal. lia.
Qed.

Lemma numbered_length prefix first n : length (numbered prefix first n) = n.
Proof. unfold numbered. by rewrite length_map, length_seq. Qed.

Lemma numbered_NoDup prefix first n : NoDup (numbered prefix first n).
Proof.
  unfold numbered.
  change (NoDup ((fun i => prefix +:+ pretty i) <$> seq first n)).
  assert (Hinj : Inj (=) (=) (fun i : nat => prefix +:+ pretty i)).
  { intros i j H. apply (inj (String.app prefix)) in H. by apply (inj pretty) in H. }
  apply (NoDup_fmap_2 _), NoDup_seq.
Qed.

Lemma numbered_last prefix n :
  numbered prefix 1 (n + 1) = numbered prefix 1 n ++ [prefix +:+ pretty (n + 1)%nat].
Proof.
  unfold numbered. rewrite seq_app, map_app. cbn [seq map].
  by rewrite (Nat.add_comm 1 n).
Qed.

(** X23: one run of the six stages, from any state in which no selected
    consumption figure is an int beyond the floats (the run raises in the
    third stage otherwise).  It appends one medium
    alert per flagged sensor and then a critical alert for the elevator eq-002,
    numbered alert-1, alert-2, ... from 1, and one priority-8 recommendation
    per building above 1200 and then a priority-9 one for eq-002, numbered
    rec-1, rec-2, ... from 1.  The task left in the state is
    provide_recommendations, because the last stage sets none; readings,
    maintenance requests and timestamp are as given. *)
Theorem X23_campus_run_appends_alerts_and_recommendations :
  forall (state : CampusAgentState) (clock : Clock),
    energy_overflow (energy_data state) = false ->
    let n := length (flagged (sensor_data state)) in
    let m := length (high_consumers (energy_data state)) in
    exists final clock' new_alerts new_recommendations,
      campus_pipeline state clock = (Ok final, clock') /\
      alerts final = alerts state ++ new_alerts /\
      map alert_id new_alerts = numbered "alert-" 1 (n + 1) /\
      map alert_severity new_alerts = repeat "medium"%string n ++ ["critical"%string] /\
      recommendations final = recommendations state ++ new_recommendations /\
      map rec_id new_recommendations = numbered "rec-" 1 (m + 1) /\
      map rec_priority new_recommendations = repeat 8 m ++ [9] /\
      current_task final = Some "provide_recommendations"%string /\
      sensor_data final = sensor_data state /\
      energy_data final = energy_data state /\
      maintenance_requests final = maintenance_requests state /\
      timestamp final = timestamp state.
Proof.
  intros state clock Hconv n m.
  pose proof (campus_pipeline_run state clock) as Hrun. cbv zeta in Hrun.
  specialize (Hrun Hconv).
  eexists _, _, _, _. split; [exact Hrun|].
  cbn [alerts recommendations current_task sensor_data energy_data maintenance_requests
       timestamp].
  split; [reflexivity|].
  assert (Hn : forall k acc,
             length (appended always (fun acc (a : SensorAnomaly) (_ : datetime) =>
                                        anomaly_alert acc a) (fun _ => 0) 0 acc
                       (appended (fun x => _detect_sensor_anomaly x.2) anomaly_of
                          (instants clock) k [] (sensor_data state))) = n).
  { intros k acc. by rewrite appended_length, filter_true, appended_length. }
  assert (Hm : forall acc,
             length (appended always (fun acc (o : EnergyOptimization) (_ : datetime) =>
                                        energy_recommendation acc o) (fun _ => 0) 0 acc
                       (appended
                          (fun x => (default 1000%Q (current_consumption x.2) >~ 1200)%f64)
                          (fun acc x _ => optimization_of acc x) (fun _ => 0) 0 []
                          (energy_data state))) = m).
  { intros acc. by rewrite appended_length, filter_true, appended_length. }
  split; [|split; [|split; [reflexivity|split; [|split; [|done]]]]].
  - rewrite map_app, numbered_last. cbn [map prediction_alert alert_id]. rewrite Hn.
    f_equal. rewrite (appended_numbered always _ alert_id "alert-") by reflexivity.
    by rewrite filter_true, appended_length.
  - rewrite map_app. cbn [map]. f_equal.
    rewrite (appended_map always _ alert_severity anomaly_severity) by reflexivity.
    rewrite filter_true.
    rewrite (appended_map _ _ anomaly_severity (fun _ => "medium"%string)) by reflexivity.
    by rewrite map_const.
  - rewrite map_app, numbered_last. cbn [map maintenance_recommendation rec_id]. rewrite Hm.
    f_equal. rewrite (appended_numbered always _ rec_id "rec-") by reflexivity.
    by rewrite filter_true, appended_length.
  - rewrite map_app. cbn [map]. f_equal.
    rewrite (appended_map always _ rec_priority (fun _ => 8)) by reflexivity.
    by rewrite filter_true, map_const, appended_length.
Qed.

Lemma X23_campus_run_appends_alerts_and_recommendations_witness :
  let n := length (flagged (sensor_data sample_state)) in
  let m := length (high_consumers (energy_data sample_state)) in
  exists final clock' new_alerts new_recommendations,
    campus_pipeline sample_state sample_clock = (Ok final, clock') /\
    alerts final = alerts sample_state ++ new_alerts /\
    map alert_id new_alerts = numbered "alert-" 1 (n + 1) /\
    map alert_severity new_alerts = repeat "medium"%string n ++ ["critical"%string] /\
    recommendations final = recommendations sample_state ++ new_recommendations /\
    map rec_id new_recommendations = numbered "rec-" 1 (m + 1) /\
    map rec_priority new_recommendations = repeat 8 m ++ [9] /\
    current_task final = Some "provide_recommendations"%string /\
    sensor_data final = sensor_data sample_state /\
    energy_data final = energy_data sample_state /\
    maintenance_requests final = maintenance_requests sample_state /\
    timestamp final = timestamp sample_state.
Proof.
  apply (X23_campus_run_appends_alerts_and_recommendations sample_state sample_clock).
  vm_compute. reflexivity.
Defined.

(** X24: every run of the six stages that does not raise, that is, from a
    state in which no selected consumption figure is an int beyond the floats,
    ends by asking for human review.  The decisions it stores are the automatic approvals, one per energy
    recommendation the state holds after the run whose impact is not critical,
    followed by exactly one human_review_required decision, whose alert list
    contains the elevator alert of this run: the in-line health score of eq-002
    is below 60 on every run.  The clock is read once per flagged sensor, once
    per approval and three more times. *)
Theorem X24_campus_run_always_asks_for_human_review :
  forall (state : CampusAgentState) (clock : Clock),
    energy_overflow (energy_data state) = false ->
    let n := length (flagged (sensor_data state)) in
    let m := length (high_consumers (energy_data state)) in
    let approved_before := length (List.filter auto_approvable (recommendations state)) in
    exists final approvals reason alert_ids,
      campus_pipeline state clock
      = (Ok final, ticked (n + (approved_before + m) + 3) clock) /\
      decisions (context final)
      = Some (approvals ++ [ReviewDecision "human_review_required" reason alert_ids]) /\
      Forall (fun d => is_review d = false) approvals /\
      length approvals = (approved_before + m)%nat /\
      In ("alert-" +:+ pretty (n + 1)%nat) alert_ids /\
      alert_ids = map alert_id (List.filter is_critical (alerts final)).
Proof.
  intros state clock Hconv n m approved_before.
  pose proof (campus_pipeline_run state clock) as Hrun. cbv zeta in Hrun.
  specialize (Hrun Hconv).
  match type of Hrun with
  | _ = (_, ticked (_ + length (List.filter auto_approvable (_ ++ ?new))) _) =>
      assert (Ha : length (List.filter auto_approvable (recommendations state ++ new))
                   = (approved_before + m)%nat)
  end.
  { rewrite !List.filter_app, !length_app. cbn [List.filter length]. fold approved_before.
    rewrite Nat.add_0_r. f_equal.
    assert (Hall : forall l k acc,
               List.filter auto_approvable
                 (appended always (fun acc (o : EnergyOptimization) (_ : datetime) =>
                                     energy_recommendation acc o) (fun _ => 0) k acc l)
               = appended always (fun acc (o : EnergyOptimization) (_ : datetime) =>
                                    energy_recommendation acc o) (fun _ => 0) k acc l).
    { induction l as [|o l IH]; intros k acc; [reflexivity|].
      cbn [appended always]. cbv zeta. cbn [List.filter].
      change (auto_approvable (energy_recommendation acc o)) with true.
      cbv iota. by rewrite IH. }
    rewrite Hall, appended_length, filter_true, appended_length. reflexivity. }
  eexists _, _, _, _. split.
  { rewrite Hrun, Ha. f_equal. unfold ticked. f_equal. unfold n. lia. }
  cbn [context decisions alerts].
  split; [reflexivity|]. split; [by apply appended_Forall|].
  split; [by rewrite appended_length|]. split; [|reflexivity].
  rewrite !(app_assoc (alerts state)), List.filter_app, map_app.
  apply in_or_app. right. cbn [List.filter is_critical prediction_alert alert_severity
                                inline_prediction priority String.eqb Ascii.eqb Bool.eqb
                                map alert_id].
  left. by rewrite appended_length, filter_true, appended_length.
Qed.

Lemma X24_campus_run_always_asks_for_human_review_witness :
  let n := length (flagged (sensor_data sample_state)) in
  let m := length (high_consumers (energy_data sample_state)) in
  let approved_before :=
    length (List.filter auto_approvable (recommendations sample_state)) in
  exists final approvals reason alert_ids,
    campus_pipeline sample_state sample_clock
    = (Ok final, ticked (n + (approved_before + m) + 3) sample_clock) /\
    decisions (context final)
    = Some (approvals ++ [ReviewDecision "human_review_required" reason alert_ids]) /\
    Forall (fun d => is_review d = false) approvals /\
    length approvals = (approved_before + m)%nat /\
    In ("alert-" +:+ pretty (n + 1)%nat) alert_ids /\
    alert_ids = map alert_id (List.filter is_critical (alerts final)).
Proof.
  apply (X24_campus_run_always_asks_for_human_review sample_state sample_clock).
  vm_compute. reflexivity.
Defined.

End CampusRun.

(** ** The entry point *)

Section EntryPoint.
Import Runtime Graph Agent AgentScenario AgentVocabulary AgentRun.
Local Open Scope Z_scope.

Lemma bind_ret_r {W A} (m : M W A) w : (a ← m; mret a) w = m w.
Proof. unfold mbind, M_bind, bind. by destruct (m w) as [[a|e] w']. Qed.

Lemma run_campus_path state clock :
  run_path campus_path state clock = campus_pipeline state clock.
Proof.
  unfold campus_pipeline, campus_path. cbn [run_path].
  unfold mbind, M_bind, bind.
  destruct (_monitor_sensors state clock) as [[s1|e] c1]; [|reflexivity].
  destruct (_predict_maintenance s1 c1) as [[s2|e] c2]; [|reflexivity].
  destruct (_optimize_energy s2 c2) as [[s3|e] c3]; [|reflexivity].
  destruct (_generate_alerts s3 c3) as [[s4|e] c4]; [|reflexivity].
  destruct (_generate_recommendations s4 c4) as [[s5|e] c5]; [|reflexivity].
  by destruct (_make_decisions s5 c5) as [[s6|e] c6].
Qed.

Lemma campus_graph_follows : follows _build_agent_graph campus_path END.
Proof.
  cbn [follows campus_path head_name].
  repeat split; try discriminate; try reflexivity; eexists; reflexivity.
Qed.

Lemma ainvoke_campus spare state clock :
  ainvoke (7 + spare) _build_agent_graph state clock
  = Some (campus_pipeline state clock).
Proof.
  rewrite <- run_campus_path. unfold ainvoke.
  exact (ainvoke_loop_follows _build_agent_graph campus_path END campus_graph_follows
           spare state clock).
Qed.

(** X25: [process_campus_data] on an agent that holds the graph of
    [_build_agent_graph], with room for seven iterations of the executor's
    loop.  When a selected consumption figure is an int beyond the floats it
    raises the OverflowError of the third stage and returns no result.
    Otherwise it returns: it appends exactly one state, the final state of the
    run, to state_history and leaves the earlier entries alone; the returned
    alerts and recommendations are those of this run only (one alert per
    flagged sensor plus one, one recommendation per building above 1200 plus
    one) with pairwise distinct ids, and the returned timestamp is the first
    clock reading of the call. *)
Theorem X25_process_campus_data_records_one_state :
  forall (fuel : nat) (self : SmartCampusAgent)
         (sensor_data : list (string * SensorReading))
         (energy_data : list (string * EnergyReading)) (clock : Clock),
    graph self = _build_agent_graph ->
    (7 <= fuel)%nat ->
    if energy_overflow energy_data
    then exists clock',
        process_campus_data fuel self sensor_data energy_data clock
        = Some (Raise (OverflowError "int too large to convert to float"), clock')
    else exists results final clock',
        process_campus_data fuel self sensor_data energy_data clock
        = Some (Ok (results, {| graph := graph self;
                                state_history := state_history self ++ [final] |}),
                clock') /\
        results_alerts results = alerts final /\
        results_recommendations results = recommendations final /\
        results_context results = context final /\
        results_timestamp results = instants clock (clock_cursor clock) /\
        length (results_alerts results) = (length (flagged sensor_data) + 1)%nat /\
        length (results_recommendations results)
        = (length (high_consumers energy_data) + 1)%nat /\
        NoDup (map alert_id (results_alerts results)) /\
        NoDup (map rec_id (results_recommendations results)) /\
        Agent.sensor_data final = sensor_data /\ Agent.energy_data final = energy_data.
Proof.
  intros fuel self sensor_data energy_data clock Hg Hfuel.
  replace fuel with (7 + (fuel - 7))%nat by lia.
  destruct (energy_overflow energy_data) eqn:Hover;
    unfold process_campus_data, initial_state;
    erewrite bind_run by reflexivity;
    unfold mret at 1, M_ret at 1, ret at 1;
    rewrite Hg, ainvoke_campus.
  { match goal with
    | |- context [campus_pipeline ?s ?c] =>
        destruct (campus_wired_abort campus_workflow s c 0%nat campus_workflow_wired Hover)
          as (clock' & Hp & _); rewrite Hp
    end.
    by exists clock'. }
  match goal with
  | |- context [campus_pipeline ?s ?c] =>
      pose proof (campus_pipeline_run s c) as Hrun; cbv zeta in Hrun;
      rewrite (Hrun Hover)
  end.
  eexists _, _, _. split; [reflexivity|].
  cbn [results_alerts results_recommendations results_context results_timestamp
       alerts recommendations context timestamp Agent.sensor_data Agent.energy_data
       app].
  split; [reflexivity|]. split; [reflexivity|]. split; [reflexivity|].
  split; [reflexivity|].
  split; [by rewrite length_app, appended_length, filter_true, appended_length|].
  split; [by rewrite length_app, appended_length, filter_true, appended_length|].
  split; [|split; [|done]].
  - rewrite map_app. cbn [map prediction_alert alert_id].
    rewrite (appended_numbered always _ alert_id "alert-") by reflexivity.
    rewrite appended_length, !filter_true, appended_length.
    rewrite <- numbered_last. apply numbered_NoDup.
  - rewrite map_app. cbn [map maintenance_recommendation rec_id].
    rewrite (appended_numbered always _ rec_id "rec-") by reflexivity.
    rewrite appended_length, !filter_true, appended_length.
    rewrite <- numbered_last. apply numbered_NoDup.
Qed.

Lemma X25_process_campus_data_records_one_state_witness :
  (exists results final clock',
     process_campus_data 7 SmartCampusAgent_init main_sensor_data main_energy_data
       sample_clock
     = Some (Ok (results, {| graph := graph SmartCampusAgent_init;
                             state_history := state_history SmartCampusAgent_init
                                              ++ [final] |}),
             clock') /\
     results_alerts results = alerts final /\
     results_recommendations results = recommendations final /\
     results_context results = context final /\
     results_timestamp results = instants sample_clock (clock_cursor sample_clock) /\
     length (results_alerts results) = (length (flagged main_sensor_data) + 1)%nat /\
     length (results_recommendations results)
     = (length (high_consumers main_energy_data) + 1)%nat /\
     NoDup (map alert_id (results_alerts results)) /\
     NoDup (map rec_id (results_recommendations results)) /\
     Agent.sensor_data final = main_sensor_data /\
     Agent.energy_data final = main_energy_data) /\
  exists clock',
    process_campus_data 7 SmartCampusAgent_init main_sensor_data overflowing_energy_data
      sample_clock
    = Some (Raise (OverflowError "int too large to convert to float"), clock').
Proof.
  split.
  - exact (X25_process_campus_data_records_one_state 7 SmartCampusAgent_init
             main_sensor_data main_energy_data sample_clock eq_refl (le_n 7)).
  - exact (X25_process_campus_data_records_one_state 7 SmartCampusAgent_init
             main_sensor_data overflowing_energy_data sample_clock eq_refl (le_n 7)).
Defined.

End EntryPoint.
